(** * Climate-Data-API: the statistics extractor, the clipper's naming and the
      antecedent precipitation index, embedded from the Python sources

    The development follows [src/data_processing.py], [src/utils.py] and
    [src/napi.py].  Floating-point numbers are idealised: a finite float is an
    exact rational ([Qc]), the not-a-number value is a constructor of its own,
    and rounding is decimal round-half-to-even on the exact value.  A power
    too large for a float raises, as [**] does in Python; infinities and
    binary rounding error are outside the model. *)

From Stdlib Require Import ZArith QArith Qcanon Qround Lqa Ascii String List Sorted Lia.
From stdpp Require Import base option list strings gmap.

Local Open Scope Z_scope.

(** ** Numbers: float64 values as exact rationals plus NaN *)

Module Num.

Inductive num : Type :=
| Fin (q : Qc)
| NaN.

Global Instance num_eq_dec : EqDecision num.
Proof. solve_decision. Defined.

Definition qc (n : Z) (d : positive) : Qc := Q2Qc (n # d).

Definition is_nan (x : num) : bool :=
  match x with NaN => true | Fin _ => false end.

Definition Qc_eqb (a b : Qc) : bool := Qeq_bool a b.
Definition Qc_leb (a b : Qc) : bool := Qle_bool a b.
Definition Qc_ltb (a b : Qc) : bool := negb (Qle_bool b a).

(** IEEE comparisons: every ordered comparison with NaN is false, [!=] with
    NaN is true. *)
Definition feqb (x y : num) : bool :=
  match x, y with Fin a, Fin b => Qc_eqb a b | _, _ => false end.
Definition fneb (x y : num) : bool := negb (feqb x y).
Definition fltb (x y : num) : bool :=
  match x, y with Fin a, Fin b => Qc_ltb a b | _, _ => false end.
Definition fgtb (x y : num) : bool := fltb y x.

Definition lift2 (f : Qc -> Qc -> Qc) (x y : num) : num :=
  match x, y with Fin a, Fin b => Fin (f a b) | _, _ => NaN end.

Definition fadd : num -> num -> num := lift2 Qcplus.
Definition fsub : num -> num -> num := lift2 Qcminus.
Definition fmul : num -> num -> num := lift2 Qcmult.
(** Division is only ever applied with a divisor the caller has checked to be
    nonzero (or the literals 25.40 and 5). *)
Definition fdiv : num -> num -> num := lift2 Qcdiv.

Definition fabs (x : num) : num :=
  match x with
  | Fin a => Fin (if Qc_ltb a 0%Qc then Qcopp a else a)
  | NaN => NaN
  end.

(** [rint]: nearest integer, ties to the even one. *)
Definition rint (q : Qc) : Z :=
  let f := Qfloor q in
  let r := (q - Q2Qc (inject_Z f))%Qc in
  let half := qc 1 2 in
  if Qc_ltb r half then f
  else if Qc_ltb half r then f + 1
  else if Z.even f then f else f + 1.

Definition pow10 (n : Z) : Qc := Qcpower (qc 10 1) (Z.to_nat n).

(** [round(x, decimals)] on a float64: scale by [10^decimals], [rint], scale
    back; a negative [decimals] rounds to tens, hundreds, ... *)
Definition round_qc (q : Qc) (decimals : Z) : Qc :=
  if 0 <=? decimals
  then (Q2Qc (inject_Z (rint (q * pow10 decimals))) / pow10 decimals)%Qc
  else (Q2Qc (inject_Z (rint (q / pow10 (- decimals)))) * pow10 (- decimals))%Qc.

Definition round (x : num) (decimals : Z) : num :=
  match x with
  | Fin q => Fin (round_qc q decimals)
  | NaN => NaN
  end.

(** A float64 holds magnitudes below [2^1024]; an exact value at or beyond
    [2^1024 - 2^970] rounds to infinity. *)
Definition float_overflow_bound : Qc := Q2Qc (inject_Z (2 ^ 1024 - 2 ^ 970)).

Definition Qc_abs (q : Qc) : Qc := if Qc_ltb q 0%Qc then Qcopp q else q.

(** [k ** j] for an integer exponent [j >= 1] (the only exponents the code
    uses): the exact power, or [None] for the [OverflowError] Python raises
    when the power is too large for a float. *)
Definition fpow (k : num) (j : Z) : option num :=
  match k with
  | Fin q =>
      let p := Qcpower q (Z.to_nat j) in
      if Qc_leb float_overflow_bound (Qc_abs p) then None else Some (Fin p)
  | NaN => Some NaN
  end.

End Num.
Import Num.


(** ** Text: the [str] and [os.path] operations the sources use (POSIX paths,
    ASCII text) *)

Module Text.

Local Open Scope string_scope.

(** The double-quote character, used inside log messages. *)
Definition dq : string := String "034"%char "".

(** [s.split(sep)] for a one-character separator: every occurrence cuts, so
    the result is never empty and may hold empty fields. *)
Fixpoint split_on (sep : ascii) (s : string) : list string :=
  match s with
  | "" => [""]
  | String c s' =>
      if Ascii.eqb c sep then "" :: split_on sep s'
      else match split_on sep s' with
           | [] => [String c ""]
           | p :: ps => String c p :: ps
           end
  end.

(** [s.rfind(c)]: the index of the last occurrence, [-1] when there is none. *)
Fixpoint rfind_from (c : ascii) (s : string) (i : Z) (last : Z) : Z :=
  match s with
  | "" => last
  | String a s' => rfind_from c s' (i + 1) (if Ascii.eqb a c then i else last)
  end.
Definition rfind (c : ascii) (s : string) : Z := rfind_from c s 0 (-1).

(** The slice [s[i:j]] for [0 <= i <= j]. *)
Definition slice (s : string) (i j : Z) : string :=
  substring (Z.to_nat i) (Z.to_nat (j - i)) s.
Definition slice_from (s : string) (i : Z) : string :=
  substring (Z.to_nat i) (String.length s - Z.to_nat i) s.

(** [os.path.basename(p)] is [p[p.rfind('/') + 1:]]. *)
Definition basename (p : string) : string := slice_from p (rfind "/" p + 1).

(** [os.path.splitext(p)]: cut at the last dot of the last path component,
    unless that component has only dots before it. *)
Definition splitext (p : string) : string * string :=
  let sepIndex := rfind "/" p in
  let dotIndex := rfind "." p in
  if (sepIndex <? dotIndex)%Z
     && existsb (fun c => negb (Ascii.eqb c "."))
                (list_ascii_of_string (slice p (sepIndex + 1) dotIndex))
  then (slice p 0 dotIndex, slice_from p dotIndex)
  else (p, "").

Definition lower_ascii (c : ascii) : ascii :=
  let n := nat_of_ascii c in
  if (65 <=? n)%nat && (n <=? 90)%nat then ascii_of_nat (n + 32) else c.

Fixpoint lower (s : string) : string :=
  match s with
  | "" => ""
  | String c s' => String (lower_ascii c) (lower s')
  end.

Definition startswith (s pre : string) : bool := String.prefix pre s.

Definition endswith (s suf : string) : bool :=
  let n := String.length s in
  let m := String.length suf in
  (m <=? n)%nat && String.eqb (substring (n - m) m s) suf.

(** [os.path.join(a, b)] for two components. *)
Definition path_join (a b : string) : string :=
  if startswith b "/" then b
  else if String.eqb a "" || endswith a "/" then a ++ b
  else a ++ "/" ++ b.

End Text.
Import Text.

(** ** Logging: the records the module-level [logger] receives

    Only the [logger] calls of the modelled functions are recorded; [print]
    output and the progress display are left out.  A message keeps its fixed
    text and the strings interpolated into it. *)

Inductive level : Type := INFO | WARNING | ERROR.

Definition log_entry : Type := level * string.

Global Instance level_eq_dec : EqDecision level.
Proof. solve_decision. Defined.

(** ** Exceptions *)

Inductive exn : Type :=
| ValueError (msg : string)
| TypeError
| KeyError
| FileNotFoundError
| RasterioIOError
| OverflowError.

Global Instance exn_eq_dec : EqDecision exn.
Proof. solve_decision. Defined.

Inductive result (A : Type) : Type :=
| Ok (a : A)
| Raise (e : exn).
Arguments Ok {A} a.
Arguments Raise {A} e.

Global Instance result_eq_dec {A} `{EqDecision A} : EqDecision (result A).
Proof. solve_decision. Defined.

Definition rbind {A B} (m : result A) (f : A -> result B) : result B :=
  match m with
  | Ok a => f a
  | Raise e => Raise e
  end.

Notation "x <- m ;;; k" := (rbind m (fun x => k))
  (at level 100, m at next level, right associativity).

(** ** [calculate_stats] (src/data_processing.py) *)

Module Stats.

Local Open Scope string_scope.

Definition fmin (x y : num) : num :=
  match x, y with
  | Fin a, Fin b => Fin (if Qc_leb a b then a else b)
  | _, _ => NaN
  end.

Definition fmax (x y : num) : num :=
  match x, y with
  | Fin a, Fin b => Fin (if Qc_leb a b then b else a)
  | _, _ => NaN
  end.

(** [np.min], [np.max]: a NaN anywhere makes the result NaN.  numpy raises on
    an empty array; every caller checks [size == 0] first. *)
Definition np_min (a : list num) : num :=
  match a with
  | [] => NaN
  | x :: xs => fold_left fmin xs x
  end.

Definition np_max (a : list num) : num :=
  match a with
  | [] => NaN
  | x :: xs => fold_left fmax xs x
  end.

Definition of_Z (n : Z) : num := Fin (Q2Qc (inject_Z n)).
Definition of_dec (n : Z) (d : positive) : num := Fin (qc n d).

Definition fsum (a : list num) : num := fold_left fadd a (of_Z 0).

Definition np_mean (a : list num) : num :=
  match a with
  | [] => NaN
  | _ => fdiv (fsum a) (of_Z (Z.of_nat (length a)))
  end.

(** Sorting the finite values, for the median. *)
Fixpoint insert_qc (x : Qc) (l : list Qc) : list Qc :=
  match l with
  | [] => [x]
  | y :: l' => if Qc_leb x y then x :: l else y :: insert_qc x l'
  end.

Definition sort_qc (l : list Qc) : list Qc := fold_right insert_qc [] l.

Fixpoint finite_values (a : list num) : option (list Qc) :=
  match a with
  | [] => Some []
  | Fin q :: a' => option_map (cons q) (finite_values a')
  | NaN :: _ => None
  end.

(** [np.median]: the middle element of the sorted sample, or the mean of the
    two middle ones; NaN if the sample holds a NaN. *)
Definition np_median (a : list num) : num :=
  match finite_values a with
  | None => NaN
  | Some qs =>
      let s := sort_qc qs in
      let n := length s in
      let h := (n / 2)%nat in
      if Nat.even n
      then match s !! (h - 1)%nat, s !! h with
           | Some lo, Some hi => Fin ((lo + hi) / qc 2 1)%Qc
           | _, _ => NaN
           end
      else match s !! h with
           | Some m => Fin m
           | None => NaN
           end
  end.

(** [np.all(np.isnan(a))] *)
Definition all_nan (a : list num) : bool := forallb is_nan a.

Record stats : Type := mk_stats {
  st_min : num; st_max : num; st_mean : num; st_median : num
}.

Global Instance stats_eq_dec : EqDecision stats.
Proof. solve_decision. Defined.

(** millimetres to inches: [x / 25.40] *)
Definition mm_to_in (x : num) : num := fdiv x (of_dec 254 10).
(** Celsius to Fahrenheit: [(x * 9/5) + 32] *)
Definition c_to_f (x : num) : num :=
  fadd (fdiv (fmul x (of_Z 9)) (of_Z 5)) (of_Z 32).

Definition stats_with (conv : num -> num) (cmin cmax cmean cmed : num)
    (decimals : Z) : stats :=
  {| st_min := round (conv cmin) decimals;
     st_max := round (conv cmax) decimals;
     st_mean := round (conv cmean) decimals;
     st_median := round (conv cmed) decimals |}.

Definition generic_warning (climate : string) : log_entry :=
  (WARNING, "Climate variable " ++ dq ++ climate ++ dq
            ++ " not explicitly handled. Calculating generic statistics.").

(** Returns the statistics and the records it logged. *)
Definition calculate_stats (data_series : list num) (climate unit : string)
    (decimals : Z) : stats * list log_entry :=
  if (length data_series =? 0)%nat || all_nan data_series
  then ({| st_min := NaN; st_max := NaN; st_mean := NaN; st_median := NaN |}, [])
  else
    let cmin := np_min data_series in
    let cmax := np_max data_series in
    let cmean := np_mean data_series in
    let cmed := np_median data_series in
    if String.eqb climate "ppt" then
      if String.eqb unit "in"
      then (stats_with mm_to_in cmin cmax cmean cmed decimals, [])
      else (stats_with id cmin cmax cmean cmed decimals, [])
    else if startswith climate "t" then
      if String.eqb unit "f"
      then (stats_with c_to_f cmin cmax cmean cmed decimals, [])
      else (stats_with id cmin cmax cmean cmed decimals, [])
    else
      (stats_with id cmin cmax cmean cmed decimals, [generic_warning climate]).

End Stats.
Import Stats.

(** ** A backtracking matcher for the regular expression of [parse_filename]

    Greedy quantifiers, ordered alternation and capture groups, written in
    continuation-passing style; [search] tries every start position from the
    left, like [re.search]. *)

Module Regex.

Local Open Scope string_scope.

Inductive re : Type :=
| Lit (s : string)
| AnyChar
| Plus (cls : ascii -> bool)
| Rep (n : nat) (cls : ascii -> bool)
| Seq (r1 r2 : re)
| Alt (r1 r2 : re)
| Opt (r : re)
| Group (n : nat) (r : re).

Definition in_range (lo hi : nat) (c : ascii) : bool :=
  let n := nat_of_ascii c in (lo <=? n)%nat && (n <=? hi)%nat.

Definition is_digit : ascii -> bool := in_range 48 57.
Definition is_alpha (c : ascii) : bool := in_range 97 122 c || in_range 65 90 c.
Definition is_alnum (c : ascii) : bool := is_digit c || is_alpha c.

Fixpoint strip_prefix (pre s : string) : option string :=
  match pre, s with
  | "", _ => Some s
  | String a pre', String b s' =>
      if Ascii.eqb a b then strip_prefix pre' s' else None
  | String _ _, "" => None
  end.

Fixpoint m_rep (n : nat) (cls : ascii -> bool) (s : string) : option string :=
  match n, s with
  | O, _ => Some s
  | S n', String a s' => if cls a then m_rep n' cls s' else None
  | S _, "" => None
  end.

(** One or more characters of the class, longest first. *)
Fixpoint m_plus {A} (cls : ascii -> bool) (s : string)
    (k : string -> option A) : option A :=
  match s with
  | "" => None
  | String a s' =>
      if cls a
      then match m_plus cls s' k with
           | Some x => Some x
           | None => k s'
           end
      else None
  end.

(** The text between a start [s] and a later rest [s']. *)
Definition consumed (s s' : string) : string :=
  substring 0 (String.length s - String.length s') s.

Fixpoint m {A} (r : re) (s : string) (c : gmap nat string)
    (k : string -> gmap nat string -> option A) : option A :=
  match r with
  | Lit l => match strip_prefix l s with
             | Some s' => k s' c
             | None => None
             end
  | AnyChar => match s with
               | String a s' => if Ascii.eqb a "010"%char then None else k s' c
               | "" => None
               end
  | Plus cls => m_plus cls s (fun s' => k s' c)
  | Rep n cls => match m_rep n cls s with
                 | Some s' => k s' c
                 | None => None
                 end
  | Seq r1 r2 => m r1 s c (fun s' c' => m r2 s' c' k)
  | Alt r1 r2 => match m r1 s c k with
                 | Some x => Some x
                 | None => m r2 s c k
                 end
  | Opt r1 => match m r1 s c k with
              | Some x => Some x
              | None => k s c
              end
  | Group n r1 => m r1 s c (fun s' c' => k s' (<[n := consumed s s']> c'))
  end.

Fixpoint search (r : re) (s : string) : option (gmap nat string) :=
  match m r s ∅ (fun _ c => Some c) with
  | Some c => Some c
  | None => match s with
            | "" => None
            | String _ s' => search r s'
            end
  end.

Definition cat (rs : list re) : re := fold_right Seq (Lit "") rs.

End Regex.
Import Regex.

(** ** [parse_filename] (src/utils.py) *)

Module Parse.

Local Open Scope string_scope.

(** [prism_([a-zA-Z]+)(?:_([\da-zA-Z]+))?_([\da-zA-Z]+)_(\d{8}|\d{6})(?:_([\da-zA-Z]+))?.tif] *)
Definition pattern : re :=
  cat [ Lit "prism_"; Group 1 (Plus is_alpha);
        Opt (Seq (Lit "_") (Group 2 (Plus is_alnum)));
        Lit "_"; Group 3 (Plus is_alnum);
        Lit "_"; Group 4 (Alt (Rep 8 is_digit) (Rep 6 is_digit));
        Opt (Seq (Lit "_") (Group 5 (Plus is_alnum)));
        AnyChar; Lit "tif" ].

Fixpoint digits_value (s : string) (acc : Z) : Z :=
  match s with
  | "" => acc
  | String c s' => digits_value s' (10 * acc + (Z.of_nat (nat_of_ascii c) - 48))
  end.

Definition is_leap (y : Z) : bool :=
  (((y mod 4 =? 0) && negb (y mod 100 =? 0)) || (y mod 400 =? 0))%Z.

Definition days_in_month (y m : Z) : Z :=
  if (m =? 2)%Z then (if is_leap y then 29 else 28)
  else if ((m =? 4) || (m =? 6) || (m =? 9) || (m =? 11))%Z then 30
  else 31.

(** [strftime('%Y')]: the year as the C library prints it, without padding;
    a year below 1000 loses the leading zeros of the four digits read. *)
Fixpoint year_text (ys : string) : string :=
  match ys with
  | String "0" ys' => year_text ys'
  | _ => ys
  end.

(** [datetime.strptime(date, '%Y%m%d').strftime('%Y-%m-%d')] on eight digits:
    [None] stands for the [ValueError]. *)
Definition reformat_ymd (date : string) : option string :=
  let ys := substring 0 4 date in
  let ms := substring 4 2 date in
  let ds := substring 6 2 date in
  let y := digits_value ys 0 in
  let mo := digits_value ms 0 in
  let d := digits_value ds 0 in
  if ((1 <=? y) && (1 <=? mo) && (mo <=? 12) && (1 <=? d)
      && (d <=? days_in_month y mo))%Z
  then Some (year_text ys ++ "-" ++ ms ++ "-" ++ ds)
  else None.

(** [datetime.strptime(date, '%Y%m').strftime('%Y-%m')] on six digits. *)
Definition reformat_ym (date : string) : option string :=
  let ys := substring 0 4 date in
  let ms := substring 4 2 date in
  let y := digits_value ys 0 in
  let mo := digits_value ms 0 in
  if ((1 <=? y) && (1 <=? mo) && (mo <=? 12))%Z
  then Some (year_text ys ++ "-" ++ ms)
  else None.

Definition no_match_message (filename : string) : string :=
  "Regex did not match filename: " ++ filename ++ ". Could not parse.".

Definition show_opt (o : option string) : string := default "None" o.

(** [(variable, region, resolution, formatted_date)], or the [ValueError] the
    function raises when the pattern is not found.  The statements after the
    [raise] are never run. *)
Definition parse_filename (filename : string)
    : result (string * option string * string * string) * list log_entry :=
  match search pattern filename with
  | Some g =>
      let variable := default "" (g !! 1%nat) in
      let region := g !! 2%nat in
      let resolution := default "" (g !! 3%nat) in
      let date := default "" (g !! 4%nat) in
      let log1 :=
        [ (INFO, "Regex matched successfully.");
          (INFO, "Extracted - variable: " ++ variable ++ ", region: "
                 ++ show_opt region ++ ", resolution: " ++ resolution
                 ++ ", date: " ++ date) ] in
      let reformatted :=
        if (String.length date =? 8)%nat then reformat_ymd date
        else if (String.length date =? 6)%nat then reformat_ym date
        else Some date in
      match reformatted with
      | Some formatted_date =>
          (Ok (variable, region, resolution, formatted_date), log1)
      | None =>
          (Ok (variable, region, resolution, date),
           (log1 ++ [(ERROR, "Failed to parse date string " +:+ date)])%list)
      end
  | None => (Raise (ValueError (no_match_message filename)), [])
  end.

End Parse.
Import Parse.

(** ** [climate_data] (src/data_processing.py): statistics of each clipped
    raster, one CSV row per raster *)

Module Extract.

(** What [rasterio.open(raster)] exposes of a file: the first band, the
    nodata value ([None], a number, or NaN) and the per-band scales and
    offsets. *)
Record Raster : Type := mk_raster {
  band1 : list (list num);
  nodata : option num;
  scales : list num;
  offsets : list num
}.

Global Instance Raster_eq_dec : EqDecision Raster.
Proof. solve_decision. Defined.

Record CsvRow : Type := mk_row {
  Filename : string;
  Climate_Variable : string;
  Date : string;
  stat_min : num;
  stat_max : num;
  stat_mean : num;
  stat_median : num
}.

Global Instance CsvRow_eq_dec : EqDecision CsvRow.
Proof. solve_decision. Defined.

(** The CSV file: its header and the rows written so far. *)
Record Csv : Type := mk_csv {
  fieldnames : list string;
  csv_rows : list CsvRow
}.

Global Instance Csv_eq_dec : EqDecision Csv.
Proof. solve_decision. Defined.

(** [unit_map.get(unit, [...])] *)
Definition stat_columns (unit : string) : list string :=
  if String.eqb unit "in"
  then ["Min. (in)"; "Max. (in)"; "Arithmetic Mean (in)"; "Median (in)"]
  else if String.eqb unit "mm"
  then ["Min. (mm)"; "Max. (mm)"; "Arithmetic Mean (mm)"; "Median (mm)"]
  else if String.eqb unit "f"
  then ["Min. (F)"; "Max. (F)"; "Arithmetic Mean (F)"; "Median (F)"]
  else if String.eqb unit "c"
  then ["Min. (C)"; "Max. (C)"; "Arithmetic Mean (C)"; "Median (C)"]
  else ["Min."; "Max."; "Arithmetic Mean"; "Median"].

(** [data.flatten()]: row-major. *)
Definition flatten (data : list (list num)) : list num := concat data.

(** [(data * scale_factor) + offset_value], cell by cell. *)
Definition scale_offset (data : list (list num)) (scale_factor offset_value : num)
    : list (list num) :=
  map (map (fun v => fadd (fmul v scale_factor) offset_value)) data.

(** The valid sample of a raster, lines 120-143.  [clean_data] is bound when
    the scale or the offset is not the default, and the source never reads it
    again: the mask and the sample are taken from [data].  [src.nodata] is
    always [None] or a float, so the branch for other types cannot be
    reached. *)
Definition valid_sample (src : Raster) : list num :=
  let data := band1 src in
  let nodata_mask := nodata src in
  let scale_factor := match scales src with s :: _ => s | [] => of_Z 1 end in
  let offset_value := match offsets src with o :: _ => o | [] => of_Z 0 end in
  let clean_data :=
    if fneb scale_factor (of_Z 1) || fneb offset_value (of_Z 0)
    then Some (scale_offset data scale_factor offset_value)
    else None in
  match nodata_mask with
  | Some nd =>
      if negb (is_nan nd)
      then filter (fun v => fneb v nd = true) (flatten data)
      else filter (fun v => is_nan v = false) (flatten data)
  | None => flatten data
  end.

Inductive outcome : Type :=
| Emitted (row : CsvRow)
| Skipped
| Raised (e : exn).

Global Instance outcome_eq_dec : EqDecision outcome.
Proof. solve_decision. Defined.

Definition skip_warning (raster : string) : log_entry :=
  (WARNING, "All valid data is NoData/NaN in " +:+ basename raster +:+ ". Skipping.").

Definition saved_info (raster csv_name : string) : log_entry :=
  (INFO, "Data from " +:+ dq +:+ basename raster +:+ dq
         +:+ " has been saved to " +:+ dq +:+ csv_name +:+ dq).

(** The body of the [with rasterio.open(raster) as src] block for an opened
    raster, up to [writer.writerow(row)]. *)
Definition extract_row (src : Raster) (raster csv_name climate unit : string)
    (decimals : Z) : outcome * list log_entry :=
  let data_series := valid_sample src in
  if (length data_series =? 0)%nat || all_nan data_series
  then (Skipped, [skip_warning raster])
  else
    let '(stats, log_stats) := calculate_stats data_series climate unit decimals in
    match parse_filename (basename raster) with
    | (Raise e, log_parse) => (Raised e, log_stats ++ log_parse)
    | (Ok (variable, _, _, formatted_date), log_parse) =>
        let formatted_date :=
          if String.eqb variable ""
          then
            let parts := split_on "_" (basename raster) in
            if (5 <=? length parts)%nat
            then default "" (parts !! 3%nat)
            else "unknown"
          else formatted_date in
        (Emitted {| Filename := basename raster;
                    Climate_Variable := climate;
                    Date := formatted_date;
                    stat_min := st_min stats;
                    stat_max := st_max stats;
                    stat_mean := st_mean stats;
                    stat_median := st_median stats |},
         log_stats ++ log_parse ++ [saved_info raster csv_name])
    end.

Definition str_exn (e : exn) : string :=
  match e with
  | ValueError msg => msg
  | TypeError => "TypeError"
  | KeyError => "KeyError"
  | FileNotFoundError => "FileNotFoundError"
  | RasterioIOError => "RasterioIOError"
  | OverflowError => "(34, 'Numerical result out of range')"
  end.

(** The records of the inner handler ([logger.error], [logger.exception])
    before it re-raises. *)
Definition inner_error_log (raster : string) (e : exn) : list log_entry :=
  let msg :=
    match e with
    | RasterioIOError => "Error opening raster " +:+ basename raster +:+ ": " +:+ str_exn e
    | _ => "Error processing raster " +:+ basename raster +:+ ": " +:+ str_exn e
    end in
  [(ERROR, msg); (ERROR, str_exn e)].

(** One pass of the [for i, raster in enumerate(clipped_rasters)] body.
    [files] maps a path to the raster stored there; a path without one makes
    [rasterio.open] raise. *)
Definition process_raster (files : gmap string Raster)
    (raster csv_name climate unit : string) (decimals : Z)
    : outcome * list log_entry :=
  match files !! raster with
  | None => (Raised RasterioIOError, inner_error_log raster RasterioIOError)
  | Some src =>
      match extract_row src raster csv_name climate unit decimals with
      | (Raised e, l) => (Raised e, l ++ inner_error_log raster e)
      | r => r
      end
  end.

(** The loop: a row is appended for every raster that is not skipped; the
    first exception ends the loop and is handed on. *)
Fixpoint rows_loop (files : gmap string Raster) (clipped_rasters : list string)
    (csv_name climate unit : string) (decimals : Z)
    (rows : list CsvRow) (log : list log_entry)
    : option exn * list CsvRow * list log_entry :=
  match clipped_rasters with
  | [] => (None, rows, log)
  | raster :: rest =>
      match process_raster files raster csv_name climate unit decimals with
      | (Emitted row, l) =>
          rows_loop files rest csv_name climate unit decimals (rows ++ [row]) (log ++ l)
      | (Skipped, l) =>
          rows_loop files rest csv_name climate unit decimals rows (log ++ l)
      | (Raised e, l) => (Some e, rows, log ++ l)
      end
  end.

(** The records of the outer handlers before they re-raise. *)
Definition outer_error_log (e : exn) : list log_entry :=
  let msg :=
    match e with
    | RasterioIOError | FileNotFoundError => "Failed to write to CSV file: " +:+ str_exn e
    | _ => "Failed to save data to CSV file: " +:+ str_exn e
    end in
  [(ERROR, msg); (ERROR, str_exn e)].

(** [climate_data]: the exception it raises, if any, the CSV file it leaves
    at [csv_dir/csv_file], and the records logged.  Creating the directory
    and opening the file for writing are taken to succeed.  The parameters
    [clippedPath] and [resolution] of the source are never read and are left
    out. *)
Definition climate_data (files : gmap string Raster)
    (csv_dir csv_file : string) (clipped_rasters : list string)
    (climate unit : string) (decimals : Z)
    : option exn * Csv * list log_entry :=
  let csvPath := path_join csv_dir csv_file in
  let header := ["Filename"; "Climate Variable"; "Date"] ++ stat_columns unit in
  let log0 := [(INFO, "CSV header written to: " +:+ csvPath)] in
  match rows_loop files clipped_rasters (basename csvPath) climate unit decimals [] log0 with
  | (None, rows, log) => (None, mk_csv header rows, log)
  | (Some e, rows, log) => (Some e, mk_csv header rows, log ++ outer_error_log e)
  end.

End Extract.
Import Extract.

(** ** [raster_clip] (src/data_processing.py): clipping and output naming *)

Module Clip.

(** Lines 247-259: the name of the clipped file, and the warning logged when
    the source name has fewer than five fields. *)
Definition clip_name (filename : string) : string * list log_entry :=
  let parts := split_on "_" filename in
  if (5 <=? length parts)%nat
  then
    let source := default "" (parts !! 0%nat) in
    let climate_var := default "" (parts !! 1%nat) in
    let resolution := default "" (parts !! 3%nat) in
    let date := default "" (head (split_on "." (default "" (parts !! 4%nat)))) in
    (source +:+ "_" +:+ climate_var +:+ "_" +:+ resolution +:+ "_" +:+ date
       +:+ "_clip.tif", [])
  else
    (fst (splitext filename) +:+ "_clip.tif",
     [(WARNING, "Could not parse filename for clipped output: " +:+ filename)]).

Section RasterClip.

(** The geospatial library calls are parameters: the boundary read from the
    shapefile, its reprojection to a raster's reference system and the
    crop-to-extent mask (with the metadata update); each may raise. *)
Context {Boundary : Type}.
Variable read_file : string -> result Boundary.
Variable to_crs : Boundary -> Raster -> result Boundary.
Variable mask : Raster -> Boundary -> result Raster.

Definition clip_error_log (raster : string) (e : exn) : list log_entry :=
  [(ERROR, "Error clipping " +:+ raster +:+ ": " +:+ str_exn e);
   (ERROR, str_exn e)].

(** The [for] loop.  The state is the boundary (reassigned by [to_crs] on
    every pass), the files on disk, the list of clipped paths and the log.
    Writing the clipped file is taken to succeed. *)
Fixpoint clip_loop (rasters : list string) (clippedPath : string)
    (gdf : Boundary) (files : gmap string Raster)
    (clipped_rasters_list : list string) (log : list log_entry)
    : option exn * gmap string Raster * list string * list log_entry :=
  match rasters with
  | [] => (None, files, clipped_rasters_list, log)
  | raster :: rest =>
      if negb (endswith (lower raster) ".tif")
      then clip_loop rest clippedPath gdf files clipped_rasters_list
             (log ++ [(INFO, "Skipping non-TIFF file: " +:+ raster)])
      else
        match files !! raster with
        | None =>
            (Some RasterioIOError, files, clipped_rasters_list,
             log ++ clip_error_log raster RasterioIOError)
        | Some src =>
            let log := log ++ [(INFO, "Opened raster: " +:+ raster)] in
            match to_crs gdf src with
            | Raise e =>
                (Some e, files, clipped_rasters_list, log ++ clip_error_log raster e)
            | Ok gdf' =>
                let log := log ++ [(INFO, "Shapefile CRS set to raster CRS")] in
                match mask src gdf' with
                | Raise e =>
                    (Some e, files, clipped_rasters_list,
                     log ++ clip_error_log raster e)
                | Ok out_raster =>
                    let filename := basename raster in
                    let '(rasterName, log_name) := clip_name filename in
                    let rasterPath := path_join clippedPath rasterName in
                    clip_loop rest clippedPath gdf'
                      (<[rasterPath := out_raster]> files)
                      (clipped_rasters_list ++ [rasterPath])
                      (log ++ log_name
                           ++ [(INFO, "Successfully clipped " +:+ dq +:+ filename +:+ dq)])
                end
            end
        end
  end.

Definition failed_log (e : exn) : list log_entry :=
  [(ERROR, "Failed to clip: " +:+ str_exn e); (ERROR, str_exn e)].

(** [raster_clip]: the exception raised, if any; otherwise the list it
    returns.  The files on disk and the log are given in both cases.  The
    parameter [resolution] of the source is overwritten before it is read and
    is left out. *)
Definition raster_clip (files : gmap string Raster) (rasters : list string)
    (shapefile clippedPath : string)
    : result (list string) * gmap string Raster * list log_entry :=
  match read_file shapefile with
  | Raise e => (Raise e, files, failed_log e)
  | Ok gdf =>
      match clip_loop rasters clippedPath gdf files []
              [(INFO, "Shapefile loaded: " +:+ shapefile)] with
      | (Some e, files', _, log) => (Raise e, files', log ++ failed_log e)
      | (None, files', l, log) =>
          (Ok l, files', log ++ [(INFO, "Raster clipping process completed.")])
      end
  end.

End RasterClip.

End Clip.
Import Clip.

(** ** [calculate_napi] (src/napi.py) *)

Module Napi.

(** A cell of a data frame: text, a float (NaN for a missing value), or a
    timestamp produced by [pd.to_datetime]. *)
Inductive cell : Type :=
| CStr (s : string)
| CNum (x : num)
| CDate (t : Z).

Global Instance cell_eq_dec : EqDecision cell.
Proof. solve_decision. Defined.

(** A data frame with the default integer index: the column labels in order
    and the rows by position.  A table stored in a file is represented by the
    frame [pd.read_csv] returns for it; [to_csv] stores the frame it is
    given. *)
Record DataFrame : Type := mk_df {
  columns : list string;
  rows : list (gmap string cell)
}.

Global Instance DataFrame_eq_dec : EqDecision DataFrame.
Proof. solve_decision. Defined.

Fixpoint foldM {A S : Type} (f : S -> A -> result S) (l : list A) (s : S)
    : result S :=
  match l with
  | [] => Ok s
  | a :: l' => s' <- f s a ;;; foldM f l' s'
  end.

Fixpoint mapM {A B : Type} (f : A -> result B) (l : list A) : result (list B) :=
  match l with
  | [] => Ok []
  | a :: l' => b <- f a ;;; bs <- mapM f l' ;;; Ok (b :: bs)
  end.

(** [range(lo, hi)] *)
Definition range (lo hi : Z) : list Z :=
  map (fun n => lo + Z.of_nat n) (seq 0 (Z.to_nat (hi - lo))).

(** [c in df.columns] *)
Definition has_column (df : DataFrame) (c : string) : bool :=
  bool_decide (c ∈ columns df).

(** [df[c] = v] for a scalar [v]: every row gets the value; a new label goes
    to the end of the columns. *)
Definition set_column (c : string) (v : cell) (df : DataFrame) : DataFrame :=
  {| columns := if has_column df c then columns df else columns df ++ [c];
     rows := map (<[c := v]>) (rows df) |}.

(** [df.loc[i, c] = v] for a row label that exists. *)
Definition set_loc (i : nat) (c : string) (v : cell)
    (rs : list (gmap string cell)) : list (gmap string cell) :=
  match rs !! i with
  | Some r => <[i := <[c := v]> r]> rs
  | None => rs
  end.

(** [df.loc[i, c]] read as a number: a label outside the index is a
    [KeyError], a missing value is NaN, text cannot be used in arithmetic. *)
Definition loc_num (rs : list (gmap string cell)) (i : Z) (c : string)
    : result num :=
  if i <? 0 then Raise KeyError
  else match rs !! Z.to_nat i with
       | None => Raise KeyError
       | Some r =>
           match r !! c with
           | Some (CNum x) => Ok x
           | None => Ok NaN
           | Some _ => Raise TypeError
           end
       end.

(** The values of a numeric column; a column holding text or timestamps has
    no mean ([TypeError]). *)
Definition numeric_column (rs : list (gmap string cell)) (c : string)
    : result (list num) :=
  mapM (fun r => match r !! c with
                 | Some (CNum x) => Ok x
                 | None => Ok NaN
                 | Some _ => Raise TypeError
                 end) rs.

(** [Series.mean()]: missing values are skipped; NaN when nothing is left. *)
Definition series_mean (col : list num) : num :=
  let present := filter (fun x => is_nan x = false) col in
  match present with
  | [] => NaN
  | _ => fdiv (fsum present) (of_Z (Z.of_nat (length present)))
  end.

(** Ascending order of the keys. *)
Definition key_le {A : Type} (x y : Z * A) : Prop := x.1 <= y.1.

(** [df.sort_values(by=date_field)] followed by [reset_index(drop=True)]
    puts the rows in ascending order of their timestamp.  pandas sorts with
    quicksort, which does not fix the order of rows with equal timestamps,
    so the sort is a parameter of [calculate_napi] below, and all that is
    ever assumed of it is [sorts_by_key]: its result is a rearrangement of
    its argument in ascending order of the keys. *)
Definition sorts_by_key {A : Type} (sort : list (Z * A) -> list (Z * A)) : Prop :=
  forall l, Permutation (sort l) l /\ Sorted key_le (sort l).

(** One such sort, used in the examples: insertion from the right. *)
Fixpoint insert_by_key {A : Type} (x : Z * A) (l : list (Z * A)) : list (Z * A) :=
  match l with
  | [] => [x]
  | y :: l' => if x.1 <=? y.1 then x :: l else y :: insert_by_key x l'
  end.

Definition sort_by_key {A : Type} (l : list (Z * A)) : list (Z * A) :=
  fold_right insert_by_key [] l.

(** The wetness label of one NAPI value, lines 89-98. *)
Definition classify (napi_value : num) : cell :=
  if is_nan napi_value then CNum NaN
  else if fltb (fabs (fsub napi_value (of_Z 1))) (of_dec 1 1000000) then CStr "normal"
  else if fgtb napi_value (of_Z 1) then CStr "wet"
  else if fltb napi_value (of_Z 1) then CStr "dry"
  else CNum NaN.

Definition zero_mean_warning : log_entry :=
  (WARNING, "Mean precipitation is zero. NAPI cannot be calculated due to division by zero. Assigning NaN to NAPI column.").

Definition missing_columns_error (ppt_field date_field : string) : log_entry :=
  (ERROR, "Required columns " +:+ dq +:+ ppt_field +:+ dq +:+ " or " +:+ dq
          +:+ date_field +:+ dq +:+ " not found in the CSV.").

Definition complete_info (filepath : string) : log_entry :=
  (INFO, "NAPI calculation complete. Data saved to " +:+ dq +:+ filepath +:+ dq +:+ " ").

Definition napi_error (e : exn) : log_entry :=
  (ERROR, "An error occurred during NAPI calculation: " +:+ str_exn e).

Section CalculateNapi.

(** [pd.to_datetime] on one cell under an optional format: the timestamp,
    or [None] when pandas raises. *)
Variable to_datetime : option string -> cell -> option Z.

(** The sort behind [df.sort_values]. *)
Variable sort_rows : list (Z * gmap string cell) -> list (Z * gmap string cell).

Definition date_format (resolution : string) : option string :=
  if String.eqb resolution "daily" then Some "%Y-%m-%d"
  else if String.eqb resolution "monthly" then Some "%Y-%m"
  else None.

(** [pd.to_datetime(df[date_field], format=...)] *)
Definition parse_dates (rs : list (gmap string cell))
    (date_field resolution : string) : result (list Z) :=
  mapM (fun r =>
          match to_datetime (date_format resolution)
                            (default (CNum NaN) (r !! date_field)) with
          | Some t => Ok t
          | None => Raise (ValueError "time data does not match format")
          end) rs.

(** Lines 46-54: the date column replaced by timestamps, the rows sorted. *)
Definition sort_values (rs : list (gmap string cell)) (date_field : string)
    (ts : list Z) : list (gmap string cell) :=
  map snd (sort_rows
             (zip_with (fun t r => (t, <[date_field := CDate t]> r)) ts rs)).

(** [decay_constant ** j] as a statement that can raise. *)
Definition pow_or_raise (decay_constant : num) (j : Z) : result num :=
  match fpow decay_constant j with
  | Some p => Ok p
  | None => Raise OverflowError
  end.

(** Lines 74-76: the inner loop over [j]. *)
Definition numerator_loop (rs : list (gmap string cell)) (i : Z)
    (ante_days : Z) (ppt_field : string) (decay_constant : num) : result num :=
  foldM (fun numerator j =>
           x <- loc_num rs (i - j) ppt_field ;;;
           p <- pow_or_raise decay_constant j ;;;
           Ok (fadd numerator (fmul x p)))
        (range 1 (ante_days + 1)) (of_Z 0).

(** Lines 72-82: the loop over the rows. *)
Definition napi_loop (rs : list (gmap string cell)) (ante_days : Z)
    (ppt_field : string) (decay_constant mean_ppt denominator : num)
    (decimals : Z) : result (list (gmap string cell)) :=
  foldM (fun rs i =>
           if ante_days <=? Z.of_nat i
           then
             numerator <- numerator_loop rs (Z.of_nat i) ante_days ppt_field
                                         decay_constant ;;;
             if fneb (fmul mean_ppt denominator) (of_Z 0)
             then Ok (set_loc i "NAPI"
                        (CNum (round (fdiv numerator (fmul mean_ppt denominator))
                                     decimals)) rs)
             else Ok (set_loc i "NAPI" (CNum NaN) rs)
           else Ok rs)
        (seq 0 (length rs)) rs.

(** Lines 86-98: the loop that labels the rows. *)
Definition conditions_loop (rs : list (gmap string cell))
    : result (list (gmap string cell)) :=
  foldM (fun rs i =>
           napi_value <- loc_num rs (Z.of_nat i) "NAPI" ;;;
           Ok (set_loc i "Conditions" (classify napi_value) rs))
        (seq 0 (length rs)) rs.

(** The body of the [try] block: the value returned, the files and the
    records logged, or the exception raised.  No file is written and
    nothing is logged before a statement that can raise. *)
Definition napi_body (fs : gmap string DataFrame) (filepath : string)
    (decay_constant : num) (ante_days : Z) (ppt_field date_field : string)
    (resolution : string) (decimals : Z)
    : result (bool * gmap string DataFrame * list log_entry) :=
  df <- match fs !! filepath with
        | Some df => Ok df
        | None => Raise FileNotFoundError
        end ;;;
  if negb (has_column df ppt_field) || negb (has_column df date_field)
  then Ok (false, fs, [missing_columns_error ppt_field date_field])
  else
    ts <- parse_dates (rows df) date_field resolution ;;;
    let df := {| columns := columns df;
                 rows := sort_values (rows df) date_field ts |} in
    col <- numeric_column (rows df) ppt_field ;;;
    let mean_ppt := series_mean col in
    if feqb mean_ppt (of_Z 0)
    then
      let df := set_column "NAPI" (CNum NaN) df in
      Ok (true, <[filepath := df]> fs, [zero_mean_warning])
    else
      let df := set_column "NAPI" (CNum NaN) df in
      powers <- mapM (pow_or_raise decay_constant) (range 1 (ante_days + 1)) ;;;
      let denominator := fold_left fadd powers (of_Z 0) in
      rs <- napi_loop (rows df) ante_days ppt_field decay_constant mean_ppt
                      denominator decimals ;;;
      let df := set_column "Conditions" (CStr "nan")
                  {| columns := columns df; rows := rs |} in
      rs <- conditions_loop (rows df) ;;;
      let df := {| columns := columns df; rows := rs |} in
      Ok (true, <[filepath := df]> fs, [complete_info filepath]).

(** [calculate_napi]: every exception of the body is caught, logged as an
    error and turned into [False]. *)
Definition calculate_napi (fs : gmap string DataFrame) (log : list log_entry)
    (filepath : string) (decay_constant : num) (ante_days : Z)
    (ppt_field date_field : string) (resolution : string) (decimals : Z)
    : bool * gmap string DataFrame * list log_entry :=
  match napi_body fs filepath decay_constant ante_days ppt_field date_field
                  resolution decimals with
  | Ok (b, fs', entries) => (b, fs', log ++ entries)
  | Raise e => (false, fs, log ++ [napi_error e])
  end.

End CalculateNapi.

End Napi.
Import Napi.

(** ** The specification's formulas, written from its words *)

Module Spec.

(** "Target in divides by 25.40". *)
Definition in_of_mm (x : num) : num :=
  match x with
  | Fin q => Fin (q / qc 2540 100)%Qc
  | NaN => NaN
  end.

(** "F = C x 9/5 + 32". *)
Definition f_of_c (x : num) : num :=
  match x with
  | Fin q => Fin (q * qc 9 5 + qc 32 1)%Qc
  | NaN => NaN
  end.

(** The four statistics of a record, and of a raw sample, in the order
    min, max, mean, median. *)
Definition stats_list (s : stats) : list num :=
  [st_min s; st_max s; st_mean s; st_median s].

Definition raw_stats (data_series : list num) : list num :=
  [np_min data_series; np_max data_series; np_mean data_series;
   np_median data_series].

(** The text of a field up to its first dot. *)
Fixpoint before_first_dot (s : string) : string :=
  match s with
  | EmptyString => EmptyString
  | String c s' => if Ascii.eqb c "." then EmptyString else String c (before_first_dot s')
  end.


Fixpoint total (l : list Qc) : Qc :=
  match l with
  | [] => 0%Qc
  | x :: l' => (x + total l')%Qc
  end.

(** The arithmetic mean of the whole column. *)
Definition mean (ppt : list Qc) : Qc :=
  (total ppt / Q2Qc (inject_Z (Z.of_nat (length ppt))))%Qc.



(** The tolerance 1e-6 of the classification. *)
Definition tolerance : Qc := qc 1 1000000.

Definition within_tolerance (v : Qc) : Prop :=
  (1 - tolerance < v)%Qc /\ (v < 1 + tolerance)%Qc.

End Spec.
Import Spec.

(** ** Closed forms of the loops of [calculate_napi], used to state what the
    loops compute *)

Module Summary.


(** None of the powers [k^1], ..., [k^N] is too large for a float. *)
Definition powers_fit (k : Qc) (N : Z) : bool :=
  forallb (fun j => match fpow (Fin k) j with Some _ => true | None => false end)
          (range 1 (N + 1)).


(** The NAPI value of a row, and the row with its wetness label. *)
Definition napi_of (r : gmap string cell) : num :=
  match r !! "NAPI" with
  | Some (CNum x) => x
  | _ => NaN
  end.

Definition label_row (r : gmap string cell) : gmap string cell :=
  <["Conditions" := classify (napi_of r)]> r.


End Summary.
Import Summary.

(** ** Concrete inputs used by the examples below *)

Module Sample.

Definition five_cells : list num := [of_Z 10; of_Z 20; of_Z 30; of_Z 40; of_Z 50].

(** A raster without scaling whose nodata value is -9999. *)
Definition plain_raster : Raster :=
  mk_raster [[of_Z 100; of_Z 0; of_Z (-9999)]; [of_Z 5; of_Z 15]]
            (Some (of_Z (-9999))) [of_Z 1] [of_Z 0].

(** A raster whose cells are all nodata. *)
Definition nodata_raster : Raster :=
  mk_raster [[of_Z (-9999); of_Z (-9999)]] (Some (of_Z (-9999))) [of_Z 1] [of_Z 0].

(** A raster stored in tenths: the cells 10 and 20 stand for 1.0 and 2.0. *)
Definition scaled_raster : Raster :=
  mk_raster [[of_Z 10; of_Z 20]] None [of_dec 1 10] [of_Z 0].

Definition clipped_files : gmap string Raster :=
  <["clipped/prism_ppt_30s_20200101_clip.tif" := plain_raster]>
  (<["clipped/prism_ppt_30s_20200102_clip.tif" := nodata_raster]>
  (<["clipped/prism_ppt_30s_20200103_clip.tif" := scaled_raster]>
  (<["clipped/station7_clip.tif" := plain_raster]> ∅))).

Definition source_files : gmap string Raster :=
  <["geotiffs/prism_ppt_us_30s_20200101.tif" := plain_raster]>
  (<["geotiffs/station7.tif" := plain_raster]> ∅).

(** A stand-in for the geospatial calls: every call succeeds and leaves the
    raster as it is. *)
Definition read_ok (shapefile : string) : result unit := Ok tt.
Definition to_crs_ok (gdf : unit) (src : Raster) : result unit := Ok gdf.
Definition mask_ok (src : Raster) (gdf : unit) : result Raster := Ok src.

(** A stand-in for [pd.to_datetime]: text made of digits and dashes is read
    as the number its digits spell, anything else is refused. *)
Definition digits_key (format : option string) (c : cell) : option Z :=
  match c with
  | CStr s =>
      if forallb (fun a => is_digit a || Ascii.eqb a "-") (list_ascii_of_string s)
      then Some (digits_value (String.concat "" (split_on "-" s)) 0)
      else None
  | _ => None
  end.

Definition table_row (d : string) (p : num) : gmap string cell :=
  <["Date" := CStr d]> (<["Arithmetic Mean (mm)" := CNum p]> ∅).

Definition ppt_table : DataFrame :=
  mk_df ["Date"; "Arithmetic Mean (mm)"]
        [table_row "2020-01-03" (of_Z 30); table_row "2020-01-01" (of_Z 10);
         table_row "2020-01-02" (of_Z 20); table_row "2020-01-04" (of_Z 60)].

Definition dry_table : DataFrame :=
  mk_df ["Date"; "Arithmetic Mean (mm)"]
        [table_row "2020-01-02" (of_Z 0); table_row "2020-01-01" (of_Z 0)].

Definition bad_date_table : DataFrame :=
  mk_df ["Date"; "Arithmetic Mean (mm)"]
        [table_row "2020-01-02" (of_Z 1); table_row "yesterday" (of_Z 2)].

(** The four-row table with one precipitation cell missing. *)
Definition gap_table : DataFrame :=
  mk_df ["Date"; "Arithmetic Mean (mm)"]
        [table_row "2020-01-03" (of_Z 30); table_row "2020-01-01" (of_Z 10);
         table_row "2020-01-02" NaN; table_row "2020-01-04" (of_Z 60)].

(** The four-row table with its precipitation in a column named NAPI. *)
Definition napi_named_table : DataFrame :=
  mk_df ["Date"; "NAPI"]
        [<["Date" := CStr "2020-01-03"]> (<["NAPI" := CNum (of_Z 30)]> ∅);
         <["Date" := CStr "2020-01-01"]> (<["NAPI" := CNum (of_Z 10)]> ∅);
         <["Date" := CStr "2020-01-02"]> (<["NAPI" := CNum (of_Z 20)]> ∅);
         <["Date" := CStr "2020-01-04"]> (<["NAPI" := CNum (of_Z 60)]> ∅)].

(** A table with a wet, a dry and a normal day after the first one. *)
Definition mixed_table : DataFrame :=
  mk_df ["Date"; "Arithmetic Mean (mm)"]
        [table_row "2020-01-03" (of_Z 30); table_row "2020-01-01" (of_Z 60);
         table_row "2020-01-02" (of_Z 10); table_row "2020-01-04" (of_Z 20)].

Definition csv_files : gmap string DataFrame :=
  <["out/ppt.csv" := ppt_table]>
  (<["out/dry.csv" := dry_table]>
  (<["out/bad.csv" := bad_date_table]>
  (<["out/gap.csv" := gap_table]>
  (<["out/napi.csv" := napi_named_table]>
  (<["out/mixed.csv" := mixed_table]> ∅))))).

(** The timestamps [digits_key] reads from [ppt_table], and its
    precipitation column once the rows are sorted. *)
Definition ppt_table_keys : list Z := [20200103; 20200101; 20200102; 20200104].

Definition dry_table_keys : list Z := [20200102; 20200101].

(** The files after the index of [mixed_table] has been calculated with
    k = 0.9, N = 1 and two decimals. *)
Definition labelled_files : gmap string DataFrame :=
  (calculate_napi digits_key sort_by_key csv_files [] "out/mixed.csv"
                  (Fin (qc 9 10)) 1 "Arithmetic Mean (mm)" "Date" "daily" 2).1.2.

End Sample.

(** ** [ante_conditions] (src/napi.py) and the column it is given

    The answers typed at the prompts are a list of lines; [input()] takes the
    first one and raises [EOFError] when none is left.  [float()] and
    [int()] are parameters, as is the text Python gives a number or an
    exception inside a message.  The records of the root logger
    ([logging.info], ...) and of the module logger go to the same log. *)

Module Ante.

(** src/data_processing.py line 614: the precipitation column handed to
    [ante_conditions]. *)
Definition napi_ppt_field (unit : string) : string :=
  if String.eqb unit "mm" then "Arithmetic Mean (mm)" else "Arithmetic Mean (in)".

Inductive input_exn : Type :=
| EOFError
| NumberError (text : string)
| UnboundLocalError (name : string).

Global Instance input_exn_eq_dec : EqDecision input_exn.
Proof. solve_decision. Defined.

(** [s in ('n', 'no')] and [s in ('y', 'yes')] *)
Definition says_no (s : string) : bool := String.eqb s "n" || String.eqb s "no".
Definition says_yes (s : string) : bool := String.eqb s "y" || String.eqb s "yes".

(** [0 < k_value < 1] *)
Definition typical (k_value : num) : bool :=
  fltb (of_Z 0) k_value && fltb k_value (of_Z 1).

Section AnteConditions.

Variable to_datetime : option string -> cell -> option Z.
Variable sort_rows : list (Z * gmap string cell) -> list (Z * gmap string cell).
Variable parse_float : string -> option num.
Variable parse_int : string -> option Z.
Variable str_float : num -> string.
Variable str_int : Z -> string.
Variable str_input_exn : input_exn -> string.

Definition k_warning (k_value : num) : log_entry :=
  (WARNING, "User provided a k_value of " +:+ dq +:+ "(" +:+ str_float k_value
            +:+ ")" +:+ dq +:+ ", which is outside typical range (0, 1).").

Definition new_k_info : log_entry :=
  (INFO, "Accepting new user input for k constant value.").

Definition calculating_info (k_value : num) (ante_days : Z) (filepath : string)
    : log_entry :=
  (INFO, "Calculating NAPI with k=" +:+ str_float k_value +:+ ", ante_days="
         +:+ str_int ante_days +:+ " for " +:+ filepath).

Definition completed_info : log_entry :=
  (INFO, "NAPI calculation completed successfully.").

Definition failed_error : log_entry := (ERROR, "NAPI calculation failed.").

Definition invalid_days_warning (ante_days : Z) : log_entry :=
  (WARNING, "Invalid antecedent days value of " +:+ dq +:+ str_int ante_days
            +:+ dq +:+ " entered for NAPI. Taking new user input.").

Definition invalid_input_warning : log_entry :=
  (WARNING, "Invalid input for antecedent days.").

(** Line 182, the handler of the outer [try]. *)
Definition calc_fail_error (e : input_exn) : log_entry :=
  (ERROR, "Failed to calculate the NAPI for the precipitation dataset: "
          +:+ str_input_exn e).

(** Lines 111 and 116-122, before the [try]: the preset decay constant or
    the one typed in. *)
Definition k_prompt (inputs : list string) : input_exn + num * list string :=
  match inputs with
  | [] => inl EOFError
  | k_input :: rest =>
      if says_no k_input
      then match rest with
           | [] => inl EOFError
           | s :: rest' =>
               match parse_float s with
               | Some k_value => inr (k_value, rest')
               | None => inl (NumberError s)
               end
           end
      else inr (of_dec 98 100, rest)
  end.

(** Lines 124-139: the first [while True]. *)
Fixpoint k_loop (k_value : num) (inputs : list string) (log : list log_entry)
    {struct inputs} : list log_entry * (input_exn + num * list string) :=
  if typical k_value then (log, inr (k_value, inputs))
  else
    match inputs with
    | [] => (log, inl EOFError)
    | c :: rest =>
        let constant := lower c in
        if says_yes constant
        then (log ++ [k_warning k_value], inr (k_value, rest))
        else if says_no constant
        then
          let log := log ++ [new_k_info] in
          match rest with
          | [] => (log, inl EOFError)
          | s :: rest' =>
              match parse_float s with
              | Some k_value => k_loop k_value rest' log
              | None => (log, inl (NumberError s))
              end
          end
        else k_loop k_value rest log
    end.

Section Days.

Variables (csv_dir csv_file ppt_field date_field resolution : string).
Variable decimals : Z.
Variable k_value : num.

(** Lines 160-175: the call when the window is positive, another round
    otherwise. *)
Definition attempt (ante_days : Z) (fs : gmap string DataFrame)
    (log : list log_entry)
    (again : list log_entry -> gmap string DataFrame * list log_entry)
    : gmap string DataFrame * list log_entry :=
  if 0 <? ante_days
  then
    let filepath := path_join csv_dir csv_file in
    let log := log ++ [calculating_info k_value ante_days filepath] in
    match calculate_napi to_datetime sort_rows fs log filepath k_value
                         ante_days ppt_field date_field resolution decimals with
    | (true, fs, log) => (fs, log ++ [completed_info])
    | (false, fs, log) => (fs, log ++ [failed_error])
    end
  else again (log ++ [invalid_days_warning ante_days]).

(** Lines 141-178: the second [while True], for the resolutions 'daily' and
    'monthly', which differ in what is printed only. *)
Fixpoint days_loop (ante_days : Z) (inputs : list string)
    (fs : gmap string DataFrame) (log : list log_entry) {struct inputs}
    : gmap string DataFrame * list log_entry :=
  match inputs with
  | [] => (fs, log ++ [calc_fail_error EOFError])
  | a :: rest =>
      if says_no (lower a)
      then match rest with
           | [] => (fs, log ++ [calc_fail_error EOFError])
           | s :: rest' =>
               match parse_int s with
               | Some ante_days =>
                   attempt ante_days fs log
                           (fun log => days_loop ante_days rest' fs log)
               | None =>
                   days_loop ante_days rest' fs (log ++ [invalid_input_warning])
               end
           end
      else attempt ante_days fs log (fun log => days_loop ante_days rest fs log)
  end.

End Days.

(** [ante_conditions]: the exception that leaves the function, if any, the
    files and the log.  With a resolution other than 'daily' and 'monthly'
    the name [ante_days] is not bound when line 160 reads it. *)
Definition ante_conditions (fs : gmap string DataFrame) (log : list log_entry)
    (inputs : list string)
    (csv_dir csv_file ppt_field date_field resolution : string) (decimals : Z)
    : option input_exn * gmap string DataFrame * list log_entry :=
  let ante_days :=
    if String.eqb resolution "daily" then Some 30
    else if String.eqb resolution "monthly" then Some 3
    else None in
  match k_prompt inputs with
  | inl e => (Some e, fs, log)
  | inr (k_value, inputs) =>
      match k_loop k_value inputs log with
      | (log, inl e) => (None, fs, log ++ [calc_fail_error e])
      | (log, inr (k_value, inputs)) =>
          match ante_days with
          | None => (None, fs, log ++ [calc_fail_error (UnboundLocalError "ante_days")])
          | Some ante_days =>
              let '(fs, log) :=
                days_loop csv_dir csv_file ppt_field date_field resolution
                          decimals k_value ante_days inputs fs log in
              (None, fs, log)
          end
      end
  end.

End AnteConditions.

End Ante.
Import Ante.

(** ** [prism_download] (src/data_processing.py)

    The web service is a parameter: a request fails with a message or gives
    a response.  [chunks] is what iterating over the response yields (the
    body in pieces; nothing for an empty body).  Opening and writing the zip
    file are taken to succeed.  The parameters [endDate] and [outPath] of the
    source are never read and are left out; [currentDate_dt] is given as the
    text its formatting produces. *)

Module Download.

Record Response : Type := mk_response {
  status_code : Z;
  content : string;
  chunks : list string
}.

Inductive fetched : Type :=
| Got (download : Response)
| RequestFailed (msg : string).

(** What the call gives back: a value ([None] when the function falls off
    its end) or the exception raised again by the handler. *)
Inductive returned : Type :=
| Value (v : option (list string))
| Reraised (msg : string).

(** The truth value the caller tests with [if data_download:]. *)
Definition truthy (r : returned) : bool :=
  match r with
  | Value (Some (_ :: _)) => true
  | _ => false
  end.

Definition zip_name (climate resolution startDate : string) : string :=
  "prism_" +:+ climate +:+ "_" +:+ resolution +:+ "_" +:+ startDate +:+ ".zip".

Section PrismDownload.

Variable get : string -> fetched.
Variable str_int : Z -> string.

Definition prism_download (fs : gmap string string) (log : list log_entry)
    (cwd climate startDate url currentDate_dt resolution : string)
    : returned * gmap string string * list log_entry :=
  let log := log ++ [(INFO, "Retrieving PRISM " +:+ climate +:+ " data for "
                            +:+ currentDate_dt +:+ " from " +:+ url)] in
  match get url with
  | RequestFailed msg =>
      (Reraised msg, fs,
       log ++ [(ERROR, "Failed to download data for " +:+ currentDate_dt
                       +:+ ": " +:+ msg);
               (ERROR, msg)])
  | Got download =>
      match chunks download with
      | [] => (Value None, fs, log)
      | _ :: _ =>
          if status_code download =? 200
          then
            let filename := zip_name climate resolution startDate in
            let filepath := path_join cwd filename in
            (Value (Some [filename]),
             <[filepath := content download]> fs,
             log ++ [(INFO, "Downloaded " +:+ filename +:+ " for "
                            +:+ currentDate_dt +:+ " to " +:+ filepath)])
          else
            (Value (Some []), fs,
             log ++ [(ERROR, "Error downloading data for " +:+ currentDate_dt
                             +:+ " (status code: "
                             +:+ str_int (status_code download) +:+ ")")])
      end
  end.

End PrismDownload.

End Download.
Import Download.

(** ** [file_mover] and [file_sorter] (src/utils.py)

    The files on disk are a map from paths to contents; directories are not
    in it, and the directories files are moved into exist ([main] creates
    them).  [os.listdir(outPath)] is given as the list of names it
    returns. *)

Module Files.

Inductive move_exn : Type :=
| DestinationExists (real_dst : string)
| NoSuchFile (src : string)
| RuntimeError (msg : string).

Global Instance move_exn_eq_dec : EqDecision move_exn.
Proof. solve_decision. Defined.

Definition str_move_exn (e : move_exn) : string :=
  match e with
  | DestinationExists real_dst =>
      "Destination path '" +:+ real_dst +:+ "' already exists"
  | NoSuchFile src => "[Errno 2] No such file or directory: '" +:+ src +:+ "'"
  | RuntimeError msg => msg
  end.

(** [os.path.isfile(p)], and [os.path.exists(p)] for the path of a file. *)
Definition isfile (fs : gmap string string) (p : string) : bool :=
  bool_decide (is_Some (fs !! p)).

(** [shutil.move(src, dst)] into the directory [dst]: refused when the
    directory has an entry of that name already. *)
Definition move (fs : gmap string string) (src dst : string)
    : move_exn + gmap string string :=
  let real_dst := path_join dst (basename src) in
  if isfile fs real_dst then inl (DestinationExists real_dst)
  else match fs !! src with
       | Some c => inr (<[real_dst := c]> (delete src fs))
       | None => inl (NoSuchFile src)
       end.

(** [file_mover]; its parameter [download_dir] is never read. *)
Definition file_mover (fs : gmap string string) (log : list log_entry)
    (sourcePath filename outPath : string)
    : option move_exn * gmap string string * list log_entry :=
  let log := log ++ [(INFO, "Moving file " +:+ basename filename +:+ " from "
                            +:+ sourcePath +:+ " to " +:+ outPath)] in
  let destinationPath := path_join outPath filename in
  if negb (isfile fs destinationPath)
  then
    match move fs sourcePath outPath with
    | inr fs' =>
        (None, fs',
         log ++ [(INFO, filename +:+ " moved successfully to " +:+ outPath)])
    | inl e =>
        let error_msg := "Error moving " +:+ basename filename +:+ " file: "
                         +:+ str_move_exn e in
        (Some e, fs, log ++ [(ERROR, error_msg); (ERROR, error_msg)])
    end
  else
    (None, fs,
     log ++ [(WARNING, "Warning: " +:+ basename filename
                       +:+ " already exists in output directory: "
                       +:+ basename outPath +:+ " - Skipping move")]).

Section FileSorter.

Variable str_int : nat -> string.
Variables (outPath : string) (subDirectories : gmap string string).

(** Lines 128-155: one pass of the loop over the files found. *)
Definition sort_step (st : gmap string string * list log_entry)
    (filename : string) : gmap string string * list log_entry :=
  let '(fs, log) := st in
  let source := path_join outPath filename in
  if isfile fs source
  then
    let ext := lower (splitext filename).2 in
    match subDirectories !! ext with
    | Some subPath =>
        let destination := path_join subPath filename in
        if negb (isfile fs destination)
        then
          match move fs source subPath with
          | inr fs' =>
              (fs', log ++ [(INFO, "Moved " +:+ filename +:+ " to sub-directory: "
                                   +:+ basename subPath)])
          | inl e =>
              (fs, log ++ [(ERROR, "Failed to sort " +:+ filename +:+ ": "
                                   +:+ str_move_exn e);
                           (ERROR, str_move_exn e)])
          end
        else
          (fs, log ++ [(WARNING, "Warning: " +:+ filename +:+ " already exists in "
                                 +:+ basename subPath +:+ ". Skipping.")])
    | None =>
        (fs, log ++ [(WARNING, "Unable to sort " +:+ filename +:+ " - extension "
                               +:+ dq +:+ ext +:+ dq +:+ " not in subDirectories.")])
    end
  else (fs, log ++ [(INFO, "Skipping non-file: " +:+ filename)]).

(** [file_sorter]: the exception raised, if any, the files and the log. *)
Definition file_sorter (fs : gmap string string) (log : list log_entry)
    (names : list string)
    : option move_exn * gmap string string * list log_entry :=
  let data_files := List.filter (fun f => isfile fs (path_join outPath f)) names in
  let datafile_total := length data_files in
  let log := log ++ [(INFO, str_int datafile_total +:+ " data files found in "
                            +:+ outPath +:+ " for sorting.")] in
  if (datafile_total =? 0)%nat
  then
    let error_msg := "Error: No files were found in " +:+ outPath
                     +:+ " for sorting. Please restart program operations." in
    (Some (RuntimeError error_msg), fs,
     log ++ [(ERROR, error_msg);
             (ERROR, "An error occurred during file sorting in " +:+ outPath
                     +:+ ": " +:+ error_msg);
             (ERROR, error_msg)])
  else
    let '(fs', log') := fold_left sort_step data_files (fs, log) in
    (None, fs',
     log' ++ [(INFO, "File sorting process completed in " +:+ outPath +:+ ".")]).

End FileSorter.

End Files.
Import Files.

(** ** Definitions used to state further properties *)

Module Props.

(** A clipped raster that opens and whose valid sample is neither empty nor
    all NaN. *)
Definition has_data (files : gmap string Raster) (raster : string) : bool :=
  match files !! raster with
  | Some src =>
      negb ((length (valid_sample src) =? 0)%nat || all_nan (valid_sample src))
  | None => false
  end.

(** Every character of a text is in a class. *)
Definition all_in (cls : ascii -> bool) (s : string) : Prop :=
  forallb cls (list_ascii_of_string s) = true.

(** A text starts with a character of a class. *)
Definition starts_in (cls : ascii -> bool) (s : string) : Prop :=
  match s with
  | String a _ => cls a = true
  | EmptyString => False
  end.

(** The test [raster.lower().endswith('.tif')] of [raster_clip]. *)
Definition is_tif (raster : string) : bool := endswith (lower raster) ".tif".

(** Where [raster_clip] writes the clipped copy of a raster. *)
Definition clipped_path (clippedPath raster : string) : string :=
  path_join clippedPath (clip_name (basename raster)).1.

(** What [ante_conditions] can leave on disk: the files as they were, or
    the files after one call of [calculate_napi] with a positive window. *)
Definition after_call (to_datetime : option string -> cell -> option Z)
    (sort_rows : list (Z * gmap string cell) -> list (Z * gmap string cell))
    (csv_dir csv_file ppt_field date_field resolution : string)
    (decimals : Z) (k_value : num) (fs fs' : gmap string DataFrame) : Prop :=
  fs' = fs
  \/ exists (N : Z) (log0 : list log_entry),
       0 < N
       /\ fs' = (calculate_napi to_datetime sort_rows fs log0
                   (path_join csv_dir csv_file) k_value N ppt_field date_field
                   resolution decimals).1.2.

(** A character other than the given one. *)
Definition other_than (sep : ascii) (a : ascii) : bool := negb (Ascii.eqb a sep).

(** The reformatted date of [parse_filename] for a run of digits. *)
Definition formatted (date : string) : string :=
  if (String.length date =? 8)%nat then default date (reformat_ymd date)
  else if (String.length date =? 6)%nat then default date (reformat_ym date)
  else date.

(** What it means for a text [w] to match a regular expression, with the
    groups captured on the way: the declarative reading of [re], against
    which the backtracking matcher [m] is checked. *)
Inductive matches : re -> string -> gmap nat string -> gmap nat string -> Prop :=
| M_Lit (l : string) c : matches (Lit l) l c c
| M_Any (a : ascii) c :
    a <> "010"%char -> matches AnyChar (String a EmptyString) c c
| M_Plus cls (w : string) c :
    w <> EmptyString -> all_in cls w -> matches (Plus cls) w c c
| M_Rep cls (w : string) c :
    all_in cls w -> matches (Rep (String.length w) cls) w c c
| M_Seq r1 r2 (w1 w2 : string) c c' c'' :
    matches r1 w1 c c' -> matches r2 w2 c' c'' ->
    matches (Seq r1 r2) (w1 +:+ w2) c c''
| M_Alt_l r1 r2 (w : string) c c' :
    matches r1 w c c' -> matches (Alt r1 r2) w c c'
| M_Alt_r r1 r2 (w : string) c c' :
    matches r2 w c c' -> matches (Alt r1 r2) w c c'
| M_Opt_some r (w : string) c c' :
    matches r w c c' -> matches (Opt r) w c c'
| M_Opt_none r c : matches (Opt r) EmptyString c c
| M_Group n r (w : string) c c' :
    matches r w c c' -> matches (Group n r) w c (<[n := w]> c').

End Props.
Import Props.

(** ** Further concrete inputs *)

Module Sample2.

(** A raster with nodata -9999 that also holds a NaN cell. *)
Definition nan_cell_raster : Raster :=
  mk_raster [[NaN; of_Z 5; of_Z (-9999)]] (Some (of_Z (-9999))) [of_Z 1] [of_Z 0].

(** [Sample.ppt_table] with its first two rows exchanged. *)
Definition ppt_table_swapped : DataFrame :=
  mk_df ["Date"; "Arithmetic Mean (mm)"]
        [Sample.table_row "2020-01-01" (of_Z 10);
         Sample.table_row "2020-01-03" (of_Z 30);
         Sample.table_row "2020-01-02" (of_Z 20);
         Sample.table_row "2020-01-04" (of_Z 60)].

(** The table [climate_data] writes for precipitation with the unit 'c'. *)
Definition celsius_table : DataFrame :=
  mk_df ["Filename"; "Climate Variable"; "Date"; "Min. (C)"; "Max. (C)";
         "Arithmetic Mean (C)"; "Median (C)"]
        [<["Filename" := CStr "prism_ppt_30s_20200101_clip.tif"]>
         (<["Climate Variable" := CStr "ppt"]>
         (<["Date" := CStr "2020-01-01"]>
         (<["Min. (C)" := CNum (of_Z 1)]>
         (<["Max. (C)" := CNum (of_Z 5)]>
         (<["Arithmetic Mean (C)" := CNum (of_Z 3)]>
         (<["Median (C)" := CNum (of_Z 3)]> ∅))))))].

Definition celsius_csv_files : gmap string DataFrame :=
  <["out/ppt.csv" := celsius_table]> ∅.

(** A service that answers every request with status 200 and a body. *)
Definition get_ok (url : string) : fetched :=
  Got (mk_response 200 "PK34" ["PK34"]).

(** A download directory with two files to sort, next to a file already
    sorted. *)
Definition disk : gmap string string :=
  <["data/a.tif" := "A"]>
  (<["data/b.xml" := "B"]>
  (<["data/geotiffs/b.tif" := "old"]> ∅)).

Definition sub_directories : gmap string string :=
  <[".tif" := "data/geotiffs"]> (<[".xml" := "data/metadata"]> ∅).

End Sample2.

(** * Proofs *)

(** Closed goals about concrete inputs are decided by evaluation. *)
Ltac by_compute := apply (bool_decide_eq_true_1 _); vm_compute; reflexivity.

(** ** Numbers *)


Lemma Qc_ltb_true (a b : Qc) : Qc_ltb a b = true <-> (a < b)%Qc.
Proof.
  unfold Qc_ltb. rewrite negb_true_iff, <- not_true_iff_false, Qle_bool_iff.
  split.
  - apply Qnot_le_lt.
  - apply Qlt_not_le.
Qed.

Lemma Qc_ltb_false (a b : Qc) : Qc_ltb a b = false <-> (b <= a)%Qc.
Proof.
  unfold Qc_ltb. rewrite negb_false_iff. apply Qle_bool_iff.
Qed.


(** ** Unit conversion in [calculate_stats] *)

Lemma mm_to_in_spec (x : num) : mm_to_in x = in_of_mm x.
Proof.
  destruct x as [q|]; [|reflexivity].
  unfold mm_to_in, in_of_mm, fdiv, lift2, of_dec.
  replace (qc 2540 100) with (qc 254 10) by by_compute. reflexivity.
Qed.

Lemma c_to_f_spec (x : num) : c_to_f x = f_of_c x.
Proof.
  destruct x as [q|]; [|reflexivity].
  unfold c_to_f, f_of_c, fadd, fdiv, fmul, lift2, of_Z. f_equal.
  replace (qc 9 5) with (Q2Qc (inject_Z 9) / Q2Qc (inject_Z 5))%Qc by by_compute.
  replace (qc 32 1) with (Q2Qc (inject_Z 32)) by by_compute.
  field. intros H. revert H. apply not_eq_sym, Qclt_not_eq. reflexivity.
Qed.

Lemma startswith_t_not_ppt (climate : string) :
  startswith climate "t" = true -> String.eqb climate "ppt" = false.
Proof.
  intros H. apply String.eqb_neq. intros ->. discriminate H.
Qed.

(** C6: on a sample that is not empty and not all NaN, precipitation with
    unit "in" gives each raw statistic divided by 25.40 and rounded, any other
    unit the rounded raw statistic; a variable code beginning with "t" with
    unit "f" gives the raw statistic times 9/5 plus 32, rounded, any other
    unit the rounded raw statistic; every other variable code gives the
    rounded raw statistics and logs one warning and no error. *)
Theorem calculate_stats_unit_conversion :
  forall (data_series : list num) (climate unit : string) (decimals : Z),
    (length data_series =? 0)%nat || all_nan data_series = false ->
    let out := calculate_stats data_series climate unit decimals in
    let raw := raw_stats data_series in
    (climate = "ppt" -> unit = "in" ->
       stats_list out.1 = map (fun x => round (in_of_mm x) decimals) raw
       /\ out.2 = [])
    /\ (climate = "ppt" -> unit <> "in" ->
       stats_list out.1 = map (fun x => round x decimals) raw /\ out.2 = [])
    /\ (startswith climate "t" = true -> unit = "f" ->
       stats_list out.1 = map (fun x => round (f_of_c x) decimals) raw
       /\ out.2 = [])
    /\ (startswith climate "t" = true -> unit <> "f" ->
       stats_list out.1 = map (fun x => round x decimals) raw /\ out.2 = [])
    /\ (climate <> "ppt" -> startswith climate "t" = false ->
       stats_list out.1 = map (fun x => round x decimals) raw
       /\ out.2 = [generic_warning climate]
       /\ Forall (fun e : log_entry => e.1 = WARNING) out.2).
Proof.
  intros data_series climate unit decimals Hne out raw.
  subst out raw. unfold calculate_stats. rewrite Hne.
  refine (conj _ (conj _ (conj _ (conj _ _)))).
  - intros -> ->. simpl. unfold stats_list, raw_stats, stats_with. simpl.
    rewrite !mm_to_in_spec. split; reflexivity.
  - intros -> Hu. apply String.eqb_neq in Hu. simpl. rewrite Hu.
    split; reflexivity.
  - intros Ht ->. rewrite (startswith_t_not_ppt _ Ht), Ht. simpl.
    unfold stats_list, raw_stats, stats_with. simpl.
    rewrite !c_to_f_spec. split; reflexivity.
  - intros Ht Hu. apply String.eqb_neq in Hu.
    rewrite (startswith_t_not_ppt _ Ht), Ht, Hu. split; reflexivity.
  - intros Hc Ht. apply String.eqb_neq in Hc. rewrite Hc, Ht. simpl.
    repeat split. repeat constructor.
Qed.

Lemma calculate_stats_unit_conversion_witness :
  stats_list (calculate_stats Sample.five_cells "ppt" "in" 2).1
  = [of_dec 39 100; of_dec 197 100; of_dec 118 100; of_dec 118 100].
Proof.
  destruct (calculate_stats_unit_conversion Sample.five_cells "ppt" "in" 2 eq_refl)
    as [H _].
  destruct (H eq_refl eq_refl) as [H1 _]. rewrite H1. by_compute.
Defined.

(** ** The statistics extractor *)

(** The scale and the offset of a raster have no influence on its sample. *)
Lemma valid_sample_ignores_scale (d : list (list num)) (nd : option num)
    (s o s' o' : list num) :
  valid_sample (mk_raster d nd s o) = valid_sample (mk_raster d nd s' o').
Proof. reflexivity. Qed.

Lemma extract_row_skips (src : Raster) (raster csv_name climate unit : string)
    (decimals : Z) :
  (length (valid_sample src) =? 0)%nat || all_nan (valid_sample src) = true ->
  extract_row src raster csv_name climate unit decimals
  = (Skipped, [skip_warning raster]).
Proof. intros H. unfold extract_row. rewrite H. reflexivity. Qed.

(** A name the pattern is not found in makes the extraction raise. *)
Lemma extract_row_unparseable (src : Raster) (raster csv_name climate unit : string)
    (decimals : Z) :
  (length (valid_sample src) =? 0)%nat || all_nan (valid_sample src) = false ->
  search pattern (basename raster) = None ->
  exists l,
    extract_row src raster csv_name climate unit decimals
    = (Raised (ValueError (no_match_message (basename raster))), l).
Proof.
  intros H Hs. unfold extract_row. rewrite H.
  destruct (calculate_stats _ _ _ _) as [st l].
  unfold parse_filename. rewrite Hs. eexists. reflexivity.
Qed.

(** The exception and the rows of the loop do not depend on the log it
    started with. *)
Lemma rows_loop_log_irrelevant (files : gmap string Raster) (l : list string)
    (csv_name climate unit : string) (decimals : Z) :
  forall rows log1 log2,
    (rows_loop files l csv_name climate unit decimals rows log1).1
    = (rows_loop files l csv_name climate unit decimals rows log2).1.
Proof.
  induction l as [|raster rest IH]; intros rows log1 log2; simpl.
  - reflexivity.
  - destruct (process_raster files raster csv_name climate unit decimals)
      as [[row| |e] lg]; simpl; auto.
Qed.

Lemma rows_loop_skip (files : gmap string Raster) (raster : string)
    (csv_name climate unit : string) (decimals : Z) (pre post : list string) :
  process_raster files raster csv_name climate unit decimals
  = (Skipped, [skip_warning raster]) ->
  forall rows log,
    (rows_loop files (pre ++ raster :: post) csv_name climate unit decimals rows log).1
    = (rows_loop files (pre ++ post) csv_name climate unit decimals rows log).1.
Proof.
  intros Hskip. induction pre as [|p pre IH]; intros rows log; simpl.
  - rewrite Hskip. apply rows_loop_log_irrelevant.
  - destruct (process_raster files p csv_name climate unit decimals)
      as [[row| |e] lg]; simpl; auto.
Qed.

(** C7: a raster whose valid sample is empty or all NaN is skipped with a
    logged warning and without raising, and the exception status and the CSV
    file of the run are the ones of the run without that raster: it
    contributes no row and the remaining rasters are processed. *)
Theorem empty_sample_contributes_no_row :
  forall (files : gmap string Raster) (raster : string) (src : Raster)
         (csv_dir csv_file climate unit : string) (decimals : Z)
         (pre post : list string),
    files !! raster = Some src ->
    (length (valid_sample src) =? 0)%nat || all_nan (valid_sample src) = true ->
    process_raster files raster (basename (path_join csv_dir csv_file))
                   climate unit decimals
    = (Skipped, [skip_warning raster])
    /\ (skip_warning raster).1 = WARNING
    /\ (climate_data files csv_dir csv_file (pre ++ raster :: post)
                     climate unit decimals).1
       = (climate_data files csv_dir csv_file (pre ++ post)
                       climate unit decimals).1.
Proof.
  intros files raster src csv_dir csv_file climate unit decimals pre post
         Hfile Hempty.
  assert (Hskip : process_raster files raster (basename (path_join csv_dir csv_file))
                                 climate unit decimals
                  = (Skipped, [skip_warning raster])).
  { unfold process_raster. rewrite Hfile.
    rewrite (extract_row_skips _ _ _ _ _ _ Hempty). reflexivity. }
  split; [exact Hskip|]. split; [reflexivity|].
  unfold climate_data.
  pose proof (rows_loop_skip files raster _ climate unit decimals pre post Hskip []
                [(INFO, "CSV header written to: " +:+ path_join csv_dir csv_file)])
    as Heq.
  destruct (rows_loop files (pre ++ raster :: post) _ _ _ _ _ _) as [[e1 r1] l1].
  destruct (rows_loop files (pre ++ post) _ _ _ _ _ _) as [[e2 r2] l2].
  simpl in Heq. injection Heq as -> ->.
  destruct e2; reflexivity.
Qed.

Lemma empty_sample_contributes_no_row_witness :
  (climate_data Sample.clipped_files "out" "ppt.csv"
     (["clipped/prism_ppt_30s_20200101_clip.tif"]
        ++ "clipped/prism_ppt_30s_20200102_clip.tif"
        :: ["clipped/prism_ppt_30s_20200103_clip.tif"]) "ppt" "mm" 2).1
  = (climate_data Sample.clipped_files "out" "ppt.csv"
       (["clipped/prism_ppt_30s_20200101_clip.tif"]
          ++ ["clipped/prism_ppt_30s_20200103_clip.tif"]) "ppt" "mm" 2).1.
Proof.
  refine (proj2 (proj2 (empty_sample_contributes_no_row Sample.clipped_files
    "clipped/prism_ppt_30s_20200102_clip.tif" Sample.nodata_raster
    "out" "ppt.csv" "ppt" "mm" 2 _ _ _ _))).
  - by_compute.
  - vm_compute. reflexivity.
Defined.

(** C2, at the failing input: a raster stored in tenths (scale 0.1, cells 10
    and 20) is recorded with the statistics of the stored values, 10, 20, 15
    and 15, whereas the statistics of the scaled cells are 1, 2, 1.5 and
    1.5. *)
Theorem scaled_raster_statistics_are_raw :
  let run := climate_data Sample.clipped_files "out" "ppt.csv"
               ["clipped/prism_ppt_30s_20200103_clip.tif"] "ppt" "mm" 2 in
  run.1.1 = None
  /\ map (fun r => [stat_min r; stat_max r; stat_mean r; stat_median r])
         (csv_rows run.1.2)
     = [[of_Z 10; of_Z 20; of_Z 15; of_Z 15]]
  /\ stats_list (calculate_stats
                   (flatten (scale_offset (band1 Sample.scaled_raster)
                                          (of_dec 1 10) (of_Z 0)))
                   "ppt" "mm" 2).1
     = [of_Z 1; of_Z 2; of_dec 15 10; of_dec 15 10].
Proof. cbv zeta. by_compute. Qed.

(** C3, at the failing input: the clipped raster "station7_clip.tif", whose
    name the pattern is not found in, makes [climate_data] raise the
    [ValueError] of [parse_filename]; its row is not written and the raster
    after it is not processed. *)
Theorem unparseable_filename_aborts_run :
  let run := climate_data Sample.clipped_files "out" "ppt.csv"
               ["clipped/station7_clip.tif";
                "clipped/prism_ppt_30s_20200101_clip.tif"] "ppt" "mm" 2 in
  run.1.1 = Some (ValueError (no_match_message "station7_clip.tif"))
  /\ csv_rows run.1.2 = []
  /\ parse_filename "station7_clip.tif"
     = (Raise (ValueError (no_match_message "station7_clip.tif")), []).
Proof. cbv zeta. by_compute. Qed.

(** ** The name of a clipped raster *)

Lemma head_split_dot (s : string) :
  head (split_on "." s) = Some (before_first_dot s).
Proof.
  induction s as [|c s IH]; simpl; [reflexivity|].
  destruct (Ascii.eqb c "."); [reflexivity|].
  destruct (split_on "." s) as [|p ps]; simpl in *; [discriminate|].
  injection IH as ->. reflexivity.
Qed.

(** One pass of the clipping loop on a raster that opens, reprojects and
    masks: the clipped raster is stored under its name in [clippedPath] and
    the path joins the list. *)
Lemma clip_loop_step {Boundary : Type}
    (to_crs : Boundary -> Raster -> result Boundary)
    (mask : Raster -> Boundary -> result Raster)
    (raster : string) (rest : list string) (clippedPath : string)
    (gdf gdf' : Boundary) (files : gmap string Raster) (src out : Raster)
    (done : list string) (log : list log_entry) :
  endswith (lower raster) ".tif" = true ->
  files !! raster = Some src ->
  to_crs gdf src = Ok gdf' ->
  mask src gdf' = Ok out ->
  let rasterPath := path_join clippedPath (clip_name (basename raster)).1 in
  exists log',
    clip_loop to_crs mask (raster :: rest) clippedPath gdf files done log
    = clip_loop to_crs mask rest clippedPath gdf'
        (<[rasterPath := out]> files) (done ++ [rasterPath]) log'.
Proof.
  intros Htif Hfile Hcrs Hmask rasterPath. subst rasterPath. simpl.
  rewrite Htif, Hfile, Hcrs, Hmask. simpl.
  destruct (clip_name (basename raster)) as [name lg]. simpl.
  eexists. reflexivity.
Qed.

(** C9: a source basename with at least five underscore-separated fields is
    clipped to source_variable_resolution_date_clip.tif, the date being the
    fifth field up to its first dot, and nothing is logged about the name; a
    basename with fewer fields is clipped to stem_clip.tif and a warning (not
    an error) is logged; in both cases a raster that opens, reprojects and
    masks leaves a clipped file under that name, listed in the result. *)
Theorem clipped_output_name :
  forall (raster : string),
    let filename := basename raster in
    (forall source variable region resolution date rest,
        split_on "_" filename
        = source :: variable :: region :: resolution :: date :: rest ->
        clip_name filename
        = (source +:+ "_" +:+ variable +:+ "_" +:+ resolution +:+ "_"
             +:+ before_first_dot date +:+ "_clip.tif", []))
    /\ ((length (split_on "_" filename) < 5)%nat ->
        clip_name filename
        = ((splitext filename).1 +:+ "_clip.tif",
           [(WARNING, "Could not parse filename for clipped output: " +:+ filename)]))
    /\ (forall (Boundary : Type)
               (read_file : string -> result Boundary)
               (to_crs : Boundary -> Raster -> result Boundary)
               (mask : Raster -> Boundary -> result Raster)
               (gdf gdf' : Boundary)
               (files : gmap string Raster) (src out : Raster)
               (shapefile clippedPath : string),
          endswith (lower raster) ".tif" = true ->
          files !! raster = Some src ->
          read_file shapefile = Ok gdf ->
          to_crs gdf src = Ok gdf' ->
          mask src gdf' = Ok out ->
          let rasterPath := path_join clippedPath (clip_name filename).1 in
          let run := raster_clip read_file to_crs mask files [raster]
                                 shapefile clippedPath in
          run.1.1 = Ok [rasterPath]
          /\ run.1.2 !! rasterPath = Some out).
Proof.
  intros raster filename. refine (conj _ (conj _ _)).
  - intros source variable region resolution date rest Hparts.
    unfold clip_name. rewrite Hparts. simpl.
    rewrite head_split_dot. reflexivity.
  - intros Hlen. unfold clip_name.
    destruct (5 <=? length (split_on "_" filename))%nat eqn:E.
    + apply Nat.leb_le in E. lia.
    + reflexivity.
  - intros Boundary read_file to_crs mask gdf gdf' files src out shapefile
           clippedPath Htif Hfile Hread Hcrs Hmask rasterPath run.
    destruct (clip_loop_step to_crs mask raster [] clippedPath gdf gdf' files src out
                [] [(INFO, "Shapefile loaded: " +:+ shapefile)]
                Htif Hfile Hcrs Hmask) as [log' Hstep].
    subst run. unfold raster_clip. rewrite Hread, Hstep. simpl.
    fold filename. fold rasterPath.
    split; [reflexivity | apply lookup_insert_eq].
Qed.

Lemma clipped_output_name_witness :
  clip_name "prism_ppt_us_30s_20200101.tif"
  = ("prism_ppt_30s_20200101_clip.tif", [])
  /\ clip_name "station7.tif"
     = ("station7_clip.tif",
        [(WARNING, "Could not parse filename for clipped output: station7.tif")])
  /\ (raster_clip Sample.read_ok Sample.to_crs_ok Sample.mask_ok
                  Sample.source_files ["geotiffs/station7.tif"]
                  "district.shp" "clipped").1.1
     = Ok ["clipped/station7_clip.tif"].
Proof.
  refine (conj _ (conj _ _)).
  - exact (proj1 (clipped_output_name "geotiffs/prism_ppt_us_30s_20200101.tif")
             "prism" "ppt" "us" "30s" "20200101.tif" [] eq_refl).
  - refine (proj1 (proj2 (clipped_output_name "geotiffs/station7.tif")) _).
    vm_compute. lia.
  - refine (proj1 (proj2 (proj2 (clipped_output_name "geotiffs/station7.tif"))
             unit Sample.read_ok Sample.to_crs_ok Sample.mask_ok tt tt
             Sample.source_files Sample.plain_raster Sample.plain_raster
             "district.shp" "clipped" _ _ _ _ _)).
    + vm_compute. reflexivity.
    + by_compute.
    + reflexivity.
    + reflexivity.
    + reflexivity.
Defined.

(** ** The antecedent index engine *)

Lemma mapM_length {A B : Type} (f : A -> result B) (l : list A) (bs : list B) :
  mapM f l = Ok bs -> length bs = length l.
Proof.
  revert bs. induction l as [|a l IH]; intros bs; simpl.
  - intros [= <-]. reflexivity.
  - destruct (f a) as [b|e]; simpl; [|discriminate].
    destruct (mapM f l) as [bs'|e]; simpl; [|discriminate].
    intros [= <-]. simpl. f_equal. apply IH. reflexivity.
Qed.

Lemma mapM_raise {A B : Type} (f : A -> result B) (l : list A) (a : A) :
  a ∈ l -> (exists e, f a = Raise e) -> exists e, mapM f l = Raise e.
Proof.
  intros Hin [e He]. induction l as [|b l IH]; simpl.
  - inversion Hin.
  - apply elem_of_cons in Hin as [<-|Hin].
    + rewrite He. simpl. eauto.
    + destruct (f b) as [y|e']; simpl; [|eauto].
      destruct (IH Hin) as [e'' ->]. simpl. eauto.
Qed.

Lemma insert_by_key_perm {A : Type} (x : Z * A) (l : list (Z * A)) :
  Permutation (insert_by_key x l) (x :: l).
Proof.
  induction l as [|y l IH]; simpl; [reflexivity|].
  destruct (x.1 <=? y.1); [reflexivity|].
  rewrite IH. apply perm_swap.
Qed.

Lemma sort_by_key_perm {A : Type} (l : list (Z * A)) :
  Permutation (sort_by_key l) l.
Proof.
  induction l as [|x l IH]; simpl; [reflexivity|].
  unfold sort_by_key in *. simpl. rewrite insert_by_key_perm, IH. reflexivity.
Qed.

Lemma insert_by_key_sorted {A : Type} (x : Z * A) (l : list (Z * A)) :
  Sorted key_le l -> Sorted key_le (insert_by_key x l).
Proof.
  induction 1 as [|y l Hs IH Hhd]; simpl.
  - repeat constructor.
  - destruct (x.1 <=? y.1) eqn:E.
    + apply Z.leb_le in E. repeat constructor; assumption.
    + apply Z.leb_gt in E. constructor; [exact IH|].
      destruct Hhd as [|z l' Hyz]; simpl.
      * constructor. unfold key_le. lia.
      * destruct (x.1 <=? z.1); constructor; unfold key_le in *; lia.
Qed.

(** The sort puts the rows in ascending order of their timestamps. *)
Lemma sort_by_key_sorted {A : Type} (l : list (Z * A)) :
  Sorted key_le (sort_by_key l).
Proof.
  induction l as [|x l IH]; simpl; [constructor|].
  apply insert_by_key_sorted, IH.
Qed.

(** The insertion sort is a sort. *)
Lemma insertion_sorts_by_key {A : Type} : sorts_by_key (@sort_by_key A).
Proof. intros l. split; [apply sort_by_key_perm | apply sort_by_key_sorted]. Qed.

Section NapiProofs.

Variable to_datetime : option string -> cell -> option Z.

(** The sort behind [df.sort_values] is any function that returns its
    argument rearranged in ascending order of the keys; a statement that
    depends on it holds for every such function, whatever it does with rows
    of equal date. *)
Variable sort_rows : list (Z * gmap string cell) -> list (Z * gmap string cell).
Hypothesis sort_ok : sorts_by_key sort_rows.

Lemma sort_values_length (rs : list (gmap string cell)) (date_field : string)
    (ts : list Z) :
  length ts = length rs -> length (sort_values sort_rows rs date_field ts) = length rs.
Proof.
  intros Hlen. unfold sort_values.
  rewrite length_map, (Permutation_length (proj1 (sort_ok _))).
  rewrite length_zip_with. lia.
Qed.

Lemma has_column_true (df : DataFrame) (c : string) :
  has_column df c = true <-> c ∈ columns df.
Proof. unfold has_column. apply bool_decide_eq_true. Qed.

Lemma has_column_false (df : DataFrame) (c : string) :
  has_column df c = false <-> c ∉ columns df.
Proof. unfold has_column. apply bool_decide_eq_false. Qed.

(** C8: when the precipitation column or the date column is not among the
    columns of the table, [calculate_napi] returns [False], logs an error,
    and the files are what they were: nothing is added or rewritten. *)
Theorem missing_column_reports_failure :
  forall (fs : gmap string DataFrame) (log : list log_entry)
         (filepath : string) (decay_constant : num) (ante_days : Z)
         (ppt_field date_field resolution : string) (decimals : Z)
         (df : DataFrame),
    fs !! filepath = Some df ->
    ppt_field ∉ columns df \/ date_field ∉ columns df ->
    calculate_napi to_datetime sort_rows fs log filepath decay_constant ante_days
                   ppt_field date_field resolution decimals
    = (false, fs, log ++ [missing_columns_error ppt_field date_field]).
Proof.
  intros fs log filepath k N ppt_field date_field resolution decimals df
         Hfile Hmiss.
  unfold calculate_napi, napi_body. rewrite Hfile. simpl.
  assert (negb (has_column df ppt_field) || negb (has_column df date_field) = true)
    as ->.
  { destruct Hmiss as [H|H]; apply has_column_false in H; rewrite H.
    - reflexivity.
    - apply orb_true_r. }
  reflexivity.
Qed.

(** The body raises when the file cannot be read. *)
Lemma napi_body_unreadable (fs : gmap string DataFrame) (filepath : string)
    (k : num) (N : Z) (ppt_field date_field resolution : string) (decimals : Z) :
  fs !! filepath = None ->
  napi_body to_datetime sort_rows fs filepath k N ppt_field date_field resolution decimals
  = Raise FileNotFoundError.
Proof. intros H. unfold napi_body. rewrite H. reflexivity. Qed.

(** The body raises when a date does not parse. *)
Lemma napi_body_bad_date (fs : gmap string DataFrame) (filepath : string)
    (k : num) (N : Z) (ppt_field date_field resolution : string) (decimals : Z)
    (df : DataFrame) (r : gmap string cell) :
  fs !! filepath = Some df ->
  ppt_field ∈ columns df -> date_field ∈ columns df ->
  r ∈ rows df ->
  to_datetime (date_format resolution) (default (CNum NaN) (r !! date_field))
  = None ->
  exists e,
    napi_body to_datetime sort_rows fs filepath k N ppt_field date_field resolution decimals
    = Raise e.
Proof.
  intros Hfile Hp Hd Hin Hbad. unfold napi_body. rewrite Hfile. simpl.
  apply has_column_true in Hp, Hd. rewrite Hp, Hd. simpl.
  destruct (mapM_raise
              (fun r => match to_datetime (date_format resolution)
                                          (default (CNum NaN) (r !! date_field)) with
                        | Some t => Ok t
                        | None => Raise (ValueError "time data does not match format")
                        end) (rows df) r Hin) as [e He].
  { rewrite Hbad. eauto. }
  unfold parse_dates. rewrite He. simpl. eauto.
Qed.

(** C10: [calculate_napi] always returns a boolean with the files and the
    log; whenever its body raises, the value is [False], the files are
    untouched and the exception is logged as an error; this is the case
    for a path that cannot be read and for a date that does not parse under
    the format of the resolution. *)
Theorem calculate_napi_never_raises :
  forall (fs : gmap string DataFrame) (log : list log_entry)
         (filepath : string) (decay_constant : num) (ante_days : Z)
         (ppt_field date_field resolution : string) (decimals : Z),
    let body := napi_body to_datetime sort_rows fs filepath decay_constant ante_days
                          ppt_field date_field resolution decimals in
    let out := calculate_napi to_datetime sort_rows fs log filepath decay_constant
                              ante_days ppt_field date_field resolution
                              decimals in
    (forall e, body = Raise e -> out = (false, fs, log ++ [napi_error e]))
    /\ (forall b fs' entries,
           body = Ok (b, fs', entries) -> out = (b, fs', log ++ entries))
    /\ (fs !! filepath = None ->
        out = (false, fs, log ++ [napi_error FileNotFoundError]))
    /\ (forall df r,
           fs !! filepath = Some df ->
           ppt_field ∈ columns df -> date_field ∈ columns df ->
           r ∈ rows df ->
           to_datetime (date_format resolution)
                       (default (CNum NaN) (r !! date_field)) = None ->
           exists e, out = (false, fs, log ++ [napi_error e])).
Proof.
  intros fs log filepath k N ppt_field date_field resolution decimals body out.
  assert (Hraise : forall e, body = Raise e ->
                             out = (false, fs, log ++ [napi_error e])).
  { intros e He. subst out. unfold calculate_napi. fold body. rewrite He.
    reflexivity. }
  refine (conj Hraise (conj _ (conj _ _))).
  - intros b fs' entries Hb. subst out. unfold calculate_napi. fold body.
    rewrite Hb. reflexivity.
  - intros Hnone. apply Hraise. apply napi_body_unreadable, Hnone.
  - intros df r Hfile Hp Hd Hin Hbad.
    destruct (napi_body_bad_date fs filepath k N ppt_field date_field resolution
                decimals df r Hfile Hp Hd Hin Hbad) as [e He].
    exists e. apply Hraise, He.
Qed.


(** *** Classification *)


Lemma loc_num_middle (pre post : list (gmap string cell)) (r : gmap string cell)
    (c : string) (x : num) :
  r !! c = Some (CNum x) ->
  loc_num (pre ++ r :: post) (Z.of_nat (length pre)) c = Ok x.
Proof.
  intros Hr. unfold loc_num.
  destruct (Z.of_nat (length pre) <? 0) eqn:E; [apply Z.ltb_lt in E; lia|].
  rewrite Nat2Z.id, list_lookup_middle by reflexivity. rewrite Hr. reflexivity.
Qed.

Lemma set_loc_middle (pre post : list (gmap string cell)) (r : gmap string cell)
    (c : string) (v : cell) :
  set_loc (length pre) c v (pre ++ r :: post) = pre ++ <[c := v]> r :: post.
Proof.
  unfold set_loc. rewrite list_lookup_middle by reflexivity.
  rewrite insert_app_r_alt by lia. rewrite Nat.sub_diag. reflexivity.
Qed.

Lemma conditions_loop_from (post pre : list (gmap string cell)) :
  Forall (fun r => exists x, r !! "NAPI" = Some (CNum x)) post ->
  foldM (fun rs i =>
           napi_value <- loc_num rs (Z.of_nat i) "NAPI" ;;;
           Ok (set_loc i "Conditions" (classify napi_value) rs))
        (seq (length pre) (length post)) (pre ++ post)
  = Ok (pre ++ map label_row post).
Proof.
  revert pre. induction post as [|r post IH]; intros pre Hall; simpl.
  - reflexivity.
  - inversion Hall as [|? ? [x Hx] Hall']; subst.
    rewrite (loc_num_middle pre post r "NAPI" x Hx). simpl.
    rewrite set_loc_middle.
    specialize (IH (pre ++ [<["Conditions" := classify x]> r]) Hall').
    rewrite length_app, Nat.add_1_r in IH. simpl in IH.
    rewrite <- !app_assoc in IH. simpl in IH. rewrite IH.
    unfold label_row at 2, napi_of. rewrite Hx. reflexivity.
Qed.

Lemma conditions_loop_labels (rs : list (gmap string cell)) :
  Forall (fun r => exists x, r !! "NAPI" = Some (CNum x)) rs ->
  conditions_loop rs = Ok (map label_row rs).
Proof. intros H. exact (conditions_loop_from rs [] H). Qed.

Lemma classify_cases (v : Qc) :
  (within_tolerance v -> classify (Fin v) = CStr "normal")
  /\ (~ within_tolerance v -> (1 < v)%Qc -> classify (Fin v) = CStr "wet")
  /\ (~ within_tolerance v -> (v < 1)%Qc -> classify (Fin v) = CStr "dry").
Proof.
  unfold within_tolerance, tolerance, classify, fabs, fsub, fltb, fgtb, fltb,
    lift2, of_Z, of_dec. simpl is_nan. cbv iota.
  destruct (Qc_ltb (v - Q2Qc (inject_Z 1)) 0) eqn:Eneg;
    [apply Qc_ltb_true in Eneg | apply Qc_ltb_false in Eneg];
    match goal with |- context [Qc_ltb ?a (qc 1 1000000)] =>
      destruct (Qc_ltb a (qc 1 1000000)) eqn:Etol;
        [apply Qc_ltb_true in Etol | apply Qc_ltb_false in Etol]
    end;
    destruct (Qc_ltb (Q2Qc (inject_Z 1)) v) eqn:Egt;
    [apply Qc_ltb_true in Egt | apply Qc_ltb_false in Egt
    |apply Qc_ltb_true in Egt | apply Qc_ltb_false in Egt
    |apply Qc_ltb_true in Egt | apply Qc_ltb_false in Egt
    |apply Qc_ltb_true in Egt | apply Qc_ltb_false in Egt];
    destruct (Qc_ltb v (Q2Qc (inject_Z 1))) eqn:Elt;
    try apply Qc_ltb_true in Elt; try apply Qc_ltb_false in Elt;
    unfold qc, inject_Z in *;
    unfold Qclt, Qcle, Qcminus, Qcplus, Qcopp, Q2Qc in *; simpl this in *;
    rewrite ?Qred_correct in *;
    (refine (conj _ (conj _ _));
     [ intros [H1 H2] | intros Hn H1 | intros Hn H1 ];
     rewrite ?Qred_correct in *;
     first [ reflexivity | exfalso; lra | exfalso; apply Hn; split; lra ]).
Qed.

Lemma foldM_invariant {A S : Type} (P : S -> Prop) (f : S -> A -> result S)
    (l : list A) :
  (forall s a s', P s -> f s a = Ok s' -> P s') ->
  forall s s', P s -> foldM f l s = Ok s' -> P s'.
Proof.
  intros Hstep. induction l as [|a l IH]; intros s s' Hs H; simpl in H.
  - injection H as <-. exact Hs.
  - destruct (f s a) as [s1|e] eqn:Ea; simpl in H; [|discriminate].
    exact (IH s1 s' (Hstep s a s1 Hs Ea) H).
Qed.

(** Writing a number into the NAPI cell of one row keeps every row's NAPI
    cell a number. *)
Lemma set_loc_numeric (i : nat) (x : num) (rs : list (gmap string cell)) :
  Forall (fun r => exists v, r !! "NAPI" = Some (CNum v)) rs ->
  Forall (fun r => exists v, r !! "NAPI" = Some (CNum v))
         (set_loc i "NAPI" (CNum x) rs).
Proof.
  intros Hall. unfold set_loc. destruct (rs !! i) as [r|]; [|exact Hall].
  apply Forall_insert; [exact Hall|]. exists x. apply lookup_insert_eq.
Qed.

Lemma napi_loop_numeric (rs rs' : list (gmap string cell)) (N : Z)
    (c : string) (k mean_ppt denominator : num) (decimals : Z) :
  Forall (fun r => exists v, r !! "NAPI" = Some (CNum v)) rs ->
  napi_loop rs N c k mean_ppt denominator decimals = Ok rs' ->
  Forall (fun r => exists v, r !! "NAPI" = Some (CNum v)) rs'.
Proof.
  unfold napi_loop. intros Hall.
  apply foldM_invariant; [|exact Hall].
  intros s i s' Hs. destruct (N <=? Z.of_nat i).
  - destruct (numerator_loop s (Z.of_nat i) N c k) as [x|e]; simpl;
      [|discriminate].
    destruct (fneb _ _); intros [= <-]; apply set_loc_numeric, Hs.
  - intros [= <-]. exact Hs.
Qed.

(** What the body has done when it returns [True] with the record of a
    completed calculation: the rows written are labelled rows whose NAPI
    cell is a number, and the table has the column of labels. *)
Lemma napi_body_completed (fs fs' : gmap string DataFrame) (filepath : string)
    (k : num) (N : Z) (ppt_field date_field resolution : string) (decimals : Z) :
  napi_body to_datetime sort_rows fs filepath k N ppt_field date_field
            resolution decimals
  = Ok (true, fs', [complete_info filepath]) ->
  exists cols rs,
    fs' = <[filepath := mk_df cols (map label_row rs)]> fs
    /\ "Conditions" ∈ cols
    /\ Forall (fun r => exists v, r !! "NAPI" = Some (CNum v)) rs.
Proof.
  unfold napi_body.
  destruct (fs !! filepath) as [df|]; simpl rbind; [|discriminate].
  destruct (negb _ || negb _); [discriminate|].
  destruct (parse_dates _ _ _ _) as [ts|e]; simpl rbind; [|discriminate].
  cbn [rows columns].
  destruct (numeric_column _ _) as [col|e]; simpl rbind; [|discriminate].
  destruct (feqb _ _); [discriminate|].
  destruct (mapM _ _) as [powers|e]; simpl rbind; [|discriminate].
  cbn [rows columns set_column].
  destruct (napi_loop _ _ _ _ _ _ _) as [rs1|e] eqn:Eloop; simpl rbind;
    [|discriminate].
  apply napi_loop_numeric in Eloop.
  2:{ apply Forall_forall. intros r Hin.
      apply list_elem_of_fmap in Hin as (r0 & -> & _).
      exists NaN. apply lookup_insert_eq. }
  assert (Hnum : Forall (fun r => exists v, r !! "NAPI" = Some (CNum v))
                        (map (<["Conditions" := CStr "nan"]>) rs1)).
  { apply Forall_forall. intros r Hin.
    apply list_elem_of_fmap in Hin as (r0 & -> & Hin).
    rewrite Forall_forall in Eloop. destruct (Eloop r0 Hin) as [v Hv].
    exists v. rewrite lookup_insert_ne by discriminate. exact Hv. }
  rewrite (conditions_loop_labels _ Hnum). simpl rbind.
  intros [= <-]. do 2 eexists. split; [reflexivity|]. split; [|exact Hnum].
  unfold has_column. cbn [columns].
  match goal with |- _ ∈ (if ?b then _ else _) => destruct b eqn:E end.
  - apply bool_decide_eq_true_1 in E. exact E.
  - apply elem_of_app. right. apply list_elem_of_singleton. reflexivity.
Qed.

(** C4: in the table a completed run of [calculate_napi] writes, every row
    has a NAPI value and the label of that value: an undefined (NaN) value
    has an undefined label; a defined value within 1e-6 of 1.0 is labelled
    "normal"; outside that tolerance a value above 1.0 is labelled "wet"
    and a value below 1.0 "dry"; in particular 1.0 plus or minus 1e-7 is
    "normal", 1.000002 is "wet" and 0.999 is "dry". *)
Theorem wetness_classification :
  forall (fs fs' : gmap string DataFrame) (log : list log_entry)
         (filepath : string) (decay_constant : num) (ante_days : Z)
         (ppt_field date_field resolution : string) (decimals : Z),
    calculate_napi to_datetime sort_rows fs log filepath decay_constant
                   ante_days ppt_field date_field resolution decimals
    = (true, fs', log ++ [complete_info filepath]) ->
    exists df',
      fs' = <[filepath := df']> fs
      /\ "Conditions" ∈ columns df'
      /\ forall r,
           r ∈ rows df' ->
           exists v,
             r !! "NAPI" = Some (CNum v)
             /\ (v = NaN -> r !! "Conditions" = Some (CNum NaN))
             /\ (forall q, v = Fin q ->
                   (within_tolerance q ->
                    r !! "Conditions" = Some (CStr "normal"))
                   /\ (~ within_tolerance q -> (1 < q)%Qc ->
                       r !! "Conditions" = Some (CStr "wet"))
                   /\ (~ within_tolerance q -> (q < 1)%Qc ->
                       r !! "Conditions" = Some (CStr "dry")))
             /\ (v = of_dec 10000001 10000000 \/ v = of_dec 9999999 10000000 ->
                 r !! "Conditions" = Some (CStr "normal"))
             /\ (v = of_dec 1000002 1000000 ->
                 r !! "Conditions" = Some (CStr "wet"))
             /\ (v = of_dec 999 1000 -> r !! "Conditions" = Some (CStr "dry")).
Proof.
  intros fs fs' log filepath k N ppt_field date_field resolution decimals Hrun.
  unfold calculate_napi in Hrun.
  destruct (napi_body to_datetime sort_rows fs filepath k N ppt_field
              date_field resolution decimals)
    as [[[b fs1] entries]|e] eqn:Ebody; [|discriminate].
  injection Hrun as -> -> Hlog. apply app_inv_head in Hlog. subst entries.
  destruct (napi_body_completed _ _ _ _ _ _ _ _ _ Ebody)
    as (cols & rs & -> & Hcols & Hnum).
  eexists. split; [reflexivity|]. split; [exact Hcols|].
  cbn [rows]. intros r Hin.
  apply list_elem_of_fmap in Hin as (r0 & -> & Hin).
  rewrite Forall_forall in Hnum. destruct (Hnum r0 Hin) as [v Hv].
  exists v. unfold label_row, napi_of. rewrite Hv.
  rewrite lookup_insert_ne by discriminate. rewrite lookup_insert_eq.
  split; [exact Hv|].
  split; [intros ->; reflexivity|].
  split.
  { intros q ->. destruct (classify_cases q) as (H1 & H2 & H3).
    refine (conj _ (conj _ _)).
    - intros H. rewrite (H1 H). reflexivity.
    - intros Hn H. rewrite (H2 Hn H). reflexivity.
    - intros Hn H. rewrite (H3 Hn H). reflexivity. }
  split; [intros [->| ->]; f_equal; by_compute|].
  split; intros ->; f_equal; by_compute.
Qed.


(** *** The mean and the weighted sums *)

Lemma fold_fadd_fin (qs : list Qc) (a : Qc) :
  fold_left fadd (map Fin qs) (Fin a) = Fin (a + total qs)%Qc.
Proof.
  revert a. induction qs as [|q qs IH]; intros a; simpl.
  - f_equal. ring.
  - rewrite IH. f_equal. ring.
Qed.

Lemma fsum_fin (qs : list Qc) : fsum (map Fin qs) = Fin (total qs).
Proof.
  unfold fsum, of_Z. change (Q2Qc (inject_Z 0)) with 0%Qc.
  rewrite fold_fadd_fin. f_equal. ring.
Qed.

Lemma filter_present_fin (qs : list Qc) :
  filter (fun x => is_nan x = false) (map Fin qs) = map Fin qs.
Proof.
  induction qs as [|q qs IH]; simpl; [reflexivity|].
  rewrite filter_cons_True by reflexivity. f_equal. exact IH.
Qed.

(** The mean the code takes is the arithmetic mean of the column. *)
Lemma series_mean_fin (qs : list Qc) :
  qs <> [] -> series_mean (map Fin qs) = Fin (Spec.mean qs).
Proof.
  intros Hne. unfold series_mean. rewrite filter_present_fin.
  destruct qs as [|q qs]; [congruence|].
  rewrite fsum_fin, length_map. reflexivity.
Qed.





Lemma in_range (lo hi j : Z) : In j (range lo hi) -> lo <= j < hi.
Proof.
  unfold range. rewrite in_map_iff. intros (n & <- & Hn).
  apply in_seq in Hn. lia.
Qed.





(** A power that does not fit makes the divisor raise. *)
Lemma powers_overflow (k : Qc) (N : Z) :
  powers_fit k N = false ->
  mapM (pow_or_raise (Fin k)) (range 1 (N + 1)) = Raise OverflowError.
Proof.
  unfold powers_fit. induction (range 1 (N + 1)) as [|j l IH];
    cbn [forallb mapM].
  - discriminate.
  - unfold pow_or_raise at 1. destruct (fpow (Fin k) j) as [p|].
    + rewrite andb_true_l. intros H. simpl rbind. rewrite (IH H). reflexivity.
    + reflexivity.
Qed.





(** *** The loop over the rows *)




(** *** The main path *)









(** C5: when the mean of the precipitation column is exactly zero,
    [calculate_napi] returns [True], logs one warning and no error, and
    rewrites the file with the sorted rows and a NAPI column that is NaN in
    every row. *)
Theorem zero_mean_gives_undefined_index :
  forall (fs : gmap string DataFrame) (log : list log_entry)
         (filepath : string) (decay_constant : num) (ante_days : Z)
         (ppt_field date_field resolution : string) (decimals : Z)
         (df : DataFrame) (ts : list Z) (col : list num),
    fs !! filepath = Some df ->
    ppt_field ∈ columns df -> date_field ∈ columns df ->
    parse_dates to_datetime (rows df) date_field resolution = Ok ts ->
    numeric_column (sort_values sort_rows (rows df) date_field ts) ppt_field = Ok col ->
    series_mean col = of_Z 0 ->
    let df' := set_column "NAPI" (CNum NaN)
                 (mk_df (columns df) (sort_values sort_rows (rows df) date_field ts)) in
    calculate_napi to_datetime sort_rows fs log filepath decay_constant ante_days
                   ppt_field date_field resolution decimals
    = (true, <[filepath := df']> fs, log ++ [zero_mean_warning])
    /\ zero_mean_warning.1 = WARNING
    /\ "NAPI" ∈ columns df'
    /\ length (rows df') = length (rows df)
    /\ Forall (fun r => r !! "NAPI" = Some (CNum NaN)) (rows df').
Proof.
  intros fs log filepath k N ppt_field date_field resolution decimals df ts col
         Hfile Hp Hd Hparse Hcol Hmean df'.
  split.
  - unfold calculate_napi, napi_body. rewrite Hfile. simpl rbind.
    apply has_column_true in Hp, Hd. rewrite Hp, Hd. simpl negb. simpl orb.
    cbv iota. rewrite Hparse. simpl rbind. cbn [rows columns].
    rewrite Hcol. simpl rbind. rewrite Hmean.
    replace (feqb (of_Z 0) (of_Z 0)) with true by (symmetry; by_compute).
    reflexivity.
  - split; [reflexivity|]. subst df'. unfold set_column. cbn [rows columns].
    split; [|split].
    + destruct (has_column _ "NAPI") eqn:E.
      * apply has_column_true in E. exact E.
      * apply elem_of_app. right. apply list_elem_of_singleton. reflexivity.
    + rewrite length_map. apply sort_values_length.
      unfold parse_dates in Hparse. apply (mapM_length _ _ _ Hparse).
    + apply Forall_forall. intros r Hin.
      apply list_elem_of_fmap in Hin as (r0 & -> & _).
      apply lookup_insert_eq.
Qed.

(** A column of zeros has mean zero. *)
Lemma series_mean_zeros (n : nat) :
  series_mean (replicate (S n) (of_Z 0)) = of_Z 0.
Proof.
  change (replicate (S n) (of_Z 0)) with (replicate (S n) (Fin 0%Qc)).
  rewrite <- (fmap_replicate Fin (S n) 0%Qc).
  rewrite series_mean_fin by discriminate. unfold of_Z, Spec.mean.
  change (Q2Qc (inject_Z 0)) with 0%Qc. f_equal.
  assert (total (replicate (S n) 0%Qc) = 0%Qc) as ->.
  { induction n as [|n IH]; simpl in *; [ring | rewrite IH; ring]. }
  unfold Qcdiv. ring.
Qed.

End NapiProofs.

(** ** Examples on concrete tables *)

Lemma missing_column_reports_failure_witness :
  calculate_napi Sample.digits_key sort_by_key Sample.csv_files [] "out/ppt.csv"
                 (of_dec 98 100) 30 "Arithmetic Mean (in)" "Date" "daily" 2
  = (false, Sample.csv_files,
     [] ++ [missing_columns_error "Arithmetic Mean (in)" "Date"]).
Proof.
  apply (missing_column_reports_failure Sample.digits_key sort_by_key
           Sample.csv_files []
           "out/ppt.csv" (of_dec 98 100) 30 "Arithmetic Mean (in)" "Date"
           "daily" 2 Sample.ppt_table).
  - by_compute.
  - left. by_compute.
Defined.

Lemma calculate_napi_never_raises_witness :
  calculate_napi Sample.digits_key sort_by_key Sample.csv_files [] "out/none.csv"
                 (of_dec 98 100) 30 "Arithmetic Mean (mm)" "Date" "daily" 2
  = (false, Sample.csv_files, [] ++ [napi_error FileNotFoundError])
  /\ exists e,
      calculate_napi Sample.digits_key sort_by_key Sample.csv_files [] "out/bad.csv"
                     (of_dec 98 100) 30 "Arithmetic Mean (mm)" "Date" "daily" 2
      = (false, Sample.csv_files, [] ++ [napi_error e]).
Proof.
  split.
  - apply (proj1 (proj2 (proj2
      (calculate_napi_never_raises Sample.digits_key sort_by_key
         Sample.csv_files [] "out/none.csv" (of_dec 98 100) 30 "Arithmetic Mean (mm)" "Date"
         "daily" 2)))).
    by_compute.
  - apply (proj2 (proj2 (proj2
      (calculate_napi_never_raises Sample.digits_key sort_by_key
         Sample.csv_files [] "out/bad.csv" (of_dec 98 100) 30 "Arithmetic Mean (mm)" "Date"
         "daily" 2))) Sample.bad_date_table
         (Sample.table_row "yesterday" (of_Z 2))).
    + by_compute.
    + by_compute.
    + by_compute.
    + by_compute.
    + by_compute.
Defined.

Lemma wetness_classification_witness :
  exists df',
    Sample.labelled_files = <["out/mixed.csv" := df']> Sample.csv_files
    /\ "Conditions" ∈ columns df'
    /\ forall r,
         r ∈ rows df' ->
         exists v,
           r !! "NAPI" = Some (CNum v)
           /\ (v = NaN -> r !! "Conditions" = Some (CNum NaN))
           /\ (forall q, v = Fin q ->
                 (within_tolerance q ->
                  r !! "Conditions" = Some (CStr "normal"))
                 /\ (~ within_tolerance q -> (1 < q)%Qc ->
                     r !! "Conditions" = Some (CStr "wet"))
                 /\ (~ within_tolerance q -> (q < 1)%Qc ->
                     r !! "Conditions" = Some (CStr "dry")))
           /\ (v = of_dec 10000001 10000000 \/ v = of_dec 9999999 10000000 ->
               r !! "Conditions" = Some (CStr "normal"))
           /\ (v = of_dec 1000002 1000000 ->
               r !! "Conditions" = Some (CStr "wet"))
           /\ (v = of_dec 999 1000 -> r !! "Conditions" = Some (CStr "dry")).
Proof.
  apply (wetness_classification Sample.digits_key sort_by_key Sample.csv_files
           Sample.labelled_files [] "out/mixed.csv" (Fin (qc 9 10)) 1
           "Arithmetic Mean (mm)" "Date" "daily" 2).
  by_compute.
Defined.

(** The NAPI values and the labels of that run, row by row. *)
Lemma labelled_files_rows :
  (df' ← Sample.labelled_files !! "out/mixed.csv";
   Some (map (fun r => (r !! "NAPI", r !! "Conditions")) (rows df')))
  = Some [(Some (CNum NaN), Some (CNum NaN));
          (Some (CNum (of_Z 2)), Some (CStr "wet"));
          (Some (CNum (of_dec 33 100)), Some (CStr "dry"));
          (Some (CNum (of_Z 1)), Some (CStr "normal"))].
Proof. by_compute. Qed.

Lemma zero_mean_gives_undefined_index_witness :
  let df' := set_column "NAPI" (CNum NaN)
               (mk_df (columns Sample.dry_table)
                  (sort_values sort_by_key (rows Sample.dry_table) "Date"
                               Sample.dry_table_keys)) in
  calculate_napi Sample.digits_key sort_by_key Sample.csv_files [] "out/dry.csv"
                 (of_dec 98 100) 30 "Arithmetic Mean (mm)" "Date" "daily" 2
  = (true, <["out/dry.csv" := df']> Sample.csv_files, [] ++ [zero_mean_warning])
  /\ zero_mean_warning.1 = WARNING
  /\ "NAPI" ∈ columns df'
  /\ length (rows df') = length (rows Sample.dry_table)
  /\ Forall (fun r => r !! "NAPI" = Some (CNum NaN)) (rows df').
Proof.
  apply (zero_mean_gives_undefined_index Sample.digits_key sort_by_key
           insertion_sorts_by_key Sample.csv_files [] "out/dry.csv" (of_dec 98 100) 30 "Arithmetic Mean (mm)" "Date"
           "daily" 2 Sample.dry_table Sample.dry_table_keys [of_Z 0; of_Z 0]).
  - by_compute.
  - by_compute.
  - by_compute.
  - by_compute.
  - by_compute.
  - exact (series_mean_zeros 1).
Defined.



(** * Further properties of the code *)

(** ** NaN cells, row order and aborted runs in [climate_data] *)

Lemma fold_left_nan (f : num -> num -> num) (l : list num) :
  (forall x, f NaN x = NaN) -> fold_left f l NaN = NaN.
Proof. intros Hf. induction l as [|x l IH]; simpl; [reflexivity | rewrite Hf; exact IH]. Qed.

Lemma fold_left_poisoned (f : num -> num -> num) (l : list num) (a : num) :
  (forall x, f NaN x = NaN) -> (forall x, f x NaN = NaN) ->
  NaN ∈ l -> fold_left f l a = NaN.
Proof.
  intros Hl Hr Hin. revert a. induction l as [|x l IH]; intros a; simpl.
  - inversion Hin.
  - apply elem_of_cons in Hin as [<-|Hin].
    + rewrite Hr. apply fold_left_nan, Hl.
    + apply IH, Hin.
Qed.

Lemma fadd_nan_r (x : num) : fadd x NaN = NaN.
Proof. destruct x; reflexivity. Qed.

Lemma fmin_nan_r (x : num) : fmin x NaN = NaN.
Proof. destruct x; reflexivity. Qed.

Lemma fmax_nan_r (x : num) : fmax x NaN = NaN.
Proof. destruct x; reflexivity. Qed.

Lemma finite_values_poisoned (l : list num) : NaN ∈ l -> finite_values l = None.
Proof.
  induction l as [|x l IH]; intros Hin; [inversion Hin|].
  apply elem_of_cons in Hin as [<-|Hin]; [reflexivity|].
  simpl. destruct x; [rewrite (IH Hin)|]; reflexivity.
Qed.

(** One NaN in a sample that is not all NaN makes every raw statistic, and so
    every recorded statistic, NaN. *)
Lemma calculate_stats_poisoned (data_series : list num) (climate unit : string)
    (decimals : Z) :
  NaN ∈ data_series -> all_nan data_series = false ->
  stats_list (calculate_stats data_series climate unit decimals).1
  = [NaN; NaN; NaN; NaN].
Proof.
  intros Hin Hall. unfold calculate_stats. rewrite Hall.
  destruct data_series as [|x l]; [inversion Hin|]. simpl orb. cbv iota.
  assert (Hmin : np_min (x :: l) = NaN).
  { simpl. apply elem_of_cons in Hin as [<-|Hin].
    - apply fold_left_nan. reflexivity.
    - apply fold_left_poisoned; auto using fmin_nan_r. }
  assert (Hmax : np_max (x :: l) = NaN).
  { simpl. apply elem_of_cons in Hin as [<-|Hin].
    - apply fold_left_nan. reflexivity.
    - apply fold_left_poisoned; auto using fmax_nan_r. }
  assert (Hmean : np_mean (x :: l) = NaN).
  { unfold np_mean, fsum.
    rewrite (fold_left_poisoned fadd (x :: l) (of_Z 0));
      auto using fadd_nan_r. }
  assert (Hmed : np_median (x :: l) = NaN).
  { unfold np_median. rewrite (finite_values_poisoned _ Hin). reflexivity. }
  rewrite Hmin, Hmax, Hmean, Hmed.
  destruct (String.eqb climate "ppt"); [destruct (String.eqb unit "in")|
    destruct (startswith climate "t"); [destruct (String.eqb unit "f")|]];
    reflexivity.
Qed.

(** X2: a raster whose valid sample holds a NaN cell beside other cells is
    not skipped: when its name parses, a row is written whose four
    statistics are all NaN. *)
Theorem nan_cell_gives_nan_row :
  forall (src : Raster) (raster csv_name climate unit : string) (decimals : Z),
    NaN ∈ valid_sample src ->
    all_nan (valid_sample src) = false ->
    (exists p l, parse_filename (basename raster) = (Ok p, l)) ->
    exists row lg,
      extract_row src raster csv_name climate unit decimals = (Emitted row, lg)
      /\ [stat_min row; stat_max row; stat_mean row; stat_median row]
         = [NaN; NaN; NaN; NaN].
Proof.
  intros src raster csv_name climate unit decimals Hin Hall (p & l & Hparse).
  pose proof (calculate_stats_poisoned _ climate unit decimals Hin Hall) as Hst.
  unfold extract_row.
  assert ((length (valid_sample src) =? 0)%nat = false) as ->.
  { destruct (valid_sample src); [inversion Hin | reflexivity]. }
  rewrite Hall. simpl orb. cbv iota.
  destruct (calculate_stats _ _ _ _) as [st ls]. rewrite Hparse.
  destruct p as [[[variable region] resolution] formatted_date].
  do 2 eexists. split; [reflexivity|]. exact Hst.
Qed.

Lemma nan_cell_gives_nan_row_witness :
  exists row lg,
    extract_row Sample2.nan_cell_raster "clipped/prism_ppt_30s_20200105_clip.tif"
                "ppt.csv" "ppt" "mm" 2 = (Emitted row, lg)
    /\ [stat_min row; stat_max row; stat_mean row; stat_median row]
       = [NaN; NaN; NaN; NaN].
Proof.
  apply (nan_cell_gives_nan_row Sample2.nan_cell_raster
           "clipped/prism_ppt_30s_20200105_clip.tif" "ppt.csv" "ppt" "mm" 2).
  - by_compute.
  - vm_compute. reflexivity.
  - do 2 eexists. vm_compute. reflexivity.
Defined.

Lemma extract_row_outcome (src : Raster) (raster csv_name climate unit : string)
    (decimals : Z) :
  let empty := (length (valid_sample src) =? 0)%nat || all_nan (valid_sample src) in
  match (extract_row src raster csv_name climate unit decimals).1 with
  | Skipped => empty = true
  | Emitted row =>
      empty = false /\ Filename row = basename raster
      /\ Climate_Variable row = climate
  | Raised _ => empty = false
  end.
Proof.
  unfold extract_row.
  destruct ((length (valid_sample src) =? 0)%nat || all_nan (valid_sample src));
    [reflexivity|].
  destruct (calculate_stats _ _ _ _) as [st ls].
  destruct (parse_filename (basename raster)) as [[[[[v rg] rs] fd]|e] lp]; simpl; auto.
Qed.

Lemma process_raster_outcome (files : gmap string Raster)
    (raster csv_name climate unit : string) (decimals : Z) :
  match (process_raster files raster csv_name climate unit decimals).1 with
  | Skipped => has_data files raster = false
  | Emitted row =>
      has_data files raster = true /\ Filename row = basename raster
      /\ Climate_Variable row = climate
  | Raised _ => True
  end.
Proof.
  unfold process_raster, has_data.
  destruct (files !! raster) as [src|]; [|exact I].
  pose proof (extract_row_outcome src raster csv_name climate unit decimals) as H.
  cbv zeta in H.
  destruct (extract_row src raster csv_name climate unit decimals) as [[row| |e] l];
    simpl in *.
  - destruct H as (-> & ? & ?). auto.
  - rewrite H. reflexivity.
  - exact I.
Qed.

Lemma rows_loop_rows (files : gmap string Raster) (csv_name climate unit : string)
    (decimals : Z) (l : list string) :
  forall rows log,
    let out := rows_loop files l csv_name climate unit decimals rows log in
    exists n new,
      (n <= length l)%nat
      /\ out.1.2 = rows ++ new
      /\ map Filename new
         = map basename (filter (fun r => has_data files r = true) (take n l))
      /\ Forall (fun r => Climate_Variable r = climate) new
      /\ (out.1.1 = None -> n = length l).
Proof.
  induction l as [|raster rest IH]; intros rows log out; subst out.
  - exists 0%nat, []. simpl. rewrite app_nil_r. repeat split; auto.
  - cbn [rows_loop].
    pose proof (process_raster_outcome files raster csv_name climate unit decimals)
      as Hout.
    destruct (process_raster files raster csv_name climate unit decimals)
      as [[row| |e] lg]; simpl in Hout.
    + destruct Hout as (Hd & Hf & Hc).
      destruct (IH (rows ++ [row]) (log ++ lg)) as (n & new & Hn & Hrows & Hnames & Hcl & He).
      exists (S n), (row :: new). cbn zeta in *.
      repeat split.
      * simpl. lia.
      * rewrite Hrows, <- app_assoc. reflexivity.
      * cbn [take]. rewrite filter_cons_True by exact Hd.
        simpl. rewrite Hf, Hnames. reflexivity.
      * constructor; assumption.
      * intros H. simpl. f_equal. apply He, H.
    + destruct (IH rows (log ++ lg)) as (n & new & Hn & Hrows & Hnames & Hcl & He).
      exists (S n), new. cbn zeta in *.
      repeat split; auto.
      * simpl. lia.
      * cbn [take]. rewrite filter_cons_False by (rewrite Hout; discriminate).
        exact Hnames.
      * intros H. simpl. f_equal. apply He, H.
    + exists 0%nat, []. simpl. rewrite app_nil_r. repeat split; auto. lia.
      discriminate.
Qed.

(** X3: the rows [climate_data] leaves in the CSV are, in processing order,
    the rasters with data among the first [n] of the list, each under its
    basename and with the requested variable code; [n] is the whole list
    when no exception ended the run. *)
Theorem csv_rows_follow_raster_order :
  forall (files : gmap string Raster) (csv_dir csv_file : string)
         (clipped_rasters : list string) (climate unit : string) (decimals : Z),
    let run := climate_data files csv_dir csv_file clipped_rasters climate unit
                            decimals in
    exists n,
      (n <= length clipped_rasters)%nat
      /\ map Filename (csv_rows run.1.2)
         = map basename (filter (fun r => has_data files r = true)
                                (take n clipped_rasters))
      /\ Forall (fun r => Climate_Variable r = climate) (csv_rows run.1.2)
      /\ (run.1.1 = None -> n = length clipped_rasters).
Proof.
  intros files csv_dir csv_file clipped_rasters climate unit decimals run.
  subst run. unfold climate_data.
  destruct (rows_loop_rows files (basename (path_join csv_dir csv_file)) climate unit
              decimals clipped_rasters []
              [(INFO, "CSV header written to: " +:+ path_join csv_dir csv_file)])
    as (n & new & Hn & Hrows & Hnames & Hcl & He).
  cbv zeta in *.
  destruct (rows_loop _ _ _ _ _ _ _ _) as [[e rows] lg]. simpl in *. subst rows.
  exists n. destruct e; simpl; repeat split; auto.
Qed.




(** ** The matcher against the declarative reading of the pattern *)

Lemma length_app_string (a b : string) :
  String.length (a +:+ b) = (String.length a + String.length b)%nat.
Proof. induction a as [|c a IH]; simpl; [reflexivity | rewrite IH; reflexivity]. Qed.

Lemma substring_prefix (w s : string) : substring 0 (String.length w) (w +:+ s) = w.
Proof.
  induction w as [|c w IH]; simpl.
  - destruct s; reflexivity.
  - rewrite IH. reflexivity.
Qed.

Lemma consumed_app (w s : string) : consumed (w +:+ s) s = w.
Proof.
  unfold consumed. rewrite length_app_string.
  replace (String.length w + String.length s - String.length s)%nat
    with (String.length w) by lia.
  apply substring_prefix.
Qed.

Lemma app_string_cons (x : ascii) (a b : string) :
  String x a +:+ b = String x (a +:+ b).
Proof. reflexivity. Qed.

Lemma app_string_assoc (a b c : string) : (a +:+ b) +:+ c = a +:+ (b +:+ c).
Proof.
  induction a as [|x a IH]; [reflexivity|].
  rewrite !app_string_cons, IH. reflexivity.
Qed.

Lemma strip_prefix_sound (pre s s' : string) :
  strip_prefix pre s = Some s' -> s = pre +:+ s'.
Proof.
  revert s. induction pre as [|a pre IH]; intros s; simpl.
  - intros [= ->]. reflexivity.
  - destruct s as [|b s]; [discriminate|].
    destruct (Ascii.eqb a b) eqn:E; [|discriminate].
    apply Ascii.eqb_eq in E as ->. intros H. rewrite (IH _ H). reflexivity.
Qed.

Lemma m_rep_sound (n : nat) (cls : ascii -> bool) (s s' : string) :
  m_rep n cls s = Some s' ->
  exists w, s = w +:+ s' /\ String.length w = n /\ all_in cls w.
Proof.
  revert s. induction n as [|n IH]; intros s; simpl.
  - intros [= ->]. exists EmptyString. repeat split.
  - destruct s as [|a s]; [discriminate|].
    destruct (cls a) eqn:E; [|discriminate].
    intros H. destruct (IH _ H) as (w & -> & Hlen & Hall).
    exists (String a w). repeat split; simpl.
    + rewrite Hlen. reflexivity.
    + unfold all_in in *. simpl. rewrite E. exact Hall.
Qed.

Lemma m_plus_sound {A} (cls : ascii -> bool) (s : string) (k : string -> option A)
    (x : A) :
  m_plus cls s k = Some x ->
  exists w s', s = w +:+ s' /\ w <> EmptyString /\ all_in cls w /\ k s' = Some x.
Proof.
  revert x. induction s as [|a s IH]; intros x; simpl; [discriminate|].
  destruct (cls a) eqn:E; [|discriminate].
  destruct (m_plus cls s k) as [y|] eqn:Em.
  - intros [= <-]. destruct (IH y eq_refl) as (w & s' & -> & _ & Hall & Hk).
    exists (String a w), s'. repeat split; [discriminate | | exact Hk].
    unfold all_in in *. simpl. rewrite E. exact Hall.
  - intros Hk. exists (String a EmptyString), s. repeat split; [discriminate | | exact Hk].
    unfold all_in. simpl. rewrite E. reflexivity.
Qed.

(** Whatever the matcher accepts is a match: the continuation was run on the
    rest of the text after a prefix that matches the expression. *)
Lemma m_sound {A} (r : re) :
  forall (s : string) (c : gmap nat string)
         (k : string -> gmap nat string -> option A) (x : A),
    m r s c k = Some x ->
    exists w s' c', s = w +:+ s' /\ matches r w c c' /\ k s' c' = Some x.
Proof.
  induction r as [l| |cls|n cls|r1 IH1 r2 IH2|r1 IH1 r2 IH2|r1 IH1|n r1 IH1];
    intros s c k x; simpl.
  - destruct (strip_prefix l s) as [s'|] eqn:E; [|discriminate].
    intros Hk. apply strip_prefix_sound in E as ->.
    exists l, s', c. repeat split; [constructor | exact Hk].
  - destruct s as [|a s']; [discriminate|].
    destruct (Ascii.eqb a "010") eqn:E; [discriminate|].
    intros Hk. apply Ascii.eqb_neq in E.
    exists (String a EmptyString), s', c. repeat split; [constructor; exact E | exact Hk].
  - intros H. apply m_plus_sound in H as (w & s' & -> & Hne & Hall & Hk).
    exists w, s', c. repeat split; [constructor; assumption | exact Hk].
  - destruct (m_rep n cls s) as [s'|] eqn:E; [|discriminate].
    intros Hk. apply m_rep_sound in E as (w & -> & <- & Hall).
    exists w, s', c. repeat split; [constructor; exact Hall | exact Hk].
  - intros H. apply IH1 in H as (w1 & s1 & c1 & -> & Hm1 & H).
    apply IH2 in H as (w2 & s2 & c2 & -> & Hm2 & Hk).
    exists (w1 +:+ w2), s2, c2. rewrite app_string_assoc.
    repeat split; [econstructor; eassumption | exact Hk].
  - destruct (m r1 s c k) as [y|] eqn:E.
    + intros [= <-]. apply IH1 in E as (w & s' & c' & -> & Hm & Hk).
      exists w, s', c'. repeat split; [apply M_Alt_l; exact Hm | exact Hk].
    + intros H. apply IH2 in H as (w & s' & c' & -> & Hm & Hk).
      exists w, s', c'. repeat split; [apply M_Alt_r; exact Hm | exact Hk].
  - destruct (m r1 s c k) as [y|] eqn:E.
    + intros [= <-]. apply IH1 in E as (w & s' & c' & -> & Hm & Hk).
      exists w, s', c'. repeat split; [apply M_Opt_some; exact Hm | exact Hk].
    + intros Hk. exists EmptyString, s, c.
      repeat split; [apply M_Opt_none | exact Hk].
  - intros H. apply IH1 in H as (w & s' & c' & -> & Hm & Hk).
    rewrite consumed_app in Hk.
    exists w, s', (<[n := w]> c'). repeat split; [constructor; exact Hm | exact Hk].
Qed.

Lemma search_sound (r : re) (s : string) (g : gmap nat string) :
  search r s = Some g ->
  exists pre w post, s = pre +:+ (w +:+ post) /\ matches r w ∅ g.
Proof.
  induction s as [|a s IH]; simpl.
  - destruct (m r "" ∅ _) as [c|] eqn:E; [|discriminate].
    intros [= <-]. apply m_sound in E as (w & s' & c' & Hs & Hm & [= <-]).
    exists EmptyString, w, s'. split; [exact Hs | exact Hm].
  - destruct (m r (String a s) ∅ _) as [c|] eqn:E.
    + intros [= <-]. apply m_sound in E as (w & s' & c' & Hs & Hm & [= <-]).
      exists EmptyString, w, s'. split; [exact Hs | exact Hm].
    + intros H. destruct (IH H) as (pre & w & post & -> & Hm).
      exists (String a pre), w, post. split; [reflexivity | exact Hm].
Qed.

Ltac invert_matches :=
  repeat match goal with
  | H : matches (Seq _ _) _ _ _ |- _ => inversion H; subst; clear H
  | H : matches (Lit _) _ _ _ |- _ => inversion H; subst; clear H
  | H : matches (Group _ _) _ _ _ |- _ => inversion H; subst; clear H
  | H : matches (Plus _) _ _ _ |- _ => inversion H; subst; clear H
  | H : matches (Rep _ _) _ _ _ |- _ => inversion H; subst; clear H
  | H : matches (Opt _) _ _ _ |- _ => inversion H; subst; clear H
  | H : matches (Alt _ _) _ _ _ |- _ => inversion H; subst; clear H
  | H : matches AnyChar _ _ _ |- _ => inversion H; subst; clear H
  end.

(** The groups of a match of the file-name pattern. *)
Lemma pattern_groups (w : string) (g : gmap nat string) :
  matches pattern w ∅ g ->
  exists v r d,
    g !! 1%nat = Some v /\ v <> EmptyString /\ all_in is_alpha v
    /\ g !! 3%nat = Some r /\ r <> EmptyString /\ all_in is_alnum r
    /\ g !! 4%nat = Some d /\ all_in is_digit d
    /\ (String.length d = 8%nat \/ String.length d = 6%nat).
Proof.
  unfold pattern, cat. simpl fold_right. intros H.
  invert_matches;
    do 3 eexists; simplify_map_eq;
    repeat match goal with |- _ /\ _ => split end;
    try reflexivity; try eassumption; auto.
Qed.

Lemma all_in_cons (cls : ascii -> bool) (a : ascii) (s : string) :
  all_in cls (String a s) <-> cls a = true /\ all_in cls s.
Proof. unfold all_in. simpl. apply andb_true_iff. Qed.

(** What a successful [parse_filename] returns. *)
Lemma parse_filename_ok_inv :
  forall (filename variable resolution formatted_date : string)
         (region : option string) (log : list log_entry),
    parse_filename filename
    = (Ok (variable, region, resolution, formatted_date), log) ->
    variable <> EmptyString /\ all_in is_alpha variable
    /\ resolution <> EmptyString /\ all_in is_alnum resolution
    /\ exists date,
        all_in is_digit date
        /\ ((String.length date = 8%nat
             /\ (formatted_date = date
                 \/ formatted_date
                    = year_text (substring 0 4 date) +:+ "-"
                      +:+ substring 4 2 date +:+ "-" +:+ substring 6 2 date))
            \/ (String.length date = 6%nat
                /\ (formatted_date = date
                    \/ formatted_date
                       = year_text (substring 0 4 date) +:+ "-"
                         +:+ substring 4 2 date))).
Proof.
  intros filename variable resolution formatted_date region log.
  unfold parse_filename.
  destruct (search pattern filename) as [g|] eqn:Es; [|discriminate].
  apply search_sound in Es as (pre & w & post & _ & Hm).
  apply pattern_groups in Hm
    as (v & r & d & Hv & Hvne & Hva & Hr & Hrne & Hra & Hd & Hda & Hlen).
  rewrite Hv, Hr, Hd. simpl default.
  destruct Hlen as [Hlen|Hlen]; rewrite Hlen; simpl Nat.eqb; cbv iota.
  - unfold reformat_ymd.
    destruct (_ && _)%bool; intros [= <- <- <- <- <-];
      (repeat match goal with |- _ /\ _ => split end; try assumption);
      exists d; (split; [assumption|]); left; (split; [assumption|]); auto.
  - unfold reformat_ym.
    destruct (_ && _)%bool; intros [= <- <- <- <- <-];
      (repeat match goal with |- _ /\ _ => split end; try assumption);
      exists d; (split; [assumption|]); right; (split; [assumption|]); auto.
Qed.



Lemma all_in_substring (cls : ascii -> bool) (s : string) (n m : nat) :
  all_in cls s -> all_in cls (substring n m s).
Proof.
  revert n m. induction s as [|a s IH]; intros n m Hs.
  - destruct n, m; exact Hs.
  - apply all_in_cons in Hs as [Ha Hs].
    destruct n as [|n]; [destruct m as [|m]|]; simpl.
    + reflexivity.
    + apply all_in_cons. split; [exact Ha|]. apply IH, Hs.
    + apply IH, Hs.
Qed.

(** A reformatted date starts with a digit or a dash, not with a letter. *)
Lemma dashed_not_unknown (ys rest : string) :
  all_in is_digit ys -> year_text ys +:+ "-" +:+ rest <> "unknown".
Proof.
  induction ys as [|c ys IH]; intros Hd.
  - change (year_text "" +:+ "-" +:+ rest) with (String "-" rest). discriminate.
  - apply all_in_cons in Hd as [Hc Hs].
    destruct c as [[] [] [] [] [] [] [] []];
      try (vm_compute in Hc; discriminate Hc);
      cbn [year_text];
      first [ exact (IH Hs) | rewrite app_string_cons; discriminate ].
Qed.

(** X6: the fallback of [climate_data] for an unparsed name is never taken:
    every row it writes carries the date [parse_filename] returned for the
    raster's basename, and never the text "unknown". *)
Theorem emitted_date_is_the_parsed_date :
  forall (src : Raster) (raster csv_name climate unit : string) (decimals : Z)
         (row : CsvRow) (lg : list log_entry),
    extract_row src raster csv_name climate unit decimals = (Emitted row, lg) ->
    (exists variable region resolution lp,
        parse_filename (basename raster)
        = (Ok (variable, region, resolution, Date row), lp))
    /\ Date row <> "unknown".
Proof.
  intros src raster csv_name climate unit decimals row lg.
  unfold extract_row.
  destruct (_ || _)%bool; [discriminate|].
  destruct (calculate_stats _ _ _ _) as [st ls].
  destruct (parse_filename (basename raster)) as [[[[[v rg] rs] fd]|e] lp] eqn:Ep;
    [|discriminate].
  pose proof (parse_filename_ok_inv _ _ _ _ _ _ Ep)
    as (Hv & _ & _ & _ & date & Hd & Hshape).
  apply String.eqb_neq in Hv. rewrite Hv.
  intros [= <- _]. simpl Date. split; [eauto|].
  destruct Hshape as [[Hlen [->| ->]]|[Hlen [->| ->]]].
  - intros ->. discriminate Hlen.
  - apply dashed_not_unknown, all_in_substring, Hd.
  - intros ->. discriminate Hlen.
  - apply dashed_not_unknown, all_in_substring, Hd.
Qed.

Lemma emitted_date_is_the_parsed_date_witness :
  exists row lg,
    extract_row Sample.plain_raster "clipped/prism_ppt_30s_20200101_clip.tif"
                "ppt.csv" "ppt" "mm" 2 = (Emitted row, lg)
    /\ (exists variable region resolution lp,
          parse_filename (basename "clipped/prism_ppt_30s_20200101_clip.tif")
          = (Ok (variable, region, resolution, Date row), lp))
    /\ Date row <> "unknown".
Proof.
  destruct (extract_row Sample.plain_raster "clipped/prism_ppt_30s_20200101_clip.tif"
                        "ppt.csv" "ppt" "mm" 2) as [[row| |e] lg] eqn:E;
    [|vm_compute in E; discriminate E..].
  exists row, lg. split; [reflexivity|].
  exact (emitted_date_is_the_parsed_date _ _ _ _ _ _ _ _ E).
Defined.

(** ** From the clipper's names back through [parse_filename] *)

Lemma all_in_impl (cls cls' : ascii -> bool) (s : string) :
  (forall a, cls a = true -> cls' a = true) -> all_in cls s -> all_in cls' s.
Proof.
  intros Himp. induction s as [|a s IH]; [auto|].
  rewrite !all_in_cons. intros [Ha Hs]. auto.
Qed.

Lemma all_in_app (cls : ascii -> bool) (s t : string) :
  all_in cls s -> all_in cls t -> all_in cls (s +:+ t).
Proof.
  intros Hs Ht. induction s as [|a s IH]; [exact Ht|].
  rewrite app_string_cons. apply all_in_cons in Hs as [Ha Hs].
  apply all_in_cons. auto.
Qed.

Lemma strip_prefix_app (l s : string) : strip_prefix l (l +:+ s) = Some s.
Proof.
  induction l as [|a l IH]; [destruct s; reflexivity|].
  rewrite app_string_cons. simpl. rewrite Ascii.eqb_refl. exact IH.
Qed.

Lemma m_plus_stuck {A} (cls : ascii -> bool) (s : string) (k : string -> option A) :
  ~ starts_in cls s -> m_plus cls s k = None.
Proof.
  destruct s as [|a s]; [reflexivity|]. simpl. intros H.
  destruct (cls a); [exfalso; apply H; reflexivity | reflexivity].
Qed.

(** The greedy quantifier takes the whole run when the rest then matches. *)
Lemma m_plus_greedy {A} (cls : ascii -> bool) (w rest : string)
    (k : string -> option A) (x : A) :
  w <> EmptyString -> all_in cls w -> ~ starts_in cls rest ->
  k rest = Some x -> m_plus cls (w +:+ rest) k = Some x.
Proof.
  intros Hne Hall Hrest Hk. induction w as [|a w IH]; [congruence|].
  apply all_in_cons in Hall as [Ha Hall].
  rewrite app_string_cons. simpl. rewrite Ha.
  destruct w as [|b w].
  - change ("" +:+ rest) with rest. rewrite (m_plus_stuck _ _ _ Hrest). exact Hk.
  - rewrite IH by (auto; discriminate). reflexivity.
Qed.

(** It fails when the continuation fails after the run and after every
    shorter run. *)
Lemma m_plus_none {A} (cls : ascii -> bool) (w rest : string)
    (k : string -> option A) :
  all_in cls w -> ~ starts_in cls rest ->
  (forall s, starts_in cls s -> k s = None) -> k rest = None ->
  m_plus cls (w +:+ rest) k = None.
Proof.
  intros Hall Hrest Hk Hkr. induction w as [|a w IH].
  - apply m_plus_stuck, Hrest.
  - apply all_in_cons in Hall as [Ha Hall].
    rewrite app_string_cons. simpl. rewrite Ha, (IH Hall).
    destruct w as [|b w]; [exact Hkr|].
    apply Hk. rewrite app_string_cons. simpl.
    apply all_in_cons in Hall as [Hb _]. exact Hb.
Qed.

Lemma m_rep_complete (cls : ascii -> bool) (w s : string) :
  all_in cls w -> m_rep (String.length w) cls (w +:+ s) = Some s.
Proof.
  intros Hall. induction w as [|a w IH]; [destruct s; reflexivity|].
  apply all_in_cons in Hall as [Ha Hall].
  rewrite app_string_cons. simpl. rewrite Ha. apply IH, Hall.
Qed.

Lemma m_rep_short (cls : ascii -> bool) (n : nat) (w rest : string) :
  all_in cls w -> (String.length w < n)%nat -> ~ starts_in cls rest ->
  m_rep n cls (w +:+ rest) = None.
Proof.
  revert n. induction w as [|a w IH]; intros n Hall Hlen Hrest.
  - change ("" +:+ rest) with rest. destruct n; [simpl in Hlen; lia|].
    destruct rest as [|b rest]; [reflexivity|]. simpl.
    destruct (cls b) eqn:E; [exfalso; apply Hrest; exact E | reflexivity].
  - apply all_in_cons in Hall as [Ha Hall]. rewrite app_string_cons.
    destruct n; [simpl in Hlen; lia|]. simpl. rewrite Ha.
    apply IH; [exact Hall | simpl in Hlen; lia | exact Hrest].
Qed.

Lemma m_lit_app {A} (l s : string) (c : gmap nat string)
    (k : string -> gmap nat string -> option A) :
  m (Lit l) (l +:+ s) c k = k s c.
Proof. simpl. rewrite strip_prefix_app. reflexivity. Qed.

Lemma m_lit_mismatch {A} (a b : ascii) (s : string) (c : gmap nat string)
    (k : string -> gmap nat string -> option A) :
  a <> b -> m (Lit (String a EmptyString)) (String b s) c k = None.
Proof.
  intros Hne. simpl. destruct (Ascii.eqb a b) eqn:E; [|reflexivity].
  apply Ascii.eqb_eq in E. contradiction.
Qed.

Lemma m_group_plus_greedy {A} (n : nat) (cls : ascii -> bool) (w rest : string)
    (c : gmap nat string) (k : string -> gmap nat string -> option A) (x : A) :
  w <> EmptyString -> all_in cls w -> ~ starts_in cls rest ->
  k rest (<[n := w]> c) = Some x ->
  m (Group n (Plus cls)) (w +:+ rest) c k = Some x.
Proof.
  intros Hne Hall Hrest Hk. simpl.
  apply m_plus_greedy; auto. rewrite consumed_app. exact Hk.
Qed.

Lemma m_group_plus_none {A} (n : nat) (cls : ascii -> bool) (w rest : string)
    (c : gmap nat string) (k : string -> gmap nat string -> option A) :
  all_in cls w -> ~ starts_in cls rest ->
  (forall s c', starts_in cls s -> k s c' = None) ->
  (forall c', k rest c' = None) ->
  m (Group n (Plus cls)) (w +:+ rest) c k = None.
Proof.
  intros Hall Hrest Hk Hkr. simpl. apply m_plus_none; auto.
Qed.

Lemma m_group_alt_eq {A} (s : string) (c : gmap nat string)
    (k : string -> gmap nat string -> option A) :
  m (Group 4 (Alt (Rep 8 is_digit) (Rep 6 is_digit))) s c k
  = match match m_rep 8 is_digit s with
          | Some s' => k s' (<[4%nat := consumed s s']> c)
          | None => None
          end with
    | Some x => Some x
    | None => match m_rep 6 is_digit s with
              | Some s' => k s' (<[4%nat := consumed s s']> c)
              | None => None
              end
    end.
Proof. reflexivity. Qed.

Lemma m_group_digits {A} (d rest : string) (c : gmap nat string)
    (k : string -> gmap nat string -> option A) (x : A) :
  all_in is_digit d ->
  String.length d = 8%nat \/ String.length d = 6%nat ->
  ~ starts_in is_digit rest ->
  k rest (<[4%nat := d]> c) = Some x ->
  m (Group 4 (Alt (Rep 8 is_digit) (Rep 6 is_digit))) (d +:+ rest) c k = Some x.
Proof.
  intros Hall Hlen Hrest Hk. rewrite m_group_alt_eq.
  pose proof (m_rep_complete is_digit d rest Hall) as Hrep.
  destruct Hlen as [Hlen|Hlen]; rewrite Hlen in Hrep.
  - rewrite Hrep, consumed_app, Hk. reflexivity.
  - rewrite (m_rep_short is_digit 8 d rest) by (auto; lia).
    rewrite Hrep, consumed_app, Hk. reflexivity.
Qed.

Lemma m_seq_eq {A} (r1 r2 : re) (s : string) (c : gmap nat string)
    (k : string -> gmap nat string -> option A) :
  m (Seq r1 r2) s c k = m r1 s c (fun s' c' => m r2 s' c' k).
Proof. reflexivity. Qed.

Lemma m_opt_eq {A} (r : re) (s : string) (c : gmap nat string)
    (k : string -> gmap nat string -> option A) :
  m (Opt r) s c k = match m r s c k with Some x => Some x | None => k s c end.
Proof. reflexivity. Qed.

Lemma search_here (r : re) (s : string) (g : gmap nat string) :
  m r s ∅ (fun _ c => Some c) = Some g -> search r s = Some g.
Proof. intros H. destruct s; simpl; rewrite H; reflexivity. Qed.

Lemma not_starts_underscore (cls : ascii -> bool) (s : string) :
  cls "_"%char = false -> ~ starts_in cls ("_" +:+ s).
Proof. intros Hc H. change (cls "_"%char = true) in H. congruence. Qed.

Lemma underscore_rejects_alnum {A} (r : re) (s : string) (c : gmap nat string)
    (k : string -> gmap nat string -> option A) :
  starts_in is_alnum s -> m (Seq (Lit "_") r) s c k = None.
Proof.
  destruct s as [|a s]; [intros []|]. intros Ha. rewrite m_seq_eq.
  apply m_lit_mismatch. intros <-. discriminate Ha.
Qed.

Lemma digits_are_alnum (d : string) : all_in is_digit d -> all_in is_alnum d.
Proof.
  apply all_in_impl. intros a Ha. unfold is_alnum. rewrite Ha. reflexivity.
Qed.

Lemma letters_are_alnum (v : string) : all_in is_alpha v -> all_in is_alnum v.
Proof.
  apply all_in_impl. intros a Ha. unfold is_alnum. rewrite Ha. apply orb_true_r.
Qed.

(** The pattern is found at the start of a clipped name
    prism_variable_resolution_date_clip.tif, with the variable, the
    resolution and the date in groups 1, 3 and 4 and no region. *)
Lemma clipped_name_matches (v r d : string) :
  v <> EmptyString -> all_in is_alpha v ->
  r <> EmptyString -> all_in is_alnum r ->
  all_in is_digit d -> String.length d = 8%nat \/ String.length d = 6%nat ->
  search pattern ("prism_" +:+ v +:+ "_" +:+ r +:+ "_" +:+ d +:+ "_clip.tif")
  = Some (<[5%nat := "clip"]> (<[4%nat := d]> (<[3%nat := r]> (<[1%nat := v]> ∅)))).
Proof.
  intros Hv Hva Hr Hra Hda Hlen.
  apply search_here. unfold pattern, cat. cbn [fold_right].
  rewrite m_seq_eq, m_lit_app, m_seq_eq.
  apply m_group_plus_greedy; [exact Hv | exact Hva
                             | apply not_starts_underscore; reflexivity |].
  rewrite m_seq_eq, m_opt_eq.
  match goal with |- match ?t with _ => _ end = _ =>
    assert (Hopt : t = None); [|rewrite Hopt; clear Hopt] end.
  { rewrite m_seq_eq, (m_lit_app "_").
    apply m_group_plus_none;
      [exact Hra | apply not_starts_underscore; reflexivity | |].
    - intros s c' Hs. apply underscore_rejects_alnum, Hs.
    - intros c'. rewrite m_seq_eq, (m_lit_app "_"), m_seq_eq.
      apply m_group_plus_none;
        [apply digits_are_alnum, Hda | intros H; discriminate H | |].
      + intros s c'' Hs. apply underscore_rejects_alnum, Hs.
      + intros c''. reflexivity. }
  rewrite m_seq_eq, (m_lit_app "_"), m_seq_eq.
  apply m_group_plus_greedy; [exact Hr | exact Hra
                             | apply not_starts_underscore; reflexivity |].
  rewrite m_seq_eq, (m_lit_app "_"), m_seq_eq.
  apply m_group_digits; [exact Hda | exact Hlen | intros H; discriminate H |].
  reflexivity.
Qed.

Lemma split_on_last (sep : ascii) (s : string) :
  all_in (other_than sep) s -> split_on sep s = [s].
Proof.
  induction s as [|a s IH]; [reflexivity|].
  intros H. apply all_in_cons in H as [Ha Hs]. simpl.
  unfold other_than in Ha. apply negb_true_iff in Ha. rewrite Ha, (IH Hs).
  reflexivity.
Qed.

Lemma split_on_field (sep : ascii) (a rest : string) :
  all_in (other_than sep) a ->
  split_on sep (a +:+ String sep rest) = a :: split_on sep rest.
Proof.
  induction a as [|x a IH]; intros H.
  - change ("" +:+ String sep rest) with (String sep rest). simpl.
    rewrite Ascii.eqb_refl. reflexivity.
  - apply all_in_cons in H as [Hx Ha]. rewrite app_string_cons. simpl.
    unfold other_than in Hx. apply negb_true_iff in Hx. rewrite Hx, (IH Ha).
    reflexivity.
Qed.

Lemma alnum_other_than (sep : ascii) (s : string) :
  is_alnum sep = false -> all_in is_alnum s -> all_in (other_than sep) s.
Proof.
  intros Hsep. apply all_in_impl. intros a Ha. unfold other_than.
  apply negb_true_iff, Ascii.eqb_neq. intros ->. congruence.
Qed.

Lemma before_first_dot_app (d e : string) :
  all_in (other_than ".") d -> before_first_dot (d +:+ String "." e) = d.
Proof.
  induction d as [|a d IH]; intros H; [reflexivity|].
  apply all_in_cons in H as [Ha Hd]. rewrite app_string_cons. simpl.
  unfold other_than in Ha. apply negb_true_iff in Ha. rewrite Ha, (IH Hd).
  reflexivity.
Qed.

(** X7: for a source raster named prism_variable_region_resolution_date.tif
    (letters, letters-and-digits, eight or six digits), the clipper names
    the clipped file prism_variable_resolution_date_clip.tif, and
    [parse_filename] reads that name back as the same variable and
    resolution, no region, and the date reformatted. *)
Theorem clipped_name_parses_back :
  forall (v reg r d : string),
    v <> EmptyString -> all_in is_alpha v ->
    all_in is_alnum reg ->
    r <> EmptyString -> all_in is_alnum r ->
    all_in is_digit d -> String.length d = 8%nat \/ String.length d = 6%nat ->
    let clipped :=
      (clip_name ("prism_" +:+ v +:+ "_" +:+ reg +:+ "_" +:+ r +:+ "_" +:+ d
                    +:+ ".tif")).1 in
    clipped = "prism_" +:+ v +:+ "_" +:+ r +:+ "_" +:+ d +:+ "_clip.tif"
    /\ (parse_filename clipped).1 = Ok (v, None, r, formatted d).
Proof.
  intros v reg r d Hv Hva Hrega Hr Hra Hda Hlen clipped.
  assert (Hname : clipped
                  = "prism_" +:+ v +:+ "_" +:+ r +:+ "_" +:+ d +:+ "_clip.tif").
  { subst clipped. unfold clip_name.
    change ("prism_" +:+ v +:+ "_" +:+ reg +:+ "_" +:+ r +:+ "_" +:+ d +:+ ".tif")
      with ("prism" +:+ String "_" (v +:+ String "_" (reg +:+ String "_"
              (r +:+ String "_" (d +:+ String "." "tif"))))).
    rewrite (split_on_field "_" "prism") by reflexivity.
    rewrite (split_on_field "_" v)
      by (apply alnum_other_than; [reflexivity | apply letters_are_alnum, Hva]).
    rewrite (split_on_field "_" reg) by (apply alnum_other_than; auto).
    rewrite (split_on_field "_" r) by (apply alnum_other_than; auto).
    rewrite (split_on_last "_" (d +:+ String "." "tif")).
    2:{ apply all_in_app; [|reflexivity].
        apply alnum_other_than; [reflexivity | apply digits_are_alnum, Hda]. }
    simpl. rewrite head_split_dot, before_first_dot_app.
    2:{ apply alnum_other_than; [reflexivity | apply digits_are_alnum, Hda]. }
    reflexivity. }
  split; [exact Hname|]. rewrite Hname.
  unfold parse_filename. rewrite (clipped_name_matches v r d) by assumption.
  repeat first [ rewrite lookup_insert_eq
               | rewrite lookup_insert_ne by (intros ?; discriminate)
               | rewrite lookup_empty ].
  simpl default. unfold formatted.
  destruct Hlen as [Hlen|Hlen]; rewrite Hlen; simpl Nat.eqb; cbv iota.
  - destruct (reformat_ymd d); reflexivity.
  - destruct (reformat_ym d); reflexivity.
Qed.

Lemma clipped_name_parses_back_witness :
  let clipped := (clip_name "prism_ppt_us_30s_20200229.tif").1 in
  clipped = "prism_ppt_30s_20200229_clip.tif"
  /\ (parse_filename clipped).1 = Ok ("ppt", None, "30s", "2020-02-29").
Proof.
  apply (clipped_name_parses_back "ppt" "us" "30s" "20200229").
  - discriminate.
  - reflexivity.
  - reflexivity.
  - discriminate.
  - reflexivity.
  - reflexivity.
  - left. reflexivity.
Defined.

(** ** The list [raster_clip] returns *)

Lemma clip_loop_ok {Boundary : Type}
    (to_crs : Boundary -> Raster -> result Boundary)
    (mask : Raster -> Boundary -> result Raster)
    (clippedPath : string) (rasters : list string) :
  forall (gdf : Boundary) (files : gmap string Raster) (done : list string)
         (log : list log_entry) files' l log',
    clip_loop to_crs mask rasters clippedPath gdf files done log
    = (None, files', l, log') ->
    let written := map (clipped_path clippedPath)
                       (filter (fun r => is_tif r = true) rasters) in
    l = done ++ written
    /\ Forall (fun p => is_Some (files' !! p)) written
    /\ (forall p, p ∉ written -> files' !! p = files !! p).
Proof.
  induction rasters as [|raster rest IH];
    intros gdf files done log files' l log' Hrun written; subst written.
  - simpl in Hrun. injection Hrun as <- <- <-. simpl.
    rewrite app_nil_r. split; [reflexivity|]. split; [constructor | auto].
  - cbn [clip_loop] in Hrun. fold (is_tif raster) in Hrun.
    destruct (is_tif raster) eqn:Etif; simpl negb in Hrun; cbv iota in Hrun.
    + rewrite filter_cons_True by exact Etif. cbn [map].
      destruct (files !! raster) as [src|]; [|discriminate].
      destruct (to_crs gdf src) as [gdf'|e]; [|discriminate].
      destruct (mask src gdf') as [out|e]; [|discriminate].
      unfold clipped_path at 1 2 3.
      destruct (clip_name (basename raster)) as [name lg] eqn:En. cbn [fst].
      apply IH in Hrun as (Hl & Hall & Hother). cbv zeta in *.
      set (rest_paths := map (clipped_path clippedPath)
                             (filter (fun r => is_tif r = true) rest)) in *.
      split; [rewrite Hl, <- app_assoc; reflexivity|].
      split.
      * constructor; [|exact Hall].
        destruct (decide (path_join clippedPath name ∈ rest_paths)) as [Hin|Hnin].
        -- exact (proj1 (Forall_forall _ _) Hall _ Hin).
        -- rewrite (Hother _ Hnin), lookup_insert_eq. eauto.
      * intros p Hp. apply not_elem_of_cons in Hp as [Hne Hp].
        rewrite (Hother _ Hp). apply lookup_insert_ne.
        intros Heq. apply Hne. rewrite <- Heq.
        unfold clipped_path. rewrite En. reflexivity.
    + rewrite filter_cons_False by (rewrite Etif; discriminate).
      apply IH in Hrun. exact Hrun.
Qed.

(** X8: when [raster_clip] returns, its list is, in input order, one path
    per input ending in ".tif" (whatever the case), namely the clipped name
    of its basename inside [clippedPath]; every listed path holds a file
    afterwards, and no other file was touched. *)
Theorem raster_clip_returns_clipped_paths :
  forall (Boundary : Type) (read_file : string -> result Boundary)
         (to_crs : Boundary -> Raster -> result Boundary)
         (mask : Raster -> Boundary -> result Raster)
         (files files' : gmap string Raster) (rasters l : list string)
         (shapefile clippedPath : string) (log : list log_entry),
    raster_clip read_file to_crs mask files rasters shapefile clippedPath
    = (Ok l, files', log) ->
    l = map (clipped_path clippedPath) (filter (fun r => is_tif r = true) rasters)
    /\ Forall (fun p => is_Some (files' !! p)) l
    /\ (forall p, p ∉ l -> files' !! p = files !! p).
Proof.
  intros Boundary read_file to_crs mask files files' rasters l shapefile
         clippedPath log. unfold raster_clip.
  destruct (read_file shapefile) as [gdf|e]; [|discriminate].
  destruct (clip_loop _ _ _ _ _ _ _ _) as [[[e fs] lst] lg] eqn:Eloop.
  destruct e; [discriminate|]. intros [= <- <- <-].
  apply clip_loop_ok in Eloop as (Hl & Hall & Hother). cbv zeta in *.
  simpl in Hl. subst lst. auto.
Qed.

Lemma raster_clip_returns_clipped_paths_witness :
  exists l files' log,
    raster_clip Sample.read_ok Sample.to_crs_ok Sample.mask_ok Sample.source_files
                ["geotiffs/prism_ppt_us_30s_20200101.tif"; "geotiffs/notes.txt";
                 "geotiffs/station7.tif"] "district.shp" "clipped"
    = (Ok l, files', log)
    /\ l = ["clipped/prism_ppt_30s_20200101_clip.tif"; "clipped/station7_clip.tif"]
    /\ Forall (fun p => is_Some (files' !! p)) l
    /\ (forall p, p ∉ l -> files' !! p = Sample.source_files !! p).
Proof.
  destruct (raster_clip Sample.read_ok Sample.to_crs_ok Sample.mask_ok
              Sample.source_files
              ["geotiffs/prism_ppt_us_30s_20200101.tif"; "geotiffs/notes.txt";
               "geotiffs/station7.tif"] "district.shp" "clipped")
    as [[[l|e] files'] log] eqn:E; [|vm_compute in E; discriminate E].
  exists l, files', log. split; [reflexivity|].
  destruct (raster_clip_returns_clipped_paths _ _ _ _ _ _ _ _ _ _ _ E)
    as (Hl & Hall & Hother).
  split; [rewrite Hl; reflexivity | split; assumption].
Defined.

(** ** The order of the rows of the input table *)

Lemma key_le_head {A : Type} (x : Z * A) (l : list (Z * A)) :
  Sorted key_le (x :: l) -> forall y, y ∈ x :: l -> x.1 <= y.1.
Proof.
  intros Hs. apply Sorted_StronglySorted in Hs.
  2:{ intros a b c; unfold key_le; lia. }
  apply StronglySorted_inv in Hs as [_ Hall].
  intros y [->|Hy]%elem_of_cons; [lia|].
  rewrite Forall_forall in Hall. apply Hall. exact Hy.
Qed.

Lemma NoDup_keys_eq {A : Type} (l : list (Z * A)) (x y : Z * A) :
  NoDup (map fst l) -> x ∈ l -> y ∈ l -> x.1 = y.1 -> x = y.
Proof.
  induction l as [|z l IH]; intros Hnd Hx Hy Heq; [inversion Hx|].
  simpl in Hnd. apply NoDup_cons in Hnd as [Hz Hnd].
  apply elem_of_cons in Hx as [->|Hx]; apply elem_of_cons in Hy as [->|Hy].
  - reflexivity.
  - exfalso. apply Hz. rewrite Heq. apply (list_elem_of_fmap_2 fst), Hy.
  - exfalso. apply Hz. rewrite <- Heq. apply (list_elem_of_fmap_2 fst), Hx.
  - apply IH; assumption.
Qed.

(** A list with distinct keys has one ascending arrangement. *)
Lemma sorted_unique {A : Type} (l1 l2 : list (Z * A)) :
  Permutation l1 l2 -> NoDup (map fst l1) ->
  Sorted key_le l1 -> Sorted key_le l2 -> l1 = l2.
Proof.
  revert l2. induction l1 as [|x l1 IH]; intros l2 Hp Hnd Hs1 Hs2.
  - apply Permutation_nil in Hp. congruence.
  - destruct l2 as [|y l2]; [symmetry in Hp; apply Permutation_nil_cons in Hp as []|].
    assert (Hxy : x = y).
    { apply (NoDup_keys_eq (x :: l1)); [exact Hnd|left|rewrite Hp; left|].
      apply Z.le_antisymm.
      - apply (key_le_head x l1 Hs1). rewrite Hp. left.
      - apply (key_le_head y l2 Hs2). rewrite <- Hp. left. }
    subst y. f_equal. apply IH.
    + exact (Permutation_cons_inv Hp).
    + simpl in Hnd. apply NoDup_cons in Hnd as [_ Hnd]. exact Hnd.
    + inversion Hs1; assumption.
    + inversion Hs2; assumption.
Qed.

Lemma sort_unique {A : Type} (sort : list (Z * A) -> list (Z * A))
    (l1 l2 : list (Z * A)) :
  sorts_by_key sort ->
  Permutation l1 l2 -> NoDup (map fst l1) -> sort l1 = sort l2.
Proof.
  intros Hsort Hp Hnd. apply sorted_unique.
  - rewrite (proj1 (Hsort l1)), (proj1 (Hsort l2)). exact Hp.
  - rewrite (proj1 (Hsort l1)). exact Hnd.
  - apply (proj2 (Hsort l1)).
  - apply (proj2 (Hsort l2)).
Qed.

Lemma mapM_ok_zip {A B C : Type} (f : A -> result B) (g : B -> A -> C)
    (d : B) (l : list A) (bs : list B) :
  mapM f l = Ok bs ->
  bs = map (fun a => match f a with Ok b => b | Raise _ => d end) l
  /\ zip_with g bs l
     = map (fun a => g (match f a with Ok b => b | Raise _ => d end) a) l.
Proof.
  revert bs. induction l as [|a l IH]; intros bs H; simpl in H.
  - injection H as <-. split; reflexivity.
  - destruct (f a) as [b|e] eqn:Ea; simpl in H; [|discriminate].
    destruct (mapM f l) as [bs'|e] eqn:El; simpl in H; [|discriminate].
    injection H as <-. destruct (IH bs' eq_refl) as [H1 H2].
    simpl. rewrite Ea, <- H1, <- H2. split; reflexivity.
Qed.

Lemma mapM_ok_all {A B : Type} (f : A -> result B) (l : list A) (bs : list B) :
  mapM f l = Ok bs -> Forall (fun a => exists b, f a = Ok b) l.
Proof.
  revert bs. induction l as [|a l IH]; intros bs H; simpl in H; constructor.
  - destruct (f a) as [b|e]; [eauto|discriminate].
  - destruct (f a) as [b|e]; simpl in H; [|discriminate].
    destruct (mapM f l) as [bs'|e]; simpl in H; [|discriminate]. eauto.
Qed.

Lemma mapM_all_ok {A B : Type} (f : A -> result B) (l : list A) :
  Forall (fun a => exists b, f a = Ok b) l -> exists bs, mapM f l = Ok bs.
Proof.
  induction 1 as [|a l [b Hb] _ [bs IH]]; simpl; [eauto|].
  rewrite Hb, IH. simpl. eauto.
Qed.

(** Sorting by date forgets the order in which the rows were read, when no
    two rows have the same date. *)
Lemma sort_values_permuted (to_datetime : option string -> cell -> option Z)
    (sort_rows : list (Z * gmap string cell) -> list (Z * gmap string cell))
    (rs1 rs2 : list (gmap string cell)) (date_field resolution : string)
    (ts1 : list Z) :
  sorts_by_key sort_rows ->
  Permutation rs1 rs2 ->
  parse_dates to_datetime rs1 date_field resolution = Ok ts1 ->
  NoDup ts1 ->
  exists ts2,
    parse_dates to_datetime rs2 date_field resolution = Ok ts2
    /\ sort_values sort_rows rs2 date_field ts2
       = sort_values sort_rows rs1 date_field ts1.
Proof.
  intros Hsort Hp Hts Hnd. unfold parse_dates in *.
  pose proof (mapM_ok_all _ _ _ Hts) as Hall. rewrite Hp in Hall.
  destruct (mapM_all_ok _ _ Hall) as [ts2 Hts2].
  exists ts2. split; [exact Hts2|].
  unfold sort_values.
  destruct (mapM_ok_zip _ (fun t r => (t, <[date_field := CDate t]> r)) 0
              _ _ Hts) as [E1 Z1].
  destruct (mapM_ok_zip _ (fun t r => (t, <[date_field := CDate t]> r)) 0
              _ _ Hts2) as [_ Z2].
  rewrite Z1, Z2. f_equal. symmetry. apply (sort_unique _ _ _ Hsort).
  - apply Permutation_map, Hp.
  - rewrite map_map. simpl. rewrite <- E1. exact Hnd.
Qed.

(** X11: the order of the rows in the input table does not matter when the
    dates are distinct: two tables with the same columns and the same rows
    in another order give the same return value, the same log records and,
    when the run succeeds, the same written table, whichever sort is
    used. *)
Theorem row_order_is_irrelevant :
  forall (to_datetime : option string -> cell -> option Z)
         (sort_rows : list (Z * gmap string cell) -> list (Z * gmap string cell))
         (fs : gmap string DataFrame) (log : list log_entry)
         (filepath : string) (k : num) (N : Z)
         (ppt_field date_field resolution : string) (decimals : Z)
         (df1 df2 : DataFrame) (ts : list Z),
    sorts_by_key sort_rows ->
    columns df2 = columns df1 ->
    Permutation (rows df1) (rows df2) ->
    parse_dates to_datetime (rows df1) date_field resolution = Ok ts ->
    NoDup ts ->
    let r1 := calculate_napi to_datetime sort_rows (<[filepath := df1]> fs) log
                filepath k N ppt_field date_field resolution decimals in
    let r2 := calculate_napi to_datetime sort_rows (<[filepath := df2]> fs) log
                filepath k N ppt_field date_field resolution decimals in
    r1.1.1 = r2.1.1 /\ r1.2 = r2.2 /\ (r1.1.1 = true -> r1.1.2 = r2.1.2).
Proof.
  intros to_datetime sort_rows fs log filepath k N ppt_field date_field
         resolution decimals df1 df2 ts Hsorts Hcols Hp Hts Hnd.
  destruct (sort_values_permuted to_datetime sort_rows _ _ date_field
              resolution ts Hsorts Hp Hts Hnd) as [ts2 [Hts2 Hsort]].
  assert (Hfail : forall (l : list log_entry) (a b : gmap string DataFrame),
             false = false /\ l = l /\ (false = true -> a = b))
    by (intros; refine (conj _ (conj _ _)); [reflexivity|reflexivity|discriminate]).
  cbv zeta. unfold calculate_napi, napi_body.
  rewrite !lookup_insert_eq. simpl rbind.
  unfold has_column. rewrite Hcols.
  destruct (negb _ || negb _); [apply Hfail|].
  rewrite Hts, Hts2. simpl rbind. cbn [rows columns]. rewrite Hsort, ?Hcols.
  destruct (numeric_column _ _) as [col|e]; simpl rbind; [|apply Hfail].
  destruct (feqb _ _).
  - simpl. rewrite !insert_insert_eq. auto.
  - destruct (mapM _ _) as [powers|e]; simpl rbind; [|apply Hfail].
    cbn [rows columns set_column].
    destruct (napi_loop _ _ _ _ _ _ _) as [rs|e]; simpl rbind; [|apply Hfail].
    cbn [rows columns].
    destruct (conditions_loop _) as [rs'|e]; simpl rbind; [|apply Hfail].
    simpl. rewrite !insert_insert_eq. auto.
Qed.

Lemma row_order_is_irrelevant_witness :
  let r1 := calculate_napi Sample.digits_key sort_by_key
              (<["out/ppt.csv" := Sample.ppt_table]> ∅) [] "out/ppt.csv"
              (Fin (qc 9 10)) 2 "Arithmetic Mean (mm)" "Date" "daily" 2 in
  let r2 := calculate_napi Sample.digits_key sort_by_key
              (<["out/ppt.csv" := Sample2.ppt_table_swapped]> ∅) []
              "out/ppt.csv" (Fin (qc 9 10)) 2 "Arithmetic Mean (mm)" "Date"
              "daily" 2 in
  r1.1.1 = r2.1.1 /\ r1.2 = r2.2 /\ (r1.1.1 = true -> r1.1.2 = r2.1.2).
Proof.
  apply (row_order_is_irrelevant Sample.digits_key sort_by_key ∅ []
           "out/ppt.csv" (Fin (qc 9 10)) 2 "Arithmetic Mean (mm)" "Date" "daily"
           2 Sample.ppt_table Sample2.ppt_table_swapped Sample.ppt_table_keys).
  - exact insertion_sorts_by_key.
  - reflexivity.
  - apply perm_swap.
  - by_compute.
  - by_compute.
Defined.

(** ** [ante_conditions]: what reaches [calculate_napi] *)

Section AnteProofs.

Variable to_datetime : option string -> cell -> option Z.
Variable sort_rows : list (Z * gmap string cell) -> list (Z * gmap string cell).
Variable parse_float : string -> option num.
Variable parse_int : string -> option Z.
Variable str_float : num -> string.
Variable str_int : Z -> string.
Variable str_input_exn : input_exn -> string.

Lemma k_loop_typical (k_value : num) (inputs : list string) (log : list log_entry) :
  typical k_value = true ->
  k_loop parse_float str_float k_value inputs log = (log, inr (k_value, inputs)).
Proof. intros H. destruct inputs; simpl; rewrite H; reflexivity. Qed.

(** The first loop only adds records, and leaves with a constant that is in
    the typical range or has been warned about. *)
Lemma k_loop_leaves (n : nat) :
  forall (inputs : list string) (k_value : num) (log log' : list log_entry)
         (k' : num) (rest : list string),
    (length inputs <= n)%nat ->
    k_loop parse_float str_float k_value inputs log = (log', inr (k', rest)) ->
    typical k' = true \/ k_warning str_float k' ∈ log'.
Proof.
  induction n as [|n IH]; intros inputs k_value log log' k' rest Hlen H.
  - destruct inputs; [|simpl in Hlen; lia]. simpl in H.
    destruct (typical k_value) eqn:Et; [|discriminate].
    injection H as <- <- <-. left. exact Et.
  - destruct inputs as [|c inputs]; simpl in H;
      destruct (typical k_value) eqn:Et;
      try (injection H as <- <- <-; left; exact Et); try discriminate.
    destruct (says_yes (lower c)).
    { injection H as <- <- <-. right. apply elem_of_app. right. left. }
    destruct (says_no (lower c)).
    + destruct inputs as [|s rest']; [discriminate|].
      destruct (parse_float s) as [k1|]; [|discriminate].
      apply (IH rest' k1 _ _ _ _ ltac:(simpl in Hlen; lia) H).
    + apply (IH inputs k_value _ _ _ _ ltac:(simpl in Hlen; lia) H).
Qed.

Section DaysProofs.

Variables (csv_dir csv_file ppt_field date_field resolution : string).
Variable decimals : Z.
Variable k_value : num.

Lemma attempt_after_call (ante_days : Z) (fs : gmap string DataFrame)
    (log : list log_entry)
    (again : list log_entry -> gmap string DataFrame * list log_entry) :
  (forall l, after_call to_datetime sort_rows csv_dir csv_file ppt_field date_field
    resolution decimals k_value fs (again l).1
             /\ exists extra, (again l).2 = l ++ extra) ->
  after_call to_datetime sort_rows csv_dir csv_file ppt_field date_field
    resolution decimals k_value fs (attempt to_datetime sort_rows str_float str_int csv_dir csv_file
                   ppt_field date_field resolution decimals k_value
                   ante_days fs log again).1
  /\ exists extra,
       (attempt to_datetime sort_rows str_float str_int csv_dir csv_file
          ppt_field date_field resolution decimals k_value
          ante_days fs log again).2 = log ++ extra.
Proof.
  intros Hagain. unfold attempt.
  destruct (0 <? ante_days) eqn:Epos.
  - apply Z.ltb_lt in Epos.
    set (log1 := log ++ [calculating_info str_float str_int k_value ante_days
                           (path_join csv_dir csv_file)]).
    assert (Hlog : exists extra,
               (calculate_napi to_datetime sort_rows fs log1 (path_join csv_dir csv_file)
                  k_value ante_days ppt_field date_field resolution decimals).2
               = log1 ++ extra).
    { unfold calculate_napi.
      destruct (napi_body _ _ _ _ _ _ _ _ _) as [[[b fs1] entries]|e]; simpl; eauto. }
    destruct Hlog as [extra Hextra].
    assert (Hstore : after_call to_datetime sort_rows csv_dir csv_file ppt_field date_field
    resolution decimals k_value fs
               (calculate_napi to_datetime sort_rows fs log1 (path_join csv_dir csv_file)
                  k_value ante_days ppt_field date_field resolution decimals).1.2).
    { right. exists ante_days, log1. split; [exact Epos|reflexivity]. }
    destruct (calculate_napi _ _ _ _ _ _ _ _ _ _) as [[b fs1] log2].
    simpl in Hextra, Hstore. subst log2 log1.
    destruct b; simpl; (split; [exact Hstore|]);
      rewrite <- !app_assoc; eauto.
  - destruct (Hagain (log ++ [invalid_days_warning str_int ante_days]))
      as [H1 [extra H2]].
    split; [exact H1|]. rewrite H2, <- app_assoc. eauto.
Qed.

Lemma days_loop_after_call (n : nat) :
  forall (inputs : list string) (ante_days : Z) (fs : gmap string DataFrame)
         (log : list log_entry),
    (length inputs <= n)%nat ->
    after_call to_datetime sort_rows csv_dir csv_file ppt_field date_field
    resolution decimals k_value fs (days_loop to_datetime sort_rows parse_int str_float str_int
                     str_input_exn csv_dir csv_file ppt_field date_field
                     resolution decimals k_value ante_days inputs fs log).1
    /\ exists extra,
         (days_loop to_datetime sort_rows parse_int str_float str_int
            str_input_exn csv_dir csv_file ppt_field date_field
            resolution decimals k_value ante_days inputs fs log).2
         = log ++ extra.
Proof.
  induction n as [|n IH]; intros inputs ante_days fs log Hlen.
  - destruct inputs; [|simpl in Hlen; lia]. simpl. split; [left; reflexivity|eauto].
  - destruct inputs as [|a inputs]; simpl.
    { split; [left; reflexivity|eauto]. }
    simpl in Hlen.
    destruct (says_no (lower a)).
    + destruct inputs as [|s rest']; simpl.
      { split; [left; reflexivity|eauto]. }
      simpl in Hlen.
      destruct (parse_int s) as [d|].
      * apply attempt_after_call. intros l. apply IH. lia.
      * destruct (IH rest' ante_days fs (log ++ [invalid_input_warning])
                    ltac:(lia)) as [H1 [extra H2]].
        split; [exact H1|]. rewrite H2, <- app_assoc. eauto.
    + apply attempt_after_call. intros l. apply IH. lia.
Qed.

End DaysProofs.

End AnteProofs.

(** X12: [ante_conditions] leaves the files as they were, or as one call of
    [calculate_napi] with a window of at least one row leaves them; the
    decay constant of that call is strictly between 0 and 1, or a warning
    naming it is in the log. *)
Theorem napi_call_has_positive_window :
  forall (to_datetime : option string -> cell -> option Z)
         (sort_rows : list (Z * gmap string cell) -> list (Z * gmap string cell))
         (parse_float : string -> option num) (parse_int : string -> option Z)
         (str_float : num -> string) (str_int : Z -> string)
         (str_input_exn : input_exn -> string)
         (fs : gmap string DataFrame) (log : list log_entry)
         (inputs : list string)
         (csv_dir csv_file ppt_field date_field resolution : string)
         (decimals : Z),
    let r := ante_conditions to_datetime sort_rows parse_float parse_int str_float
               str_int str_input_exn fs log inputs csv_dir csv_file ppt_field
               date_field resolution decimals in
    r.1.2 = fs
    \/ exists (k : num) (N : Z) (log0 : list log_entry),
         0 < N
         /\ (typical k = true \/ k_warning str_float k ∈ r.2)
         /\ r.1.2 = (calculate_napi to_datetime sort_rows fs log0
                       (path_join csv_dir csv_file) k N ppt_field date_field
                       resolution decimals).1.2.
Proof.
  intros to_datetime sort_rows parse_float parse_int str_float str_int str_input_exn
         fs log inputs csv_dir csv_file ppt_field date_field resolution decimals.
  cbv zeta. unfold ante_conditions.
  destruct (k_prompt parse_float inputs) as [e|[k0 inputs0]]; [left; reflexivity|].
  destruct (k_loop parse_float str_float k0 inputs0 log) as [log1 [e|[k inputs1]]] eqn:Ek;
    [left; reflexivity|].
  pose proof (k_loop_leaves parse_float str_float _ _ _ _ _ _ _ (le_n _) Ek) as Hk.
  destruct (if String.eqb resolution "daily" then Some 30
            else if String.eqb resolution "monthly" then Some 3 else None)
    as [d|]; [|left; reflexivity].
  destruct (days_loop_after_call to_datetime sort_rows parse_int str_float str_int
              str_input_exn csv_dir csv_file ppt_field date_field resolution
              decimals k _ inputs1 d fs log1 (le_n _)) as [Hstore [extra Hlog]].
  destruct (days_loop _ _ _ _ _ _ _ _ _ _ _ _ _ _ _ _) as [fs' log'].
  simpl in *. destruct Hstore as [->|[N [log0 [HN Hfs]]]]; [left; reflexivity|].
  right. exists k, N, log0. split; [exact HN|]. split; [|exact Hfs].
  destruct Hk as [Hk|Hk]; [left; exact Hk|right].
  rewrite Hlog. apply elem_of_app. left. exact Hk.
Qed.

(** X13: with a resolution other than 'daily' and 'monthly' no call is made
    and the files stay as they were; when the preset decay constant is kept,
    the function returns after logging that [ante_days] has no value. *)
Theorem unknown_resolution_makes_no_call :
  forall (to_datetime : option string -> cell -> option Z)
         (sort_rows : list (Z * gmap string cell) -> list (Z * gmap string cell))
         (parse_float : string -> option num) (parse_int : string -> option Z)
         (str_float : num -> string) (str_int : Z -> string)
         (str_input_exn : input_exn -> string)
         (fs : gmap string DataFrame) (log : list log_entry)
         (csv_dir csv_file ppt_field date_field resolution : string)
         (decimals : Z),
    resolution <> "daily" -> resolution <> "monthly" ->
    (forall inputs,
        (ante_conditions to_datetime sort_rows parse_float parse_int str_float str_int
           str_input_exn fs log inputs csv_dir csv_file ppt_field date_field
           resolution decimals).1.2 = fs)
    /\ (forall k_input rest,
          says_no k_input = false ->
          ante_conditions to_datetime sort_rows parse_float parse_int str_float str_int
            str_input_exn fs log (k_input :: rest) csv_dir csv_file ppt_field
            date_field resolution decimals
          = (None, fs,
             log ++ [calc_fail_error str_input_exn (UnboundLocalError "ante_days")])).
Proof.
  intros to_datetime sort_rows parse_float parse_int str_float str_int str_input_exn
         fs log csv_dir csv_file ppt_field date_field resolution decimals Hd Hm.
  apply String.eqb_neq in Hd, Hm.
  split.
  - intros inputs. unfold ante_conditions. rewrite Hd, Hm.
    destruct (k_prompt parse_float inputs) as [e|[k0 inputs0]]; [reflexivity|].
    destruct (k_loop parse_float str_float k0 inputs0 log) as [log1 [e|[k inputs1]]];
      reflexivity.
  - intros k_input rest Hno. unfold ante_conditions, k_prompt.
    rewrite Hd, Hm, Hno.
    rewrite k_loop_typical by (apply (bool_decide_eq_true_1 _); vm_compute; reflexivity).
    reflexivity.
Qed.

Lemma unknown_resolution_makes_no_call_witness :
  (forall inputs,
      (ante_conditions Sample.digits_key sort_by_key (fun _ => None) (fun _ => None)
         (fun _ => "k") (fun _ => "n") (fun _ => "e")
         Sample.csv_files [] inputs "out" "ppt.csv" "Arithmetic Mean (mm)"
         "Date" "yearly" 2).1.2 = Sample.csv_files)
  /\ (forall k_input rest,
        says_no k_input = false ->
        ante_conditions Sample.digits_key sort_by_key (fun _ => None) (fun _ => None)
          (fun _ => "k") (fun _ => "n") (fun _ => "e")
          Sample.csv_files [] (k_input :: rest) "out" "ppt.csv"
          "Arithmetic Mean (mm)" "Date" "yearly" 2
        = (None, Sample.csv_files,
           [] ++ [calc_fail_error (fun _ => "e") (UnboundLocalError "ante_days")])).
Proof.
  apply (unknown_resolution_makes_no_call Sample.digits_key sort_by_key (fun _ => None)
           (fun _ => None) (fun _ => "k") (fun _ => "n") (fun _ => "e")
           Sample.csv_files [] "out" "ppt.csv" "Arithmetic Mean (mm)" "Date"
           "yearly" 2); discriminate.
Defined.

(** X14: an exception leaves [ante_conditions] only from its first prompt
    (no line to read) or from the decay constant typed in there (no line, or
    not a number); nothing has been logged or written by then.  Every later
    failure is caught. *)
Theorem only_the_first_prompt_raises :
  forall (to_datetime : option string -> cell -> option Z)
         (sort_rows : list (Z * gmap string cell) -> list (Z * gmap string cell))
         (parse_float : string -> option num) (parse_int : string -> option Z)
         (str_float : num -> string) (str_int : Z -> string)
         (str_input_exn : input_exn -> string)
         (fs : gmap string DataFrame) (log : list log_entry)
         (inputs : list string)
         (csv_dir csv_file ppt_field date_field resolution : string)
         (decimals : Z) (e : input_exn) (fs' : gmap string DataFrame)
         (log' : list log_entry),
    ante_conditions to_datetime sort_rows parse_float parse_int str_float str_int
      str_input_exn fs log inputs csv_dir csv_file ppt_field date_field
      resolution decimals = (Some e, fs', log') ->
    fs' = fs /\ log' = log
    /\ ((inputs = [] /\ e = EOFError)
        \/ exists k_input, says_no k_input = true
             /\ ((inputs = [k_input] /\ e = EOFError)
                 \/ exists s rest, inputs = k_input :: s :: rest
                      /\ parse_float s = None /\ e = NumberError s)).
Proof.
  intros to_datetime sort_rows parse_float parse_int str_float str_int str_input_exn
         fs log inputs csv_dir csv_file ppt_field date_field resolution
         decimals e fs' log' H.
  unfold ante_conditions in H.
  destruct (k_prompt parse_float inputs) as [e0|[k0 inputs0]] eqn:Ep.
  - injection H as <- <- <-. split; [reflexivity|]. split; [reflexivity|].
    unfold k_prompt in Ep. destruct inputs as [|a rest].
    + left. split; [reflexivity|congruence].
    + right. exists a. destruct (says_no a); [|discriminate].
      split; [reflexivity|]. destruct rest as [|s rest].
      * left. split; [reflexivity|congruence].
      * right. exists s, rest. destruct (parse_float s); [discriminate|].
        split; [reflexivity|]. split; [reflexivity|congruence].
  - destruct (k_loop parse_float str_float k0 inputs0 log) as [log1 [e1|[k inputs1]]];
      [discriminate|].
    destruct (if String.eqb resolution "daily" then Some 30
              else if String.eqb resolution "monthly" then Some 3 else None);
      [|discriminate].
    destruct (days_loop _ _ _ _ _ _ _ _ _ _ _ _ _ _ _ _); discriminate.
Qed.

Lemma only_the_first_prompt_raises_witness :
  Sample.csv_files = Sample.csv_files /\ @nil log_entry = []
  /\ ((["no"; "fast"] = [] /\ NumberError "fast" = EOFError)
      \/ exists k_input, says_no k_input = true
           /\ ((["no"; "fast"] = [k_input] /\ NumberError "fast" = EOFError)
               \/ exists s rest, ["no"; "fast"] = k_input :: s :: rest
                    /\ (fun _ : string => @None num) s = None
                    /\ NumberError "fast" = NumberError s)).
Proof.
  apply (only_the_first_prompt_raises Sample.digits_key sort_by_key (fun _ => None)
           (fun _ => None) (fun _ => "k") (fun _ => "n") (fun _ => "e")
           Sample.csv_files [] ["no"; "fast"] "out" "ppt.csv"
           "Arithmetic Mean (mm)" "Date" "daily" 2 (NumberError "fast")
           Sample.csv_files []).
  reflexivity.
Defined.

(** ** The column the NAPI step reads and the header [climate_data] writes *)

Lemma climate_data_header (files : gmap string Raster)
    (csv_dir csv_file : string) (clipped_rasters : list string)
    (climate unit : string) (decimals : Z) :
  fieldnames (climate_data files csv_dir csv_file clipped_rasters climate unit
                decimals).1.2
  = ["Filename"; "Climate Variable"; "Date"] ++ stat_columns unit.
Proof.
  unfold climate_data. cbv zeta.
  destruct (rows_loop _ _ _ _ _ _ _ _) as [[[e|] rs] l]; reflexivity.
Qed.

Lemma ppt_field_in_header (unit : string) :
  napi_ppt_field unit ∈ ["Filename"; "Climate Variable"; "Date"] ++ stat_columns unit
  <-> unit = "mm" \/ unit = "in".
Proof.
  unfold napi_ppt_field, stat_columns.
  destruct (String.eqb unit "in") eqn:Ein.
  { apply String.eqb_eq in Ein. subst unit. simpl. split; [auto|].
    intros _. apply (bool_decide_eq_true_1 _). vm_compute. reflexivity. }
  destruct (String.eqb unit "mm") eqn:Emm.
  { apply String.eqb_eq in Emm. subst unit. split; [auto|].
    intros _. apply (bool_decide_eq_true_1 _). vm_compute. reflexivity. }
  apply String.eqb_neq in Ein, Emm.
  split; [|intros [?|?]; contradiction].
  intros H. exfalso. revert H.
  destruct (String.eqb unit "f"); [|destruct (String.eqb unit "c")];
    apply (bool_decide_eq_false_1 _); vm_compute; reflexivity.
Qed.

(** X15: the NAPI step reads the column 'Arithmetic Mean (mm)' for the unit
    'mm' and 'Arithmetic Mean (in)' for every other unit, and the header
    [climate_data] writes has that column only for the units 'mm' and 'in'.
    For any other unit a table with the written header makes
    [calculate_napi] fail on the missing column, whatever the rows. *)
Theorem napi_needs_mm_or_in :
  forall (to_datetime : option string -> cell -> option Z)
         (sort_rows : list (Z * gmap string cell) -> list (Z * gmap string cell))
         (files : gmap string Raster) (csv_dir csv_file : string)
         (clipped_rasters : list string) (climate unit : string) (decimals : Z)
         (fs : gmap string DataFrame) (log : list log_entry)
         (k : num) (N : Z) (resolution : string) (df : DataFrame),
    unit <> "mm" -> unit <> "in" ->
    fs !! path_join csv_dir csv_file = Some df ->
    columns df = fieldnames (climate_data files csv_dir csv_file clipped_rasters
                               climate unit decimals).1.2 ->
    calculate_napi to_datetime sort_rows fs log (path_join csv_dir csv_file) k N
                   (napi_ppt_field unit) "Date" resolution decimals
    = (false, fs, log ++ [missing_columns_error (napi_ppt_field unit) "Date"]).
Proof.
  intros to_datetime sort_rows files csv_dir csv_file clipped_rasters climate unit
         decimals fs log k N resolution df Hmm Hin Hfile Hcols.
  rewrite climate_data_header in Hcols.
  unfold calculate_napi, napi_body. rewrite Hfile. simpl rbind.
  assert (Hmiss : has_column df (napi_ppt_field unit) = false).
  { unfold has_column. apply bool_decide_eq_false_2. rewrite Hcols.
    rewrite ppt_field_in_header. intros [?|?]; contradiction. }
  rewrite Hmiss. reflexivity.
Qed.

Lemma napi_needs_mm_or_in_witness :
  calculate_napi Sample.digits_key sort_by_key Sample2.celsius_csv_files []
                 (path_join "out" "ppt.csv") (of_dec 98 100) 30
                 (napi_ppt_field "c") "Date" "daily" 2
  = (false, Sample2.celsius_csv_files,
     [] ++ [missing_columns_error (napi_ppt_field "c") "Date"]).
Proof.
  apply (napi_needs_mm_or_in Sample.digits_key sort_by_key Sample.clipped_files "out"
           "ppt.csv" ["clipped/prism_ppt_30s_20200101_clip.tif"] "ppt" "c" 2
           Sample2.celsius_csv_files [] (of_dec 98 100) 30 "daily"
           Sample2.celsius_table).
  - discriminate.
  - discriminate.
  - by_compute.
  - by_compute.
Defined.

(** ** [prism_download]: what is reported and what is written *)

(** X16: [prism_download] gives its caller a true value exactly when the
    request succeeded with status 200 and a body that is not empty; the zip
    file is then in the working directory under the name built from the
    variable, the resolution and the date, with the body as its content.  In
    every other case, an empty body with status 200 among them, the files
    are as they were. *)
Theorem download_reported_iff_written :
  forall (get : string -> fetched) (str_int : Z -> string)
         (fs : gmap string string) (log : list log_entry)
         (cwd climate startDate url currentDate_dt resolution : string),
    let r := prism_download get str_int fs log cwd climate startDate url
               currentDate_dt resolution in
    (truthy r.1.1 = true
     <-> exists download, get url = Got download
           /\ status_code download = 200 /\ chunks download <> [])
    /\ (truthy r.1.1 = true ->
        r.1.1 = Value (Some [zip_name climate resolution startDate])
        /\ exists download, get url = Got download
             /\ r.1.2 = <[path_join cwd (zip_name climate resolution startDate)
                            := content download]> fs)
    /\ (truthy r.1.1 = false -> r.1.2 = fs).
Proof.
  intros get str_int fs log cwd climate startDate url currentDate_dt resolution.
  cbv zeta. unfold prism_download.
  destruct (get url) as [download|msg] eqn:Eg.
  - destruct (chunks download) as [|c cs] eqn:Ec.
    + simpl. split; [|split; [discriminate|reflexivity]].
      split; [discriminate|]. intros [d [Hd [_ Hne]]].
      injection Hd as <-. contradiction.
    + destruct (status_code download =? 200) eqn:Es.
      * apply Z.eqb_eq in Es. simpl.
        split; [|split; [|discriminate]].
        -- split; [|reflexivity]. intros _. exists download.
           rewrite Ec. split; [reflexivity|]. split; [exact Es|discriminate].
        -- intros _. split; [reflexivity|]. exists download. split; reflexivity.
      * apply Z.eqb_neq in Es. simpl.
        split; [|split; [discriminate|reflexivity]].
        split; [discriminate|]. intros [d [Hd [H200 _]]].
        injection Hd as <-. contradiction.
  - simpl. split; [|split; [discriminate|reflexivity]].
    split; [discriminate|]. intros [d [Hd _]]. discriminate.
Qed.

(** ** [file_mover] and [file_sorter]: nothing is lost or overwritten *)

Lemma isfile_false (fs : gmap string string) (p : string) :
  isfile fs p = false -> fs !! p = None.
Proof.
  unfold isfile. intros H. apply bool_decide_eq_false_1 in H.
  destruct (fs !! p) eqn:E; [|reflexivity]. exfalso. apply H. eauto.
Qed.

Lemma isfile_true (fs : gmap string string) (p : string) :
  isfile fs p = true -> exists c, fs !! p = Some c.
Proof. unfold isfile. intros H. apply bool_decide_eq_true_1 in H. exact H. Qed.

(** A move keeps the contents on disk, as a collection with repetitions, and
    every file other than its source where it is. *)
Lemma move_keeps (fs fs' : gmap string string) (src dst : string) :
  move fs src dst = inr fs' ->
  (map_to_list fs').*2 ≡ₚ (map_to_list fs).*2
  /\ forall p c, p <> src -> fs !! p = Some c -> fs' !! p = Some c.
Proof.
  unfold move. destruct (isfile fs _) eqn:Ed; [discriminate|].
  apply isfile_false in Ed.
  destruct (fs !! src) as [c0|] eqn:Es; [|discriminate].
  intros H. injection H as <-. split.
  - rewrite map_to_list_insert by (rewrite lookup_delete_None; right; exact Ed).
    rewrite <- (map_to_list_delete fs src c0 Es). reflexivity.
  - intros p c Hp Hc.
    rewrite lookup_insert_ne by (intros <-; congruence).
    rewrite lookup_delete_ne by congruence. exact Hc.
Qed.

Lemma sort_step_keeps (outPath : string) (subDirectories : gmap string string)
    (fs : gmap string string) (log : list log_entry) (filename : string) :
  let st := sort_step outPath subDirectories (fs, log) filename in
  (map_to_list st.1).*2 ≡ₚ (map_to_list fs).*2
  /\ forall p c, p <> path_join outPath filename ->
                 fs !! p = Some c -> st.1 !! p = Some c.
Proof.
  cbv zeta. unfold sort_step.
  destruct (isfile fs (path_join outPath filename)); [|simpl; auto].
  destruct (subDirectories !! _) as [subPath|]; [|simpl; auto].
  destruct (negb _); [|simpl; auto].
  destruct (move fs _ subPath) as [e|fs'] eqn:Em; [simpl; auto|].
  simpl. exact (move_keeps _ _ _ _ Em).
Qed.

Lemma sort_loop_keeps (outPath : string) (subDirectories : gmap string string)
    (data_files : list string) :
  forall (fs : gmap string string) (log : list log_entry),
    let st := fold_left (sort_step outPath subDirectories) data_files (fs, log) in
    (map_to_list st.1).*2 ≡ₚ (map_to_list fs).*2
    /\ forall p c, (forall f, f ∈ data_files -> p <> path_join outPath f) ->
                   fs !! p = Some c -> st.1 !! p = Some c.
Proof.
  induction data_files as [|f l IH]; intros fs log; cbv zeta; cbn [fold_left].
  - simpl. split; [reflexivity|auto].
  - destruct (sort_step_keeps outPath subDirectories fs log f) as [H1 H2].
    destruct (sort_step outPath subDirectories (fs, log) f) as [fs1 log1].
    simpl in H1, H2.
    destruct (IH fs1 log1) as [H3 H4]. split.
    + rewrite H3. exact H1.
    + intros p c Hp Hc. apply H4.
      * intros g Hg. apply Hp. right. exact Hg.
      * apply H2; [apply Hp; left|exact Hc].
Qed.

(** X17: sorting the files of a directory loses and duplicates nothing: the
    contents on disk afterwards are the contents before, counted with
    repetitions; and every file that is not one of the listed names of the
    directory is where it was with the content it had. *)
Theorem file_sorter_keeps_every_file :
  forall (str_int : nat -> string) (outPath : string)
         (subDirectories : gmap string string)
         (fs : gmap string string) (log : list log_entry) (names : list string),
    let r := file_sorter str_int outPath subDirectories fs log names in
    (map_to_list r.1.2).*2 ≡ₚ (map_to_list fs).*2
    /\ forall p c, (forall f, f ∈ names -> p <> path_join outPath f) ->
                   fs !! p = Some c -> r.1.2 !! p = Some c.
Proof.
  intros str_int outPath subDirectories fs log names. cbv zeta.
  unfold file_sorter.
  destruct (length _ =? 0)%nat; [simpl; split; [reflexivity|auto]|].
  match goal with
  | |- context [fold_left _ ?l (fs, ?lg)] =>
      destruct (sort_loop_keeps outPath subDirectories l fs lg) as [H1 H2];
      destruct (fold_left (sort_step outPath subDirectories) l (fs, lg))
        as [fs' log']
  end.
  simpl in *. split; [exact H1|].
  intros p c Hp Hc. apply H2; [|exact Hc].
  intros f Hf. apply Hp.
  apply list_elem_of_In in Hf. apply filter_In in Hf as [Hf _].
  apply list_elem_of_In. exact Hf.
Qed.

(** X18: [file_sorter] raises exactly when none of the listed names is a
    file; nothing has been moved then.  A move that fails does not raise. *)
Theorem file_sorter_raises_iff_no_file :
  forall (str_int : nat -> string) (outPath : string)
         (subDirectories : gmap string string)
         (fs : gmap string string) (log : list log_entry) (names : list string),
    let r := file_sorter str_int outPath subDirectories fs log names in
    (r.1.1 <> None <-> forall f, f ∈ names -> fs !! path_join outPath f = None)
    /\ (r.1.1 <> None -> r.1.2 = fs).
Proof.
  intros str_int outPath subDirectories fs log names. cbv zeta.
  unfold file_sorter.
  destruct (List.filter _ names) as [|f0 l] eqn:Ef; simpl.
  - split; [|reflexivity]. split; [|discriminate]. intros _ f Hf.
    apply isfile_false. destruct (isfile fs (path_join outPath f)) eqn:Ei;
      [|reflexivity].
    assert (Hin : In f (List.filter (fun f => isfile fs (path_join outPath f)) names)).
    { apply filter_In. split; [apply list_elem_of_In, Hf|exact Ei]. }
    rewrite Ef in Hin. destruct Hin.
  - assert (Hin : In f0 (List.filter (fun f => isfile fs (path_join outPath f)) names))
      by (rewrite Ef; left; reflexivity).
    apply filter_In in Hin as [Hin Hfile].
    apply isfile_true in Hfile as [c Hc].
    destruct (fold_left _ l _) as [fs' log']. simpl.
    split; [|intros H; contradiction]. split; [intros H; contradiction|].
    intros Hnone. apply list_elem_of_In in Hin.
    rewrite (Hnone f0 Hin) in Hc. discriminate.
Qed.

(** X19: [file_mover] never overwrites or loses a file: the contents on disk
    afterwards are the contents before, counted with repetitions, and every
    file other than the one to move is where it was with the content it
    had, also when the file name given differs from the name of the source;
    when it raises, the files are as they were. *)
Theorem file_mover_never_overwrites :
  forall (fs : gmap string string) (log : list log_entry)
         (sourcePath filename outPath : string),
    let r := file_mover fs log sourcePath filename outPath in
    (map_to_list r.1.2).*2 ≡ₚ (map_to_list fs).*2
    /\ (forall p c, p <> sourcePath -> fs !! p = Some c -> r.1.2 !! p = Some c)
    /\ (r.1.1 <> None -> r.1.2 = fs).
Proof.
  intros fs log sourcePath filename outPath. cbv zeta. unfold file_mover.
  destruct (negb _).
  - destruct (move fs sourcePath outPath) as [e|fs'] eqn:Em; simpl.
    + split; [reflexivity|]. split; [auto|reflexivity].
    + destruct (move_keeps _ _ _ _ Em) as [H1 H2].
      split; [exact H1|]. split; [exact H2|]. intros H. contradiction.
  - simpl. split; [reflexivity|]. split; [auto|reflexivity].
Qed.

(** ** Instances on concrete inputs *)

Lemma download_reported_iff_written_witness :
  let r := prism_download Sample2.get_ok (fun _ => "200") ∅ [] "/work" "ppt"
             "20200101" "https://example.org/ppt/20200101" "2020-01-01"
             "daily" in
  (truthy r.1.1 = true
   <-> exists download,
         Sample2.get_ok "https://example.org/ppt/20200101" = Got download
         /\ status_code download = 200 /\ chunks download <> [])
  /\ (truthy r.1.1 = true ->
      r.1.1 = Value (Some [zip_name "ppt" "daily" "20200101"])
      /\ exists download,
           Sample2.get_ok "https://example.org/ppt/20200101" = Got download
           /\ r.1.2 = <[path_join "/work" (zip_name "ppt" "daily" "20200101")
                          := content download]> ∅)
  /\ (truthy r.1.1 = false -> r.1.2 = ∅).
Proof.
  apply (download_reported_iff_written Sample2.get_ok (fun _ => "200") ∅ []
           "/work" "ppt" "20200101" "https://example.org/ppt/20200101"
           "2020-01-01" "daily").
Defined.

Lemma file_sorter_keeps_every_file_witness :
  let r := file_sorter (fun _ => "2") "data" Sample2.sub_directories
             Sample2.disk [] ["a.tif"; "b.xml"; "geotiffs"] in
  (map_to_list r.1.2).*2 ≡ₚ (map_to_list Sample2.disk).*2
  /\ forall p c, (forall f, f ∈ ["a.tif"; "b.xml"; "geotiffs"] ->
                            p <> path_join "data" f) ->
                 Sample2.disk !! p = Some c -> r.1.2 !! p = Some c.
Proof.
  apply (file_sorter_keeps_every_file (fun _ => "2") "data"
           Sample2.sub_directories Sample2.disk []
           ["a.tif"; "b.xml"; "geotiffs"]).
Defined.

Lemma file_sorter_raises_iff_no_file_witness :
  let r := file_sorter (fun _ => "0") "data" Sample2.sub_directories
             Sample2.disk [] ["geotiffs"; "metadata"] in
  (r.1.1 <> None
   <-> forall f, f ∈ ["geotiffs"; "metadata"] ->
                 Sample2.disk !! path_join "data" f = None)
  /\ (r.1.1 <> None -> r.1.2 = Sample2.disk).
Proof.
  apply (file_sorter_raises_iff_no_file (fun _ => "0") "data"
           Sample2.sub_directories Sample2.disk [] ["geotiffs"; "metadata"]).
Defined.

Lemma file_mover_never_overwrites_witness :
  let r := file_mover Sample2.disk [] "data/a.tif" "b.tif" "data/geotiffs" in
  (map_to_list r.1.2).*2 ≡ₚ (map_to_list Sample2.disk).*2
  /\ (forall p c, p <> "data/a.tif" -> Sample2.disk !! p = Some c ->
                  r.1.2 !! p = Some c)
  /\ (r.1.1 <> None -> r.1.2 = Sample2.disk).
Proof.
  apply (file_mover_never_overwrites Sample2.disk [] "data/a.tif" "b.tif"
           "data/geotiffs").
Defined.
